(** * clockTUIfy: the week-entry reconciliation engine

    A shallow embedding of [week_utils.py], [clockify_api.py] and the
    reconciliation part of [app.py], followed by the properties of the
    specification that concern them.

    Conventions of the embedding.
    - A Python exception is a value of [exn]; code that may raise returns
      [result A].  Code that talks to the remote ledger runs in the monad
      [M], which threads the ledger and keeps its state when an exception
      is raised (a remote effect is not undone by a later failure).
    - [datetime.date] is its proleptic Gregorian ordinal ([date.toordinal]),
      an integer between [MINORDINAL] and [MAXORDINAL].
    - [float] is IEEE-754 binary64, represented by [spec_float] in
      canonical form; every operation is the correctly rounded one.
    - [str] is a [string] of code points below 256.
    - The wall clock is an argument [today] of each function that reads it
      ([datetime.utcnow().date()]).
    - [debug] returns at once because [DEBUG] is [False]; it is left out. *)

From Stdlib Require Import ZArith Lia Bool List Ascii String SpecFloat.
From stdpp Require Import base option list gmap strings.

Local Open Scope Z_scope.

(** ** Exceptions and the error monad *)

Module Py.

Inductive exn : Type :=
| OverflowError
| ValueError
| IndexError
| RequestException.

Inductive result (A : Type) : Type :=
| Ok (a : A)
| Raise (e : exn).
Arguments Ok {A} a.
Arguments Raise {A} e.

Definition rbind {A B : Type} (r : result A) (k : A -> result B) : result B :=
  match r with
  | Ok a => k a
  | Raise e => Raise e
  end.

(** [[f(x) for x in xs]] where [f] may raise. *)
Fixpoint rmap {A B : Type} (f : A -> result B) (xs : list A) : result (list B) :=
  match xs with
  | [] => Ok []
  | x :: xs' =>
      rbind (f x) (fun y => rbind (rmap f xs') (fun ys => Ok (y :: ys)))
  end.

End Py.
Export Py.

Declare Scope result_scope.
Delimit Scope result_scope with result.
Notation "'let?' x ':=' r 'in' k" := (rbind r (fun x => k))
  (at level 10, x name, r at level 100, k at level 200) : result_scope.
Local Open Scope result_scope.

(** ** datetime.date, datetime.datetime and datetime.timedelta *)

Module Datetime.

Definition MINORDINAL : Z := 1.
(** [date(9999, 12, 31).toordinal()] *)
Definition MAXORDINAL : Z := 3652059.

(** [date.weekday()]: Monday is 0. *)
Definition weekday (d : Z) : Z := (d + 6) mod 7.

(** A [timedelta] is its length in seconds (no microseconds occur); its
    [days] field is bounded by 999999999 on both sides. *)
Definition td_days (td : Z) : Z := td / 86400.

Definition timedelta (seconds : Z) : result Z :=
  if (-999999999 <=? td_days seconds) && (td_days seconds <=? 999999999)
  then Ok seconds else Raise OverflowError.

Definition timedelta_days (n : Z) : result Z := timedelta (86400 * n).
Definition timedelta_weeks (n : Z) : result Z := timedelta (7 * 86400 * n).
Definition timedelta_hours (n : Z) : result Z := timedelta (3600 * n).
Definition timedelta_minutes (n : Z) : result Z := timedelta (60 * n).

(** [date + timedelta] *)
Definition date_add (d : Z) (td : Z) : result Z :=
  let o := d + td_days td in
  if (0 <? o) && (o <=? MAXORDINAL) then Ok o else Raise OverflowError.

(** [date - timedelta] is [date + timedelta(-days)]. *)
Definition date_sub (d : Z) (td : Z) : result Z :=
  let? n := timedelta_days (- td_days td) in date_add d n.

(** A naive [datetime] is the number of seconds since the midnight that
    begins the day of ordinal 0 (microseconds do not occur). *)
Definition dt_date (t : Z) : Z := t / 86400.

(** [datetime.combine(date, datetime.min.time())] *)
Definition midnight (d : Z) : Z := 86400 * d.

(** [datetime + timedelta] *)
Definition datetime_add (t : Z) (td : Z) : result Z :=
  let t' := t + td in
  if (0 <? dt_date t') && (dt_date t' <=? MAXORDINAL)
  then Ok t' else Raise OverflowError.

(** [range(n)] *)
Definition range (n : nat) : list Z := map Z.of_nat (seq 0 n).

End Datetime.

(** ** week_utils.py *)

Module week_utils.
Import Datetime.

Definition get_week_dates (today : Z) (offset_weeks : Z) : result (list Z) :=
  let? wd := timedelta_days (weekday today) in
  let? start_of_week := date_sub today wd in
  let? shift := timedelta_weeks offset_weeks in
  let? start_of_week := date_add start_of_week shift in
  rmap (fun i => let? d := timedelta_days i in date_add start_of_week d) (range 7).

Definition is_future_date (today : Z) (date : Z) : bool := today <? date.

End week_utils.

(** ** Python strings *)

Module Str.

Definition code (c : ascii) : Z := Z.of_N (N_of_ascii c).

Definition is_digit (c : ascii) : bool := (48 <=? code c) && (code c <=? 57).

Definition digit_val (c : ascii) : Z := code c - 48.

Definition digit_char (d : Z) : ascii := ascii_of_N (Z.to_N (48 + d)).

(** [str.isspace] on one code point below 256. *)
Definition is_space (c : ascii) : bool :=
  let n := code c in
  ((9 <=? n) && (n <=? 13)) || ((28 <=? n) && (n <=? 32))
  || (n =? 133) || (n =? 160).

(** C-locale white space, the set [float] strips after it has turned the
    non-ASCII spaces into blanks. *)
Definition is_c_space (c : ascii) : bool :=
  let n := code c in ((9 <=? n) && (n <=? 13)) || (n =? 32).

Fixpoint lstrip (sp : ascii -> bool) (s : list ascii) : list ascii :=
  match s with
  | c :: s' => if sp c then lstrip sp s' else s
  | [] => []
  end.

Definition strip_with (sp : ascii -> bool) (s : list ascii) : list ascii :=
  rev (lstrip sp (rev (lstrip sp s))).

(** [s.strip()] *)
Definition strip (s : string) : string :=
  string_of_list_ascii (strip_with is_space (list_ascii_of_string s)).

(** [s.replace(a, b)] for one-character [a] and [b]. *)
Definition replace_char (a b : ascii) (s : list ascii) : list ascii :=
  map (fun c => if Ascii.eqb c a then b else c) s.

Definition replace (a b : ascii) (s : string) : string :=
  string_of_list_ascii (replace_char a b (list_ascii_of_string s)).

Definition lower (c : ascii) : ascii :=
  let n := code c in
  if (65 <=? n) && (n <=? 90) then ascii_of_N (Z.to_N (n + 32)) else c.

(** The longest run of decimal digits at the front of [s]: its value when
    read after the digits already in [acc], its length, and the rest. *)
Fixpoint take_digits (s : list ascii) (acc : Z) (n : Z) : Z * Z * list ascii :=
  match s with
  | c :: s' =>
      if is_digit c then take_digits s' (10 * acc + digit_val c) (n + 1)
      else (acc, n, s)
  | [] => (acc, n, [])
  end.

Fixpoint digits_go (fuel : nat) (n : Z) (acc : list ascii) : list ascii :=
  match fuel with
  | O => acc
  | S fuel' =>
      let acc' := digit_char (n mod 10) :: acc in
      if n <? 10 then acc' else digits_go fuel' (n / 10) acc'
  end.

(** Decimal digits of [n >= 0]. *)
Definition digits (n : Z) : list ascii :=
  digits_go (S (Z.to_nat (Z.log2 n))) n [].

(** [str(n)] for an [int]. *)
Definition str_int (n : Z) : string :=
  string_of_list_ascii
    (if n <? 0 then "-"%char :: digits (- n) else digits n).

End Str.

(** ** Python floats: IEEE-754 binary64 *)

Module Float.
Import Str.

Definition prec : Z := 53.
(** Exponent of the least subnormal number, [2^-1074]. *)
Definition emin : Z := -1074.
Definition emax : Z := 1024.

(** [p / (q * 2^e)] as a fraction of two integers. *)
Definition scaled (p q e : Z) : Z * Z :=
  if 0 <=? e then (p, q * 2 ^ e) else (p * 2 ^ (- e), q).

(** Quotient, remainder and divisor of [p / (q * 2^e)]. *)
Definition scaled_div (p q e : Z) : Z * Z * Z :=
  let '(n, d) := scaled p q e in
  let '(qt, r) := Z.div_eucl n d in
  (qt, r, d).

(** The integer nearest to [qt + r / d], ties to even ([0 <= r < d]). *)
Definition round_half_even (qt r d : Z) : Z :=
  if (d <? 2 * r) || ((d =? 2 * r) && Z.odd qt) then qt + 1 else qt.

(** The binary64 number nearest to [p / q] (ties to even) with sign [s],
    for [0 <= p] and [0 < q].  A quotient too large rounds to infinity. *)
Definition round_ratio (s : bool) (p q : Z) : spec_float :=
  if p <=? 0 then S754_zero s else
  (* the exponent that leaves 53 bits before the point, or that of the
     subnormal numbers *)
  let e0 := Z.max (Z.log2 p - Z.log2 q - prec) emin in
  let '(n0, d0) := scaled p q e0 in
  let e1 := if d0 * 2 ^ prec <=? n0 then e0 + 1 else e0 in
  let '(qt, r, d) := scaled_div p q e1 in
  let m := round_half_even qt r d in
  let '(m, e) := if m =? 2 ^ prec then (2 ^ (prec - 1), e1 + 1) else (m, e1) in
  if m =? 0 then S754_zero s
  else if emax - prec <? e then S754_infinity s
  else S754_finite s (Z.to_pos m) e.

(** [float(n)] for an [int] that is in range. *)
Definition of_int (n : Z) : spec_float := round_ratio (n <? 0) (Z.abs n) 1.

(** [a / b] on two [int]s with [0 < b]: the correctly rounded quotient. *)
Definition int_truediv (a b : Z) : result spec_float :=
  match round_ratio (a <? 0) (Z.abs a) b with
  | S754_infinity _ => Raise OverflowError
  | x => Ok x
  end.

(** [x * y] *)
Definition mul (x y : spec_float) : spec_float :=
  match x, y with
  | S754_nan, _ | _, S754_nan => S754_nan
  | S754_infinity _, S754_zero _ | S754_zero _, S754_infinity _ => S754_nan
  | S754_infinity sx, S754_infinity sy
  | S754_infinity sx, S754_finite sy _ _
  | S754_finite sx _ _, S754_infinity sy => S754_infinity (xorb sx sy)
  | S754_zero sx, S754_zero sy
  | S754_zero sx, S754_finite sy _ _
  | S754_finite sx _ _, S754_zero sy => S754_zero (xorb sx sy)
  | S754_finite sx mx ex, S754_finite sy my ey =>
      let e := ex + ey in
      let m := Z.pos mx * Z.pos my in
      if 0 <=? e then round_ratio (xorb sx sy) (m * 2 ^ e) 1
      else round_ratio (xorb sx sy) m (2 ^ (- e))
  end.

(** [round(x)]: the nearest [int], ties to even. *)
Definition round (x : spec_float) : result Z :=
  match x with
  | S754_nan => Raise ValueError
  | S754_infinity _ => Raise OverflowError
  | S754_zero _ => Ok 0
  | S754_finite s m e =>
      let '(qt, r, d) := scaled_div (Z.pos m) 1 (- e) in
      let n := round_half_even qt r d in
      Ok (if s then - n else n)
  end.

(** [x.is_integer()] *)
Definition is_integer (x : spec_float) : bool :=
  match x with
  | S754_zero _ => true
  | S754_finite _ m e => let '(_, r, _) := scaled_div (Z.pos m) 1 (- e) in r =? 0
  | _ => false
  end.

(** [int(x)]: truncation towards zero. *)
Definition to_int (x : spec_float) : result Z :=
  match x with
  | S754_nan => Raise ValueError
  | S754_infinity _ => Raise OverflowError
  | S754_zero _ => Ok 0
  | S754_finite s m e =>
      let '(qt, _, _) := scaled_div (Z.pos m) 1 (- e) in
      Ok (if s then - qt else qt)
  end.

(** [round(x, 1)]: the exact value of [x] is rounded to one decimal (ties
    to even) and the decimal is converted back to the nearest float. *)
Definition round1 (x : spec_float) : spec_float :=
  match x with
  | S754_finite s m e =>
      let '(qt, r, d) := scaled_div (10 * Z.pos m) 1 (- e) in
      round_ratio s (round_half_even qt r d) 10
  | _ => x
  end.

(** The float nearest to [c * 10^k]. *)
Definition of_decimal (s : bool) (c k : Z) : spec_float :=
  if 0 <=? k then round_ratio s (c * 10 ^ k) 1 else round_ratio s c (10 ^ (- k)).

(** *** float(text) *)

(** An underscore is accepted only between two digits. *)
Fixpoint underscores_ok (prev : option ascii) (s : list ascii) : bool :=
  let after_digit := match prev with Some p => is_digit p | None => false end in
  match s with
  | [] => negb (match prev with Some p => Ascii.eqb p "_" | None => false end)
  | c :: s' =>
      (if Ascii.eqb c "_" then after_digit
       else if match prev with Some p => Ascii.eqb p "_" | None => false end
            then is_digit c else true)
      && underscores_ok (Some c) s'
  end.

Definition drop_underscores (s : list ascii) : list ascii :=
  List.filter (fun c => negb (Ascii.eqb c "_")) s.

Definition take_sign (s : list ascii) : bool * list ascii :=
  match s with
  | c :: s' =>
      if Ascii.eqb c "-" then (true, s')
      else if Ascii.eqb c "+" then (false, s') else (false, s)
  | [] => (false, [])
  end.

Definition is_word (w : string) (s : list ascii) : bool :=
  String.eqb w (string_of_list_ascii (map lower s)).

(** [[eE][+-]?digits] or nothing; [None] when something else follows. *)
Definition parse_exponent (s : list ascii) : option Z :=
  match s with
  | [] => Some 0
  | c :: s' =>
      if Ascii.eqb (lower c) "e" then
        let '(neg, s1) := take_sign s' in
        match take_digits s1 0 0 with
        | (v, n, []) => if 0 <? n then Some (if neg then - v else v) else None
        | _ => None
        end
      else None
  end.

(** The literal without its sign: [inf], [infinity], [nan], or digits
    with an optional point and exponent. *)
Definition parse_abs (s : bool) (body : list ascii) : option spec_float :=
  if is_word "inf" body || is_word "infinity" body then Some (S754_infinity s)
  else if is_word "nan" body then Some S754_nan
  else
    let '(ip, ni, r1) := take_digits body 0 0 in
    let '(fp, nf, r2) :=
      match r1 with
      | c :: r1' => if Ascii.eqb c "." then take_digits r1' ip 0 else (ip, 0, r1)
      | [] => (ip, 0, r1)
      end in
    if ni + nf =? 0 then None
    else match parse_exponent r2 with
         | Some ex => Some (of_decimal s fp (ex - nf))
         | None => None
         end.

(** [float(text)]; [ValueError] when the text is not a float literal. *)
Definition of_string (text : string) : result spec_float :=
  let blank c := if is_space c && (127 <=? code c) then " "%char else c in
  let s := strip_with is_c_space (map blank (list_ascii_of_string text)) in
  if underscores_ok None s then
    let '(neg, body) := take_sign (drop_underscores s) in
    match parse_abs neg body with
    | Some x => Ok x
    | None => Raise ValueError
    end
  else Raise ValueError.

(** *** repr(x), which is also str(x) *)

(** The least [k] from [k0] on with [n / d < 10^k], looking at most [fuel]
    steps ahead. *)
Fixpoint find_decpt (fuel : nat) (n d k : Z) : Z :=
  match fuel with
  | O => k
  | S fuel' =>
      if (if 0 <=? k then n <? d * 10 ^ k else n * 10 ^ (- k) <? d) then k
      else find_decpt fuel' n d (k + 1)
  end.

(** The position of the decimal point of [n / d > 0]: the [k] with
    [10^(k-1) <= n / d < 10^k]. *)
Definition decpt (n d : Z) : Z :=
  let l := Z.log2 n - Z.log2 d in
  find_decpt 6 n d ((l - 1) * 30103 / 100000 - 1).

(** The [p]-digit decimals next to [x = m * 2^e] that read back as [x],
    the nearer one first: the answer is [c * 10^(k - p)]. *)
Definition repr_candidate (m : positive) (e : Z) (k : Z) (p : Z) : option Z :=
  let x := S754_finite false m e in
  let n := if 0 <=? e then Z.pos m * 2 ^ e else Z.pos m in
  let d := if 0 <=? e then 1 else 2 ^ (- e) in
  let sc := k - p in
  let n' := if 0 <=? sc then n else n * 10 ^ (- sc) in
  let d' := if 0 <=? sc then d * 10 ^ sc else d in
  let '(lo, r) := Z.div_eucl n' d' in
  let back c := match of_decimal false c sc with
                | S754_finite _ m' e' => Pos.eqb m' m && (e' =? e)
                | _ => false
                end in
  if r =? 0 then Some lo
  else
    let lo_first := (2 * r <? d') || ((2 * r =? d') && Z.even lo) in
    let c1 := if lo_first then lo else lo + 1 in
    let c2 := if lo_first then lo + 1 else lo in
    if back c1 then Some c1 else if back c2 then Some c2 else None.

Fixpoint shortest (fuel : nat) (m : positive) (e k p : Z) : Z * Z :=
  match fuel with
  | O => (0, p)
  | S fuel' =>
      match repr_candidate m e k p with
      | Some c => (c, p)
      | None => shortest fuel' m e k (p + 1)
      end
  end.

Fixpoint strip_zeros (fuel : nat) (c : Z) : Z :=
  match fuel with
  | O => c
  | S fuel' => if (c mod 10 =? 0) && (0 <? c) then strip_zeros fuel' (c / 10) else c
  end.

(** The shortest digit string that reads back as [m * 2^e], and the
    position of its decimal point. *)
Definition shortest_digits (m : positive) (e : Z) : list ascii * Z :=
  let n := if 0 <=? e then Z.pos m * 2 ^ e else Z.pos m in
  let d := if 0 <=? e then 1 else 2 ^ (- e) in
  let k := decpt n d in
  let '(c, p) := shortest 17 m e k 1 in
  let ds := digits (strip_zeros 18 c) in
  (ds, if c =? 10 ^ p then k + 1 else k).

Definition zeros (n : Z) : list ascii := repeat "0"%char (Z.to_nat n).

Definition format_repr (neg : bool) (ds : list ascii) (k : Z) : list ascii :=
  let len := Z.of_nat (length ds) in
  let body :=
    if (k <=? -4) || (16 <? k) then
      let ex := k - 1 in
      let exd := digits (Z.abs ex) in
      firstn 1 ds
      ++ (if 1 <? len then "."%char :: skipn 1 ds else [])
      ++ "e"%char :: (if ex <? 0 then "-"%char else "+"%char)
      :: (if Z.abs ex <? 10 then "0"%char :: exd else exd)
    else if k <=? 0 then "0"%char :: "."%char :: zeros (- k) ++ ds
    else if len <=? k then ds ++ zeros (k - len) ++ ["."%char; "0"%char]
    else firstn (Z.to_nat k) ds ++ "."%char :: skipn (Z.to_nat k) ds in
  if neg then "-"%char :: body else body.

(** [str(x)] for a [float]. *)
Definition str (x : spec_float) : string :=
  match x with
  | S754_nan => "nan"
  | S754_infinity s => if s then "-inf" else "inf"
  | S754_zero s => if s then "-0.0" else "0.0"
  | S754_finite s m e =>
      let '(ds, k) := shortest_digits m e in
      string_of_list_ascii (format_repr s ds k)
  end.

End Float.

(** ** The Remote Time Ledger

    The remote service is outside the repository.  It is modelled by a
    deterministic stand-in: the stored entries, a counter for fresh
    identifiers, a script saying which of the coming requests fail, and
    the log of the requests made so far with their outcome.  A request
    that fails changes nothing remotely.  The range query returns the
    entries whose start lies between the two bounds, both included. *)

Module Ledger.
Import Datetime Str.

Record time_entry : Type := {
  entry_id : Z;
  entry_project : option string;        (* entry.get('projectId') *)
  entry_start : Z;                      (* entry['timeInterval']['start'] *)
  entry_duration : option string        (* entry['timeInterval'].get('duration') *)
}.

Inductive request : Type :=
| ListEntries (start finish : Z)
| CreateEntry (project : string) (start finish : Z)
| DeleteEntry (id : Z).

Record ledger : Type := {
  entries : list time_entry;
  next_id : Z;
  faults : list bool;
  log : list (request * bool)
}.

(** The monad of code that talks to the ledger and may raise. *)
Definition M (A : Type) : Type := ledger -> ledger * result A.

Definition ret {A : Type} (a : A) : M A := fun l => (l, Ok a).

Definition bind {A B : Type} (m : M A) (k : A -> M B) : M B :=
  fun l => match m l with
           | (l', Ok a) => k a l'
           | (l', Raise e) => (l', Raise e)
           end.

(** A computation that does not touch the ledger. *)
Definition lift {A : Type} (r : result A) : M A := fun l => (l, r).

(** [for x in xs: body(x)] *)
Fixpoint for_each {A : Type} (body : A -> M unit) (xs : list A) : M unit :=
  match xs with
  | [] => ret tt
  | x :: xs' => bind (body x) (fun _ => for_each body xs')
  end.

(** The duration the service reports for an entry of [s] seconds. *)
Definition iso_duration (s : Z) : string :=
  let part (n : Z) (u : string) : string :=
    if 0 <? n then String.append (string_of_list_ascii (digits n)) u else ""%string in
  if s <=? 0 then "PT0S"%string
  else String.append "PT"
         (String.append (part (s / 3600) "H")
            (String.append (part (s mod 3600 / 60) "M") (part (s mod 60) "S"))).

Definition in_range (start finish : Z) (e : time_entry) : bool :=
  (start <=? entry_start e) && (entry_start e <=? finish).

(** What a request that succeeds does to the stored entries. *)
Definition effect (r : request) (l : ledger) : list time_entry * Z :=
  match r with
  | ListEntries _ _ => (entries l, next_id l)
  | CreateEntry p a b =>
      (entries l ++ [ {| entry_id := next_id l; entry_project := Some p;
                         entry_start := a;
                         entry_duration := Some (iso_duration (b - a)) |} ],
       next_id l + 1)
  | DeleteEntry i =>
      (List.filter (fun e => negb (entry_id e =? i)) (entries l), next_id l)
  end.

(** One HTTP round trip followed by [raise_for_status]. *)
Definition send (r : request) : M unit :=
  fun l =>
    match faults l with
    | true :: fs =>
        ({| entries := entries l; next_id := next_id l; faults := fs;
            log := log l ++ [(r, false)] |}, Raise RequestException)
    | _ =>
        let '(es, n) := effect r l in
        ({| entries := es; next_id := n; faults := tl (faults l);
            log := log l ++ [(r, true)] |}, Ok tt)
    end.

(** [requests.get(url, params={start, end})], then [resp.json()]. *)
Definition get_entries (start finish : Z) : M (list time_entry) :=
  bind (send (ListEntries start finish))
       (fun _ l => (l, Ok (List.filter (in_range start finish) (entries l)))).

(** [requests.post(url, json=payload)], then [resp.json()]. *)
Definition post_entry (project : string) (start finish : Z) : M time_entry :=
  fun l =>
    let created := {| entry_id := next_id l; entry_project := Some project;
                      entry_start := start;
                      entry_duration := Some (iso_duration (finish - start)) |} in
    bind (send (CreateEntry project start finish)) (fun _ => ret created) l.

(** [requests.delete(delete_url)] *)
Definition delete_entry (id : Z) : M unit := send (DeleteEntry id).

End Ledger.

Declare Scope ledger_scope.
Delimit Scope ledger_scope with ledger.
Notation "'let!' x ':=' m 'in' k" := (Ledger.bind m (fun x => k))
  (at level 10, x name, m at level 100, k at level 200) : ledger_scope.
Notation "m ';;' k" := (Ledger.bind m (fun _ => k))
  (at level 100, k at level 200, right associativity) : ledger_scope.
Local Open Scope ledger_scope.

(** ** clockify_api.py *)

Module clockify_api.
Import Datetime Str Ledger.

Definition parse_duration (duration_str : option string) : Z :=
  match duration_str with
  | None => 0
  | Some s =>
      match list_ascii_of_string s with
      | c1 :: c2 :: r =>
          if Ascii.eqb c1 "P" && Ascii.eqb c2 "T" then
            (* (?:(\d+)H)? *)
            let '(hours, r) :=
              match take_digits r 0 0 with
              | (v, n, c :: r') =>
                  if (0 <? n) && Ascii.eqb c "H" then (v, r') else (0, r)
              | _ => (0, r)
              end in
            (* (?:(\d+)M)? *)
            let minutes :=
              match take_digits r 0 0 with
              | (v, n, c :: _) => if (0 <? n) && Ascii.eqb c "M" then v else 0
              | _ => 0
              end in
            hours * 60 + minutes
          else 0
      | _ => 0
      end
  end.

Definition has_project (project_id : string) (entry : time_entry) : bool :=
  match entry_project entry with
  | Some p => String.eqb p project_id
  | None => false
  end.

(** One turn of the loop of [get_time_entries]. *)
Definition add_entry (project_id : string) (day_minutes : gmap Z Z)
    (entry : time_entry) : gmap Z Z :=
  if negb (has_project project_id entry) then day_minutes
  else
    let minutes := parse_duration (entry_duration entry) in
    let day := dt_date (entry_start entry) in
    <[day := default 0 (day_minutes !! day) + minutes]> day_minutes.

(** The loop of [get_time_entries]: group minutes by day. *)
Definition group_by_day (project_id : string) (entries : list time_entry) : gmap Z Z :=
  fold_left (add_entry project_id) entries ∅.

Definition get_time_entries (project_id : string) (week_dates : list Z)
    : M (gmap Z Z) :=
  let! first := lift (match week_dates with
                      | d :: _ => Ok d
                      | [] => Raise IndexError
                      end) in
  let last := List.last week_dates first in
  let! entries := get_entries (midnight first) (midnight last + 86399) in
  ret (group_by_day project_id entries).

Definition delete_time_entry (project_id : string) (date : Z) : M unit :=
  let! entries := get_entries (midnight date) (midnight date + 86399) in
  for_each (fun entry =>
              if has_project project_id entry
              then delete_entry (entry_id entry)
              else ret tt) entries.

Definition book_time (project_id : string) (date : Z) (minutes : Z)
    : M (option time_entry) :=
  if minutes <=? 0 then ret None
  else
    delete_time_entry project_id date ;;
    let! nine := lift (timedelta_hours 9) in
    let! start_time := lift (datetime_add (midnight date) nine) in
    let! length := lift (timedelta_minutes minutes) in
    let! end_time := lift (datetime_add start_time length) in
    let! resp := post_entry project_id start_time end_time in
    ret (Some resp).

End clockify_api.

(** ** app.py: the part of [ClockifyTUI] that reads and submits a week *)

Module app.
Import Datetime Str Ledger week_utils clockify_api.

(** A day's [Input] widget, as far as the engine reads it. *)
Record Input : Type := { value : string; disabled : bool }.

Record ClockifyTUI : Type := {
  selected_project_id : option string;
  week_offset : Z;
  inputs : list Input;
  prefilled_hours : gmap Z Z;
  notifications : list string
}.

Definition format_minutes (minutes : Z) : result string :=
  if minutes =? 0 then Ok ""%string
  else
    let? hours := Float.int_truediv minutes 60 in
    if Float.is_integer hours
    then let? n := Float.to_int hours in Ok (str_int n)
    else Ok (Float.str (Float.round1 hours)).

Definition parse_hours (text : string) : result Z :=
  if String.eqb text "" then Ok 0
  else
    let text := replace "," "." text in
    match (let? hours := Float.of_string text in
           Float.round (Float.mul hours (Float.of_int 60))) with
    | Raise ValueError => Ok 0
    | r => r
    end.

(** Truth value of [self.selected_project_id]. *)
Definition selected (a : ClockifyTUI) : option string :=
  match selected_project_id a with
  | Some p => if String.eqb p "" then None else Some p
  | None => None
  end.

Definition notify (msg : string) (a : ClockifyTUI) : ClockifyTUI :=
  {| selected_project_id := selected_project_id a;
     week_offset := week_offset a;
     inputs := inputs a;
     prefilled_hours := prefilled_hours a;
     notifications := notifications a ++ [msg] |}.

(** [week[i]] *)
Definition index (week : list Z) (i : nat) : result Z :=
  match nth_error week i with
  | Some d => Ok d
  | None => Raise IndexError
  end.

(** The day inputs built by [reset_ui]. *)
Definition day_input (today : Z) (prefilled : gmap Z Z) (week : list Z)
    (i : Z) : result Input :=
  let? date := index week (Z.to_nat i) in
  let disabled := is_future_date today date in
  let? prefill_value :=
    match prefilled !! date with
    | Some minutes => format_minutes minutes
    | None => Ok ""%string
    end in
  Ok {| value := prefill_value; disabled := disabled |}.

Definition reset_ui (today : Z) (a : ClockifyTUI) : result ClockifyTUI :=
  match selected a with
  | Some _ =>
      let? week := get_week_dates today (week_offset a) in
      let? inps := rmap (day_input today (prefilled_hours a) week) (range 7) in
      Ok {| selected_project_id := selected_project_id a;
            week_offset := week_offset a;
            inputs := inps;
            prefilled_hours := prefilled_hours a;
            notifications := notifications a |}
  | None => Ok a
  end.

Definition refresh_ui_with_data (today : Z) (a : ClockifyTUI) : M ClockifyTUI :=
  let! week := lift (get_week_dates today (week_offset a)) in
  let! prefilled :=
    match selected a with
    | Some project_id => get_time_entries project_id week
    | None => ret (prefilled_hours a)
    end in
  lift (reset_ui today
          {| selected_project_id := selected_project_id a;
             week_offset := week_offset a;
             inputs := inputs a;
             prefilled_hours := prefilled;
             notifications := notifications a |}).

(** The body of the loop of [submit_hours] for the input at position [i];
    the result is the new value of [changes_made]. *)
Definition submit_day (project_id : string) (week : list Z)
    (prefilled : gmap Z Z) (i : nat) (inp : Input) (changes_made : bool) : M bool :=
  let! date := lift (index week i) in
  let val := strip (value inp) in
  if disabled inp then ret changes_made
  else
    let! minutes := lift (parse_hours val) in
    let had_previous_value :=
      match prefilled !! date with
      | Some v => 0 <? v
      | None => false
      end in
    if (minutes =? 0) && had_previous_value then
      delete_time_entry project_id date ;; ret true
    else if 0 <? minutes then
      if negb had_previous_value
         || negb (minutes =? default 0 (prefilled !! date))
      then book_time project_id date minutes ;; ret true
      else ret changes_made
    else ret changes_made.

(** [for i, inp in enumerate(self.inputs): ...] from position [i] on. *)
Fixpoint submit_loop (project_id : string) (week : list Z)
    (prefilled : gmap Z Z) (i : nat) (inps : list Input)
    (changes_made : bool) : M bool :=
  match inps with
  | [] => ret changes_made
  | inp :: rest =>
      let! changes_made := submit_day project_id week prefilled i inp changes_made in
      submit_loop project_id week prefilled (S i) rest changes_made
  end.

Definition submit_hours (today : Z) (a : ClockifyTUI) : M ClockifyTUI :=
  match selected a with
  | None => ret a
  | Some project_id =>
      let! week := lift (get_week_dates today (week_offset a)) in
      let! changes_made :=
        submit_loop project_id week (prefilled_hours a) 0 (inputs a) false in
      if changes_made then
        let! a' := refresh_ui_with_data today a in
        ret (notify "Hours submitted successfully!" a')
      else ret (notify "No changes to submit" a)
  end.

End app.

(** ** app.py: the key bindings *)

Module app_actions.
Import Datetime Str Ledger week_utils clockify_api app.

(** [self.week_offset = n] *)
Definition set_week_offset (n : Z) (a : ClockifyTUI) : ClockifyTUI :=
  {| selected_project_id := selected_project_id a;
     week_offset := n;
     inputs := inputs a;
     prefilled_hours := prefilled_hours a;
     notifications := notifications a |}.

Definition action_prev_week (today : Z) (a : ClockifyTUI) : M ClockifyTUI :=
  let a := set_week_offset (week_offset a - 1) a in
  match selected a with
  | Some _ => refresh_ui_with_data today a
  | None => ret a
  end.

Definition action_next_week (today : Z) (a : ClockifyTUI) : M ClockifyTUI :=
  let a := set_week_offset (week_offset a + 1) a in
  match selected a with
  | Some _ => refresh_ui_with_data today a
  | None => ret a
  end.

Definition action_submit (today : Z) (a : ClockifyTUI) : M ClockifyTUI :=
  submit_hours today a.

End app_actions.

(** ** Python strings: lines and substrings

    The text of the file [.env] is handled as the list of its characters. *)

Module Lines.
Import Str.

Definition LF : ascii := "010"%char.
Definition CR : ascii := "013"%char.

(** The line boundaries of [str.splitlines] among the code points below
    256: LF, VT, FF, CR, FS, GS, RS and NEL. *)
Definition is_line_break (c : ascii) : bool :=
  let n := code c in
  ((10 <=? n) && (n <=? 13)) || ((28 <=? n) && (n <=? 30)) || (n =? 133).

(** [s.splitlines()], with the line read so far in [cur], last character
    first.  CR LF is one boundary; no empty line follows the last
    boundary. *)
Fixpoint splitlines_go (s cur : list ascii) : list (list ascii) :=
  match s with
  | [] => match cur with [] => [] | _ :: _ => [rev cur] end
  | c :: s' =>
      if is_line_break c then
        rev cur
        :: match s' with
           | c' :: s'' =>
               if Ascii.eqb c CR && Ascii.eqb c' LF then splitlines_go s'' []
               else splitlines_go s' []
           | [] => []
           end
      else splitlines_go s' (c :: cur)
  end.

Definition splitlines (s : list ascii) : list (list ascii) := splitlines_go s [].

(** [sep.join(lines)] *)
Fixpoint join (sep : list ascii) (lines : list (list ascii)) : list ascii :=
  match lines with
  | [] => []
  | l :: rest =>
      match rest with
      | [] => l
      | _ :: _ => l ++ sep ++ join sep rest
      end
  end.

(** [s.startswith(prefix)] *)
Fixpoint startswith (prefix s : list ascii) : bool :=
  match prefix, s with
  | [], _ => true
  | p :: prefix', c :: s' => Ascii.eqb p c && startswith prefix' s'
  | _ :: _, [] => false
  end.

(** [sub in s] *)
Fixpoint contains (sub s : list ascii) : bool :=
  startswith sub s
  || match s with
     | _ :: s' => contains sub s'
     | [] => false
     end.

(** [s.endswith(suffix)] *)
Definition endswith (suffix s : list ascii) : bool :=
  startswith (rev suffix) (rev s).

(** Reading in text mode: CR LF and CR become LF. *)
Fixpoint universal_newlines (s : list ascii) : list ascii :=
  match s with
  | [] => []
  | c :: s' =>
      if Ascii.eqb c CR then
        LF :: match s' with
              | c' :: s'' =>
                  if Ascii.eqb c' LF then universal_newlines s''
                  else universal_newlines s'
              | [] => []
              end
      else c :: universal_newlines s'
  end.

End Lines.

(** ** app.py: the default project *)

Module app_default.
Import Str Lines app.

Definition KEY : list ascii := list_ascii_of_string "DEFAULT_PROJECT_ID".
Definition ASSIGN : list ascii := list_ascii_of_string "DEFAULT_PROJECT_ID=".

(** The new text of [.env], from [# Update or add DEFAULT_PROJECT_ID] to
    the writing of the file. *)
Definition new_env_content (project_id env_content : list ascii) : list ascii :=
  if contains KEY env_content then
    let lines := splitlines env_content in
    let updated_lines :=
      map (fun line => if startswith ASSIGN line then ASSIGN ++ project_id else line)
          lines in
    join [LF] updated_lines
  else
    let env_content :=
      if negb (match env_content with [] => true | _ :: _ => false end)
         && negb (endswith [LF] env_content)
      then env_content ++ [LF] else env_content in
    env_content ++ ASSIGN ++ project_id ++ [LF].

(** [save_default_project] on the file [.env] beside [app.py]: [env] is
    the text of the file, [None] when there is no such file (a missing
    file reads as the empty text; the file is always written). *)
Definition save_default_project (a : ClockifyTUI) (env : option (list ascii))
    : option (list ascii) :=
  match selected a with
  | None => env
  | Some project_id =>
      let env_content :=
        match env with
        | Some text => universal_newlines text
        | None => []
        end in
      Some (new_env_content (list_ascii_of_string project_id) env_content)
  end.

Definition action_set_default (a : ClockifyTUI) (env : option (list ascii))
    : ClockifyTUI * option (list ascii) :=
  match selected a with
  | Some _ => (notify "Default project set!" a, save_default_project a env)
  | None => (a, env)
  end.

End app_default.

(** * The vocabulary of the properties *)

Import Datetime Str Ledger week_utils clockify_api app.
Import app_actions Lines app_default.

(** The Monday of the week of [today]. *)
Definition monday_of (today : Z) : Z := today - weekday today.

(** The seven dates from [start] on. *)
Definition week_from (start : Z) : list Z := map (fun i => start + i) (range 7).

(** The entries that count for [project_id] on day [d], and the minutes
    of a list of entries. *)
Definition on_day (project_id : string) (d : Z) (e : time_entry) : bool :=
  has_project project_id e && (dt_date (entry_start e) =? d).

Definition sum_minutes (es : list time_entry) : Z :=
  fold_right (fun e acc => parse_duration (entry_duration e) + acc) 0 es.

Definition day_total (project_id : string) (d : Z) (es : list time_entry) : Z :=
  sum_minutes (List.filter (on_day project_id d) es).

(** Identifiers are unique and below the counter for fresh ones. *)
Definition wf (l : ledger) : Prop :=
  List.NoDup (map entry_id (entries l))
  /\ List.Forall (fun e => entry_id e < next_id l) (entries l).

Definition succeeded (reqs : list (request * bool)) : Prop :=
  Forall (fun x => snd x = true) reqs.

(** How a run from [l] to [l'] with result [r] shows in the log: the
    requests of the run are appended; when the run raises
    [RequestException] the last of them is the one that failed and all
    before it succeeded; otherwise they all succeeded. *)
Definition outcome {A : Type} (l l' : ledger) (r : result A) : Prop :=
  exists reqs, log l' = log l ++ reqs
    /\ match r with
       | Raise RequestException =>
           exists pre x, reqs = pre ++ [(x, false)] /\ succeeded pre
       | _ => succeeded reqs
       end.

Definition traced {A : Type} (m : M A) : Prop :=
  forall l, outcome l (fst (m l)) (snd (m l)).

(** A result computed without the ledger never is a [RequestException]. *)
Definition local {A : Type} (r : result A) : Prop := r <> Raise RequestException.

(** The entries returned for the day [d] that belong to [project_id]. *)
Definition targets (project_id : string) (d : Z) (l : ledger) : list time_entry :=
  List.filter (on_day project_id d) (entries l).

(** [e] is none of the entries [ts], told by identifier. *)
Definition spared (ts : list time_entry) (e : time_entry) : bool :=
  negb (existsb (fun t => entry_id t =? entry_id e) ts).

Definition deletions (ts : list time_entry) : list (request * bool) :=
  map (fun t => (DeleteEntry (entry_id t), true)) ts.

(** The entry that [book_time] asks the ledger to create. *)
Definition booked (project_id : string) (d minutes : Z) (l : ledger) : time_entry :=
  {| entry_id := next_id l; entry_project := Some project_id;
     entry_start := midnight d + 32400;
     entry_duration := Some (iso_duration (60 * minutes)) |}.

(** The entries that do not start on day [d] are the same in [l] and [l']. *)
Definition same_off_day (d : Z) (l l' : ledger) : Prop :=
  forall e, dt_date (entry_start e) <> d -> (In e (entries l') <-> In e (entries l)).



(** A week, a ledger and a view to run the engine on: the week of Monday
    2024-01-01, one entry of 60 minutes on the Monday and one of 90
    minutes on the Wednesday, both of project [p]. *)
Definition sample_week : list Z :=
  [738886; 738887; 738888; 738889; 738890; 738891; 738892].

Definition sample_entries : list time_entry :=
  [ {| entry_id := 1; entry_project := Some "p"%string;
       entry_start := midnight 738886 + 32400;
       entry_duration := Some "PT1H"%string |};
    {| entry_id := 2; entry_project := Some "p"%string;
       entry_start := midnight 738888 + 32400;
       entry_duration := Some "PT1H30M"%string |} ].

Definition sample_ledger (script : list bool) : ledger :=
  {| entries := sample_entries; next_id := 3; faults := script; log := [] |}.

Definition enabled (text : string) : Input := {| value := text; disabled := false |}.
Definition locked (text : string) : Input := {| value := text; disabled := true |}.

(** The view of the sample week on Thursday 2024-01-04: Monday set to 0,
    Tuesday to 2 hours, Wednesday left at 1.5, the days to come locked. *)
Definition sample_view : ClockifyTUI :=
  {| selected_project_id := Some "p"%string;
     week_offset := 0;
     inputs := [enabled "0"; enabled "2"; enabled "1.5"; enabled "";
                locked ""; locked ""; locked ""];
     prefilled_hours := {[ 738886 := 60; 738888 := 90 ]};
     notifications := [] |}.

(** The sample ledger with a second Monday entry of project [p] and a
    Monday entry of another project. *)
Definition crowded_ledger : ledger :=
  {| entries :=
       sample_entries
       ++ [ {| entry_id := 3; entry_project := Some "p"%string;
               entry_start := midnight 738886 + 50400;
               entry_duration := Some "PT30M"%string |};
            {| entry_id := 4; entry_project := Some "q"%string;
               entry_start := midnight 738886 + 32400;
               entry_duration := Some "PT2H"%string |} ];
     next_id := 5; faults := []; log := [] |}.

(** The user types [text] into the field at position [i]; a disabled
    field takes no input. *)
Definition type_text (i : nat) (text : string) (a : ClockifyTUI) : ClockifyTUI :=
  {| selected_project_id := selected_project_id a;
     week_offset := week_offset a;
     inputs := match nth_error (inputs a) i with
               | Some inp =>
                   if disabled inp then inputs a
                   else firstn i (inputs a)
                        ++ {| value := text; disabled := false |}
                        :: skipn (S i) (inputs a)
               | None => inputs a
               end;
     prefilled_hours := prefilled_hours a;
     notifications := notifications a |}.

Definition blank_view : ClockifyTUI :=
  {| selected_project_id := Some "p"%string; week_offset := 0; inputs := [];
     prefilled_hours := ∅; notifications := [] |}.

Definition empty_ledger : ledger :=
  {| entries := []; next_id := 1; faults := []; log := [] |}.

Definition negative (x : spec_float) : bool :=
  match x with
  | S754_zero s | S754_infinity s | S754_finite s _ _ => s
  | S754_nan => false
  end.

(** The text reads as a number of hours whose product with 60 is beyond
    the range of a float. *)
Definition infinite_minutes (text : string) : bool :=
  match Float.of_string (replace "," "." text) with
  | Ok hours =>
      match Float.mul hours (Float.of_int 60) with
      | S754_infinity _ => true
      | _ => false
      end
  | Raise _ => false
  end.

(** ** Binary64 numbers and decimal text *)

(** The mantissa that [round_ratio] chooses for [p / q] at the exponent [- N]. *)
Definition mantissa (p q N : Z) : Z :=
  Float.round_half_even (p * 2 ^ N / q) ((p * 2 ^ N) mod q) q.

(** [x] is the positive number [M / 2^N]. *)
Definition has_value (x : spec_float) (M N : Z) : Prop :=
  exists m e, x = S754_finite false m e /\ e <= 0
              /\ Z.pos m * 2 ^ N = M * 2 ^ (- e).

(** The float nearest to [k / 10]: the hours of [6 * k] minutes. *)
Definition tenths (k : Z) : spec_float := Float.round_ratio false k 10.

(** [n / d < 10^k], the test of [find_decpt]. *)
Definition lt10 (n d k : Z) : bool :=
  if 0 <=? k then n <? d * 10 ^ k else n * 10 ^ (- k) <? d.

(** The fraction [dnum c k / dden k] is the decimal [c * 10^k]. *)
Definition dnum (c k : Z) : Z := if 0 <=? k then c * 10 ^ k else c.
Definition dden (k : Z) : Z := if 0 <=? k then 1 else 10 ^ (- k).

(** Where [decpt] starts its search for a 53-bit mantissa at the
    exponent [e]. *)
Definition decpt_start (e : Z) : Z := (52 + e - 1) * 30103 / 100000 - 1.

(** The start is not above the position of the point and less than six
    decades below it. *)
Definition decpt_start_ok (e : Z) : bool :=
  negb (lt10 (2 ^ 52) (2 ^ (- e)) (decpt_start e - 1))
  && lt10 (2 ^ 53) (2 ^ (- e)) (decpt_start e + 5).

(** The value of a list of digits. *)
Definition dstep (acc : Z) (c : ascii) : Z := 10 * acc + digit_val c.
Definition dvalue (ds : list ascii) : Z := fold_left dstep ds 0.

(** A character of a plain decimal: a digit or the point. *)
Definition plain (c : ascii) : bool := is_digit c || Ascii.eqb c ".".

(** What follows a run of digits does not begin with a digit. *)
Definition starts_with_no_digit (rest : list ascii) : Prop :=
  match rest with
  | c :: _ => is_digit c = false
  | [] => True
  end.

(** A plain decimal is a list of digits and points that begins and ends
    with a digit. *)
Definition decimal_text (l : list ascii) : Prop :=
  forallb plain l = true
  /\ (exists c l', l = c :: l' /\ is_digit c = true)
  /\ (exists l' c, l = l' ++ [c] /\ is_digit c = true).

(** ** Submits, lines of text and sample views *)

(** The total that a submit gives to a day whose total is [old]: the
    minutes that the day's field reads as, when the field is open and
    they are not negative. *)
Definition edited (inp : Input) (old : Z) : Z :=
  if disabled inp then old
  else match parse_hours (strip (value inp)) with
       | Ok m => if 0 <=? m then m else old
       | Raise _ => old
       end.

(** No character of [l] is a line boundary. *)
Definition one_line (l : list ascii) : Prop := forallb (fun c => negb (is_line_break c)) l = true.

(** What [splitlines] gives back of joined lines: all of them, but for an
    empty last line. *)
Fixpoint drop_last_empty (ls : list (list ascii)) : list (list ascii) :=
  match ls with
  | [] => []
  | l :: rest =>
      match rest with
      | [] => match l with [] => [] | _ :: _ => [l] end
      | _ :: _ => l :: drop_last_empty rest
      end
  end.

(** What follows the line boundary [c] in [s]. *)
Definition after_break (c : ascii) (s : list ascii) : list ascii :=
  match s with
  | c' :: s' => if Ascii.eqb c CR && Ascii.eqb c' LF then s' else s
  | [] => []
  end.

(** The view that [reset_ui] builds from [a] on the day [today]. *)
Definition built (today : Z) (a : ClockifyTUI) : ClockifyTUI :=
  match reset_ui today a with
  | Ok a' => a'
  | Raise _ => a
  end.

(** The ledger [l] with the script [script] for its coming requests. *)
Definition with_faults (script : list bool) (l : ledger) : ledger :=
  {| entries := entries l; next_id := next_id l; faults := script; log := log l |}.

(** The view of the sample week as the ledger has it, and a view of the
    week after it. *)
Definition synced_view : ClockifyTUI :=
  {| selected_project_id := Some "p"%string; week_offset := 0; inputs := [];
     prefilled_hours := {[ 738886 := 60; 738888 := 90 ]}; notifications := [] |}.

Definition next_week_view : ClockifyTUI :=
  {| selected_project_id := Some "p"%string; week_offset := 1; inputs := [];
     prefilled_hours := ∅; notifications := [] |}.

(** Two texts of [.env]: one without the key, and one that holds it in
    a comment only. *)
Definition plain_env : list ascii := list_ascii_of_string "CLOCKIFY_API_KEY=k".
Definition commented_env : list ascii :=
  list_ascii_of_string "# DEFAULT_PROJECT_ID=old" ++ [LF].

(** * Properties *)

(** ** The week window *)

Section WeekWindow.

Lemma td_days_whole (n : Z) : td_days (86400 * n) = n.
Proof. unfold td_days. rewrite Z.mul_comm. apply Z.div_mul. lia. Qed.

Lemma timedelta_days_ok (n : Z) :
  -999999999 <= n <= 999999999 -> timedelta_days n = Ok (86400 * n).
Proof.
  intros Hn. unfold timedelta_days, timedelta. rewrite td_days_whole.
  destruct (Z.leb_spec (-999999999) n); [|lia].
  destruct (Z.leb_spec n 999999999); [|lia]. reflexivity.
Qed.

Lemma timedelta_weeks_ok (n : Z) :
  -999999999 <= 7 * n <= 999999999 -> timedelta_weeks n = Ok (86400 * (7 * n)).
Proof.
  intros Hn. unfold timedelta_weeks.
  replace (7 * 86400 * n) with (86400 * (7 * n)) by lia.
  apply (timedelta_days_ok (7 * n) Hn).
Qed.

Lemma date_add_days (d n : Z) :
  0 < d + n <= MAXORDINAL -> date_add d (86400 * n) = Ok (d + n).
Proof.
  intros Hn. unfold date_add. rewrite td_days_whole.
  destruct (Z.ltb_spec 0 (d + n)); [|lia].
  destruct (Z.leb_spec (d + n) MAXORDINAL); [|lia]. reflexivity.
Qed.

Lemma date_sub_days (d n : Z) :
  -999999999 <= n <= 999999999 -> 0 < d - n <= MAXORDINAL ->
  date_sub d (86400 * n) = Ok (d - n).
Proof.
  intros Hn Hd. unfold date_sub. rewrite td_days_whole.
  rewrite timedelta_days_ok by lia. cbn [rbind].
  rewrite date_add_days by lia. reflexivity.
Qed.

Lemma weekday_range (d : Z) : 0 <= weekday d < 7.
Proof. unfold weekday. apply Z.mod_pos_bound. lia. Qed.

Lemma monday_of_is_monday (today : Z) : weekday (monday_of today) = 0.
Proof.
  unfold monday_of, weekday.
  pose proof (Z.div_mod (today + 6) 7 ltac:(lia)) as H.
  replace (today - (today + 6) mod 7 + 6) with ((today + 6) / 7 * 7) by lia.
  apply Z.mod_mul. lia.
Qed.

Lemma monday_of_positive (today : Z) : MINORDINAL <= today -> MINORDINAL <= monday_of today.
Proof.
  unfold monday_of, weekday, MINORDINAL. intros H.
  pose proof (Z.mod_pos_bound (today + 6) 7 ltac:(lia)).
  pose proof (Z.div_mod (today + 6) 7 ltac:(lia)).
  assert (1 <= (today + 6) / 7) by (apply Z.div_le_lower_bound; lia).
  lia.
Qed.

Lemma weekday_shift (d k : Z) : weekday (d + 7 * k) = weekday d.
Proof.
  unfold weekday. replace (d + 7 * k + 6) with (d + 6 + k * 7) by lia.
  apply Z.mod_add. lia.
Qed.

Lemma get_week_dates_in_range (today offset : Z) :
  MINORDINAL <= today <= MAXORDINAL ->
  MINORDINAL <= monday_of today + 7 * offset ->
  monday_of today + 7 * offset + 6 <= MAXORDINAL ->
  get_week_dates today offset = Ok (week_from (monday_of today + 7 * offset)).
Proof.
  intros Ht Hlo Hhi.
  pose proof (weekday_range today) as Hw.
  pose proof (monday_of_positive today (proj1 Ht)) as Hm.
  unfold MINORDINAL, MAXORDINAL in *.
  unfold get_week_dates.
  rewrite timedelta_days_ok by lia. cbn [rbind].
  rewrite date_sub_days by (unfold monday_of in *; unfold MAXORDINAL; lia).
  cbn [rbind].
  rewrite timedelta_weeks_ok by (unfold monday_of in *; lia). cbn [rbind].
  rewrite date_add_days by (unfold monday_of in *; unfold MAXORDINAL; lia).
  cbn [rbind]. fold (monday_of today).
  unfold week_from, range. cbn [seq map rmap].
  repeat (rewrite timedelta_days_ok by lia; cbn [rbind];
          rewrite date_add_days by (unfold MAXORDINAL; lia); cbn [rbind]).
  reflexivity.
Qed.

Lemma date_add_cases (d n : Z) :
  date_add d (86400 * n)
  = if (0 <? d + n) && (d + n <=? MAXORDINAL) then Ok (d + n) else Raise OverflowError.
Proof. unfold date_add. rewrite td_days_whole. reflexivity. Qed.

Lemma timedelta_weeks_cases (n : Z) :
  timedelta_weeks n
  = if (-999999999 <=? 7 * n) && (7 * n <=? 999999999)
    then Ok (86400 * (7 * n)) else Raise OverflowError.
Proof.
  unfold timedelta_weeks, timedelta.
  replace (7 * 86400 * n) with (86400 * (7 * n)) by lia.
  rewrite td_days_whole. reflexivity.
Qed.

Lemma get_week_dates_out_of_range (today offset : Z) :
  MINORDINAL <= today <= MAXORDINAL ->
  monday_of today + 7 * offset < MINORDINAL
  \/ MAXORDINAL < monday_of today + 7 * offset + 6 ->
  get_week_dates today offset = Raise OverflowError.
Proof.
  intros Ht Hout.
  pose proof (weekday_range today) as Hw.
  pose proof (monday_of_positive today (proj1 Ht)) as Hm.
  unfold MINORDINAL, MAXORDINAL in *.
  unfold get_week_dates.
  rewrite timedelta_days_ok by lia. cbn [rbind].
  rewrite date_sub_days by (unfold monday_of in *; unfold MAXORDINAL; lia).
  cbn [rbind]. fold (monday_of today).
  rewrite timedelta_weeks_cases.
  destruct (Z.leb_spec (-999999999) (7 * offset)); [|reflexivity].
  destruct (Z.leb_spec (7 * offset) 999999999); [|reflexivity].
  cbn [andb rbind]. rewrite date_add_cases. unfold MAXORDINAL.
  destruct (Z.ltb_spec 0 (monday_of today + 7 * offset)); [|reflexivity].
  destruct (Z.leb_spec (monday_of today + 7 * offset) 3652059); [|reflexivity].
  cbn [andb rbind]. unfold range. cbn [seq map rmap].
  repeat (rewrite timedelta_days_ok by lia; cbn [rbind];
          rewrite date_add_cases; unfold MAXORDINAL;
          match goal with
          | |- context [(0 <? ?x) && (?x <=? ?y)] =>
              destruct (Z.ltb_spec 0 x); [|lia];
              destruct (Z.leb_spec x y); [|reflexivity]
          end; cbn [andb rbind]).
  lia.
Qed.

Lemma week_from_explicit (s : Z) :
  week_from s = [s; s + 1; s + 2; s + 3; s + 4; s + 5; s + 6].
Proof. unfold week_from, range. cbn [seq map]. f_equal. apply Z.add_0_r. Qed.

(** C8 (amended).  For every value of today's date and every offset for
    which the seven dates of the window lie within the dates that
    [datetime.date] can hold (ordinals 1 to 3652059), [get_week_dates]
    returns exactly seven consecutive dates, the first being the Monday of
    today's week moved by [offset] whole weeks; that first date is a
    Monday, the window of offset 0 contains today, and the window is the
    window of offset 0 with every date moved by [7 * offset] days. *)
Theorem get_week_dates_window (today offset : Z) :
  MINORDINAL <= today <= MAXORDINAL ->
  MINORDINAL <= monday_of today + 7 * offset ->
  monday_of today + 7 * offset + 6 <= MAXORDINAL ->
  let s := monday_of today + 7 * offset in
  get_week_dates today offset = Ok [s; s + 1; s + 2; s + 3; s + 4; s + 5; s + 6]
  /\ weekday s = 0
  /\ (offset = 0 -> In today [s; s + 1; s + 2; s + 3; s + 4; s + 5; s + 6])
  /\ (forall w0, get_week_dates today 0 = Ok w0 ->
       [s; s + 1; s + 2; s + 3; s + 4; s + 5; s + 6] = map (fun d => d + 7 * offset) w0).
Proof.
  intros Ht Hlo Hhi s. subst s.
  split; [|split; [|split]].
  - rewrite get_week_dates_in_range by assumption. f_equal. apply week_from_explicit.
  - rewrite weekday_shift. apply monday_of_is_monday.
  - intros ->. pose proof (weekday_range today) as Hw.
    assert (Hd : today = monday_of today + 7 * 0 + weekday today)
      by (unfold monday_of; lia).
    cbn [In].
    assert (Hc : weekday today = 0 \/ weekday today = 1 \/ weekday today = 2
                 \/ weekday today = 3 \/ weekday today = 4 \/ weekday today = 5
                 \/ weekday today = 6) by lia.
    destruct Hc as [E|[E|[E|[E|[E|[E|E]]]]]]; rewrite E in Hd; lia.
  - intros w0 H0.
    destruct (Z_lt_le_dec MAXORDINAL (monday_of today + 7 * 0 + 6)) as [Hbig|Hok].
    + rewrite get_week_dates_out_of_range in H0 by (auto; right; exact Hbig).
      discriminate.
    + pose proof (monday_of_positive today (proj1 Ht)) as Hm.
      rewrite get_week_dates_in_range in H0 by (auto; lia).
      injection H0 as <-. rewrite week_from_explicit. cbn [map].
      repeat (apply (f_equal2 (@cons Z)); [lia|]). reflexivity.
Qed.

Lemma get_week_dates_window_witness :
  let s := monday_of 738889 + 7 * (-2) in
  get_week_dates 738889 (-2) = Ok [s; s + 1; s + 2; s + 3; s + 4; s + 5; s + 6]
  /\ weekday s = 0
  /\ (-2 = 0 -> In 738889 [s; s + 1; s + 2; s + 3; s + 4; s + 5; s + 6])
  /\ (forall w0, get_week_dates 738889 0 = Ok w0 ->
       [s; s + 1; s + 2; s + 3; s + 4; s + 5; s + 6] = map (fun d => d + 7 * (-2)) w0).
Proof.
  apply (get_week_dates_window 738889 (-2));
    repeat split; apply Z.leb_le; vm_compute; reflexivity.
Defined.

(** C8 as stated fails: a window far enough from today, or the week of the
    last representable date, is not returned at all. *)
Lemma get_week_dates_raises :
  (MINORDINAL <= 738889 <= MAXORDINAL
   /\ get_week_dates 738889 600000 = Raise OverflowError)
  /\ (MINORDINAL <= MAXORDINAL <= MAXORDINAL
      /\ get_week_dates MAXORDINAL 0 = Raise OverflowError).
Proof.
  split; (split; [unfold MINORDINAL, MAXORDINAL; lia | vm_compute; reflexivity]).
Qed.

End WeekWindow.

(** ** The day aggregator *)

Section Aggregator.

Lemma is_digit_val (c : ascii) : is_digit c = true -> 0 <= digit_val c <= 9.
Proof.
  unfold is_digit, digit_val. intros H.
  apply andb_prop in H as [H1 H2].
  apply Z.leb_le in H1, H2. lia.
Qed.

Lemma take_digits_nonneg (s : list ascii) :
  forall acc n, 0 <= acc -> 0 <= fst (fst (take_digits s acc n)).
Proof.
  induction s as [|c s IH]; intros acc n Hacc; cbn [take_digits].
  - exact Hacc.
  - destruct (is_digit c) eqn:Hc; [|exact Hacc].
    apply IH. pose proof (is_digit_val c Hc). lia.
Qed.

Lemma minutes_group_nonneg (r : list ascii) :
  0 <= match take_digits r 0 0 with
       | (v, n, c :: _) => if (0 <? n) && Ascii.eqb c "M" then v else 0
       | _ => 0
       end.
Proof.
  pose proof (take_digits_nonneg r 0 0 ltac:(lia)) as Hm.
  destruct (take_digits r 0 0) as [[v n] [|c r']]; cbn [fst] in Hm; [lia|].
  destruct ((0 <? n) && Ascii.eqb c "M"); lia.
Qed.

Lemma parse_duration_nonneg (duration_str : option string) :
  0 <= parse_duration duration_str.
Proof.
  unfold parse_duration.
  destruct duration_str as [s|]; [|lia].
  destruct (list_ascii_of_string s) as [|c1 [|c2 r]]; try lia.
  destruct (Ascii.eqb c1 "P" && Ascii.eqb c2 "T"); [|lia].
  pose proof (minutes_group_nonneg r) as Hr.
  pose proof (take_digits_nonneg r 0 0 ltac:(lia)) as Hh.
  destruct (take_digits r 0 0) as [[v n] [|c r']] eqn:Ht; cbn [fst] in Hh.
  - rewrite Ht. lia.
  - destruct ((0 <? n) && Ascii.eqb c "H").
    + pose proof (minutes_group_nonneg r'). lia.
    + rewrite Ht. lia.
Qed.

Lemma sum_minutes_nonneg (es : list time_entry) : 0 <= sum_minutes es.
Proof.
  induction es as [|e es IH]; cbn [sum_minutes fold_right]; [lia|].
  pose proof (parse_duration_nonneg (entry_duration e)).
  unfold sum_minutes in IH. lia.
Qed.

Lemma fold_add_entry_lookup (project_id : string) (d : Z) (es : list time_entry) :
  forall acc : gmap Z Z,
    fold_left (add_entry project_id) es acc !! d
    = match List.filter (on_day project_id d) es with
      | [] => acc !! d
      | l => Some (default 0 (acc !! d) + sum_minutes l)
      end.
Proof.
  induction es as [|e es IH]; intros acc; cbn [fold_left List.filter]; [reflexivity|].
  rewrite IH. unfold on_day at 2, add_entry.
  destruct (has_project project_id e) eqn:Hp; cbn [negb andb].
  - destruct (Z.eqb_spec (dt_date (entry_start e)) d) as [->|Hne].
    + rewrite lookup_insert_eq.
      destruct (List.filter (on_day project_id d) es) as [|e' l];
        simpl; unfold id; f_equal; lia.
    + rewrite lookup_insert_ne by exact Hne. reflexivity.
  - reflexivity.
Qed.

Lemma group_by_day_lookup (project_id : string) (es : list time_entry) (d : Z) :
  group_by_day project_id es !! d
  = match List.filter (on_day project_id d) es with
    | [] => None
    | _ => Some (day_total project_id d es)
    end.
Proof.
  unfold group_by_day, day_total. rewrite fold_add_entry_lookup.
  rewrite lookup_empty. cbn [default].
  destruct (List.filter (on_day project_id d) es); reflexivity.
Qed.

Lemma filter_on_day_nonempty (project_id : string) (d : Z) (es : list time_entry) :
  List.filter (on_day project_id d) es <> []
  <-> exists e, In e es /\ has_project project_id e = true
                /\ dt_date (entry_start e) = d.
Proof.
  split.
  - destruct (List.filter (on_day project_id d) es) as [|e l] eqn:Hf; [congruence|].
    intros _. assert (Hin : In e (List.filter (on_day project_id d) es))
      by (rewrite Hf; left; reflexivity).
    apply filter_In in Hin as [Hin Hon]. unfold on_day in Hon.
    apply andb_prop in Hon as [Hp Hd]. apply Z.eqb_eq in Hd. eauto.
  - intros (e & Hin & Hp & Hd) Hf.
    assert (Hin' : In e (List.filter (on_day project_id d) es)).
    { apply filter_In. split; [exact Hin|]. unfold on_day.
      rewrite Hp. apply Z.eqb_eq in Hd. rewrite Hd. reflexivity. }
    rewrite Hf in Hin'. exact Hin'.
Qed.

Lemma filter_on_day_project (project_id : string) (d : Z) (es : list time_entry) :
  List.filter (on_day project_id d) (List.filter (has_project project_id) es)
  = List.filter (on_day project_id d) es.
Proof.
  induction es as [|e es IH]; [reflexivity|]. cbn [List.filter].
  unfold on_day at 2. destruct (has_project project_id e) eqn:Hp; cbn [andb].
  - cbn [List.filter]. unfold on_day at 1. rewrite Hp, IH. reflexivity.
  - exact IH.
Qed.

Lemma sum_minutes_In (e : time_entry) (l : list time_entry) :
  In e l -> parse_duration (entry_duration e) <= sum_minutes l.
Proof.
  induction l as [|x l IH]; intros Hin; [destruct Hin|].
  cbn [sum_minutes fold_right]. fold (sum_minutes l).
  pose proof (sum_minutes_nonneg l).
  pose proof (parse_duration_nonneg (entry_duration x)).
  destruct Hin as [->|Hin]; [lia|]. specialize (IH Hin). lia.
Qed.

(** C4 (amended).  For every project id and every sequence of ledger
    entries, the Baseline returned by aggregation contains exactly the
    dates on which an entry of the project starts, each with the sum of
    the minutes of these entries, which is never negative; a date whose
    matching entries sum to zero is present with the value 0. *)
Theorem group_by_day_lookup_iff (project_id : string) (es : list time_entry)
    (d v : Z) :
  group_by_day project_id es !! d = Some v
  <-> (exists e, In e es /\ has_project project_id e = true
                 /\ dt_date (entry_start e) = d)
      /\ v = day_total project_id d es /\ 0 <= v.
Proof.
  rewrite group_by_day_lookup, <- filter_on_day_nonempty.
  pose proof (sum_minutes_nonneg (List.filter (on_day project_id d) es)) as Hs.
  fold (day_total project_id d es) in Hs.
  destruct (List.filter (on_day project_id d) es) as [|e l].
  - split; [discriminate|]. intros [H _]. congruence.
  - split.
    + intros [= <-]. repeat split; [discriminate|exact Hs].
    + intros (_ & -> & _). reflexivity.
Qed.

(** C4 as stated fails: an entry of 45 seconds counts for 0 minutes and
    puts its date into the Baseline with the total 0. *)
Lemma group_by_day_keeps_zero_total :
  let e := {| entry_id := 1; entry_project := Some "p"%string;
              entry_start := midnight 738886 + 32400;
              entry_duration := Some "PT45S"%string |} in
  group_by_day "p" [e] !! 738886 = Some 0.
Proof.
  cbv zeta. rewrite group_by_day_lookup. vm_compute. reflexivity.
Qed.

(** C5 (amended).  For every project id and sequence of ledger entries,
    aggregation leaves out exactly the entries whose project identifier
    differs from the given project id: the Baseline is the one computed
    from the entries of the project alone, and every entry of the project
    is counted under the calendar date of its start, whether or not that
    date is one of the 7 days of the week window. *)
Theorem group_by_day_filters_project_only (project_id : string)
    (es : list time_entry) :
  group_by_day project_id es
  = group_by_day project_id (List.filter (has_project project_id) es)
  /\ forall e, In e es -> has_project project_id e = true ->
       exists v, group_by_day project_id es !! dt_date (entry_start e) = Some v
                 /\ parse_duration (entry_duration e) <= v.
Proof.
  split.
  - apply map_eq. intros d. rewrite !group_by_day_lookup.
    unfold day_total. rewrite filter_on_day_project. reflexivity.
  - intros e Hin Hp. rewrite group_by_day_lookup.
    assert (Hf : In e (List.filter (on_day project_id (dt_date (entry_start e))) es)).
    { apply filter_In. split; [exact Hin|]. unfold on_day.
      rewrite Hp, Z.eqb_refl. reflexivity. }
    unfold day_total. pose proof (sum_minutes_In e _ Hf) as Hle.
    destruct (List.filter (on_day project_id (dt_date (entry_start e))) es);
      [destruct Hf|]. eexists. split; [reflexivity|exact Hle].
Qed.

(** C5 as stated fails: an entry of the project that starts on the Monday
    after the week window is counted all the same. *)
Lemma group_by_day_counts_entry_outside_week :
  let e := {| entry_id := 1; entry_project := Some "p"%string;
              entry_start := midnight 738893;
              entry_duration := Some "PT30M"%string |} in
  let week := [738886; 738887; 738888; 738889; 738890; 738891; 738892] in
  get_week_dates 738889 0 = Ok week
  /\ ~ In (dt_date (entry_start e)) week
  /\ group_by_day "p" [e] !! 738893 = Some 30.
Proof.
  cbv zeta. split; [vm_compute; reflexivity|]. split.
  - cbn. intros H. repeat (destruct H as [H|H]; [discriminate H|]). exact H.
  - rewrite group_by_day_lookup. vm_compute. reflexivity.
Qed.

End Aggregator.

(** ** Running code against the ledger *)

Section Runs.

Lemma bind_ok {A B : Type} (m : M A) (k : A -> M B) (l l1 : ledger) (a : A) :
  m l = (l1, Ok a) -> Ledger.bind m k l = k a l1.
Proof. unfold Ledger.bind. intros ->. reflexivity. Qed.

Lemma bind_raise {A B : Type} (m : M A) (k : A -> M B) (l l1 : ledger) (e : exn) :
  m l = (l1, Raise e) -> Ledger.bind m k l = (l1, Raise e).
Proof. unfold Ledger.bind. intros ->. reflexivity. Qed.

Lemma bind_inv {A B : Type} (m : M A) (k : A -> M B) (l l2 : ledger) (r : result B) :
  Ledger.bind m k l = (l2, r) ->
  (exists l1 a, m l = (l1, Ok a) /\ k a l1 = (l2, r))
  \/ (exists e, m l = (l2, Raise e) /\ r = Raise e).
Proof.
  unfold Ledger.bind. destruct (m l) as [l1 [a|e]]; intros H.
  - left. eauto.
  - right. injection H as <- <-. eauto.
Qed.

Lemma local_ok {A : Type} (a : A) : local (Ok a).
Proof. discriminate. Qed.

Lemma local_rbind {A B : Type} (r : result A) (k : A -> result B) :
  local r -> (forall a, local (k a)) -> local (rbind r k).
Proof.
  destruct r as [a|e]; cbn [rbind]; intros Hr Hk; [apply Hk|].
  intros [= ->]. apply Hr. reflexivity.
Qed.

Lemma local_rmap {A B : Type} (f : A -> result B) (xs : list A) :
  (forall x, local (f x)) -> local (rmap f xs).
Proof.
  intros Hf. induction xs as [|x xs IH]; cbn [rmap]; [apply local_ok|].
  apply local_rbind; [apply Hf|]. intros y.
  apply local_rbind; [exact IH|]. intros ys. apply local_ok.
Qed.

Lemma local_timedelta (s : Z) : local (timedelta s).
Proof. unfold timedelta. destruct (_ && _); discriminate. Qed.

Lemma local_date_add (d td : Z) : local (date_add d td).
Proof. unfold date_add. destruct (_ && _); discriminate. Qed.

Lemma local_datetime_add (t td : Z) : local (datetime_add t td).
Proof. unfold datetime_add. destruct (_ && _); discriminate. Qed.

Lemma local_date_sub (d td : Z) : local (date_sub d td).
Proof.
  unfold date_sub, timedelta_days.
  apply local_rbind; [apply local_timedelta|intros ?; apply local_date_add].
Qed.

Lemma local_get_week_dates (today offset : Z) : local (get_week_dates today offset).
Proof.
  unfold get_week_dates, timedelta_days, timedelta_weeks.
  apply local_rbind; [apply local_timedelta|intros ?].
  apply local_rbind; [apply local_date_sub|intros ?].
  apply local_rbind; [apply local_timedelta|intros ?].
  apply local_rbind; [apply local_date_add|intros ?].
  apply local_rmap. intros i.
  apply local_rbind; [apply local_timedelta|intros ?; apply local_date_add].
Qed.

Lemma local_index (week : list Z) (i : nat) : local (index week i).
Proof. unfold index. destruct (nth_error week i); discriminate. Qed.

Lemma local_round (x : spec_float) : local (Float.round x).
Proof.
  destruct x as [s|s| |s m e]; cbn [Float.round]; try discriminate.
  destruct (Float.scaled_div _ _ _) as [[qt r] d]. discriminate.
Qed.

Lemma local_parse_hours (text : string) : local (parse_hours text).
Proof.
  unfold parse_hours. destruct (String.eqb text ""); [discriminate|].
  destruct (Float.of_string _) as [x|[]] eqn:Hx; cbn [rbind]; try discriminate.
  - pose proof (local_round (Float.mul x (Float.of_int 60))) as Hr.
    destruct (Float.round _) as [n|[]]; first [discriminate|exact Hr].
  - unfold Float.of_string in Hx.
    repeat match type of Hx with
           | context [if ?b then _ else _] => destruct b
           | context [let '(_, _) := ?p in _] => destruct p
           | context [match ?o with Some _ => _ | None => _ end] => destruct o
           end; discriminate.
Qed.

Lemma local_format_minutes (minutes : Z) : local (format_minutes minutes).
Proof.
  unfold format_minutes. destruct (minutes =? 0); [discriminate|].
  unfold Float.int_truediv.
  destruct (Float.round_ratio _ _ _) as [s|s| |s m e]; cbn [rbind]; try discriminate.
  destruct (Float.is_integer _); [|discriminate].
  cbn [Float.to_int]. destruct (Float.scaled_div _ _ _) as [[qt r] d].
  discriminate.
Qed.

Lemma outcome_refl {A : Type} (l : ledger) (r : result A) :
  local r -> outcome l l r.
Proof.
  intros Hr. exists []. split; [symmetry; apply app_nil_r|].
  destruct r as [a|[]]; try (unfold succeeded; constructor). destruct Hr. reflexivity.
Qed.

Lemma outcome_raise {A B : Type} (l l' : ledger) (e : exn) :
  outcome l l' (Raise e : result A) -> outcome l l' (Raise e : result B).
Proof. intros (reqs & Hl & Hr). exists reqs. split; [exact Hl|]. destruct e; exact Hr. Qed.

Lemma outcome_trans {A B : Type} (l l1 l2 : ledger) (a : A) (r : result B) :
  outcome l l1 (Ok a) -> outcome l1 l2 r -> outcome l l2 r.
Proof.
  intros (r1 & Hl1 & Hs1) (r2 & Hl2 & Hs2).
  exists (r1 ++ r2). split; [rewrite Hl2, Hl1; symmetry; apply app_assoc|].
  unfold succeeded in *.
  destruct r as [b|[]]; try (apply Forall_app; split; assumption).
  destruct Hs2 as (pre & x & -> & Hpre).
  exists (r1 ++ pre), x. split; [apply app_assoc|].
  apply Forall_app. split; assumption.
Qed.

Lemma traced_ret {A : Type} (a : A) : traced (ret a).
Proof. intros l. apply outcome_refl, local_ok. Qed.

Lemma traced_lift {A : Type} (r : result A) : local r -> traced (lift r).
Proof. intros Hr l. apply outcome_refl, Hr. Qed.

Lemma traced_bind {A B : Type} (m : M A) (k : A -> M B) :
  traced m -> (forall a, traced (k a)) -> traced (Ledger.bind m k).
Proof.
  intros Hm Hk l. specialize (Hm l). unfold Ledger.bind.
  destruct (m l) as [l1 [a|e]]; cbn [fst snd] in *.
  - specialize (Hk a l1). destruct (k a l1) as [l2 r]. cbn [fst snd] in *.
    exact (outcome_trans _ _ _ _ _ Hm Hk).
  - exact (outcome_raise _ _ _ Hm).
Qed.

Lemma traced_send (r : request) : traced (send r).
Proof.
  intros l. unfold send.
  destruct (faults l) as [|[] fs]; try destruct (effect r l) as [es n];
    cbn [fst snd log]; eexists; (split; [reflexivity|]).
  - repeat constructor.
  - exists [], r. split; [reflexivity|constructor].
  - repeat constructor.
Qed.

Lemma traced_for_each {A : Type} (body : A -> M unit) (xs : list A) :
  (forall x, traced (body x)) -> traced (for_each body xs).
Proof.
  intros Hb. induction xs as [|x xs IH]; cbn [for_each].
  - apply traced_ret.
  - apply traced_bind; [apply Hb|intros _; exact IH].
Qed.

Lemma traced_get_entries (start finish : Z) : traced (get_entries start finish).
Proof.
  unfold get_entries. apply traced_bind; [apply traced_send|].
  intros _ l. apply outcome_refl, local_ok.
Qed.

Lemma traced_post_entry (project : string) (start finish : Z) :
  traced (post_entry project start finish).
Proof.
  intros l. unfold post_entry.
  apply (traced_bind (send _) _ (traced_send _)). intros _. apply traced_ret.
Qed.

Lemma traced_delete_time_entry (project_id : string) (date : Z) :
  traced (delete_time_entry project_id date).
Proof.
  unfold delete_time_entry. apply traced_bind; [apply traced_get_entries|].
  intros es. apply traced_for_each. intros e.
  destruct (has_project project_id e); [apply traced_send|apply traced_ret].
Qed.

Lemma traced_book_time (project_id : string) (date minutes : Z) :
  traced (book_time project_id date minutes).
Proof.
  unfold book_time. destruct (minutes <=? 0); [apply traced_ret|].
  apply traced_bind; [apply traced_delete_time_entry|intros _].
  apply traced_bind; [apply traced_lift, local_timedelta|intros nine].
  apply traced_bind; [apply traced_lift, local_datetime_add|intros start_time].
  apply traced_bind; [apply traced_lift, local_timedelta|intros len].
  apply traced_bind; [apply traced_lift, local_datetime_add|intros end_time].
  apply traced_bind; [apply traced_post_entry|intros resp; apply traced_ret].
Qed.

Lemma traced_submit_day (project_id : string) (week : list Z)
    (prefilled : gmap Z Z) (i : nat) (inp : Input) (c : bool) :
  traced (submit_day project_id week prefilled i inp c).
Proof.
  unfold submit_day.
  apply traced_bind; [apply traced_lift, local_index|intros date].
  destruct (disabled inp); [apply traced_ret|].
  apply traced_bind; [apply traced_lift, local_parse_hours|intros minutes].
  destruct (_ && _).
  - apply traced_bind; [apply traced_delete_time_entry|intros _; apply traced_ret].
  - destruct (0 <? minutes); [|apply traced_ret].
    destruct (_ || _); [|apply traced_ret].
    apply traced_bind; [apply traced_book_time|intros _; apply traced_ret].
Qed.

(** *** What the requests do to the stored entries *)

Lemma send_inv (r : request) (l l' : ledger) (res : result unit) :
  send r l = (l', res) ->
  (res = Raise RequestException /\ entries l' = entries l
   /\ next_id l' = next_id l /\ log l' = log l ++ [(r, false)])
  \/ (res = Ok tt /\ entries l' = fst (effect r l)
      /\ next_id l' = snd (effect r l) /\ log l' = log l ++ [(r, true)]).
Proof.
  unfold send.
  destruct (faults l) as [|[] fs]; try destruct (effect r l) as [es n];
    intros [= <- <-]; cbn; auto.
Qed.

Lemma send_no_fault (r : request) (l : ledger) :
  hd false (faults l) = false ->
  snd (send r l) = Ok tt /\ faults (fst (send r l)) = tl (faults l).
Proof.
  unfold send. destruct (faults l) as [|[] fs]; cbn [hd]; try discriminate;
    destruct (effect r l); intros _; auto.
Qed.

Lemma in_range_day (d : Z) (e : time_entry) :
  in_range (midnight d) (midnight d + 86399) e = (dt_date (entry_start e) =? d).
Proof.
  unfold in_range, midnight, dt_date.
  pose proof (Z.div_mod (entry_start e) 86400 ltac:(lia)) as Hdm.
  pose proof (Z.mod_pos_bound (entry_start e) 86400 ltac:(lia)) as Hb.
  destruct (Z.eqb_spec (entry_start e / 86400) d) as [<-|Hne].
  - apply andb_true_intro. split; apply Z.leb_le; lia.
  - apply andb_false_iff.
    destruct (Z.leb_spec (86400 * d) (entry_start e)); [right|left; reflexivity].
    apply Z.leb_gt. assert (d < entry_start e / 86400); [|lia].
    assert (d <= entry_start e / 86400) by (apply Z.div_le_lower_bound; lia). lia.
Qed.

Lemma for_each_filter {A : Type} (f : A -> bool) (g : A -> M unit) (xs : list A) :
  forall l,
    for_each (fun x => if f x then g x else ret tt) xs l
    = for_each g (List.filter f xs) l.
Proof.
  induction xs as [|x xs IH]; intros l; cbn [for_each List.filter]; [reflexivity|].
  destruct (f x); cbn [for_each]; unfold Ledger.bind.
  - destruct (g x l) as [l1 [[]|e]]; [apply IH|reflexivity].
  - cbn [ret]. apply IH.
Qed.

Lemma filter_filter {A : Type} (f g : A -> bool) (l : list A) :
  List.filter f (List.filter g l) = List.filter (fun x => g x && f x) l.
Proof.
  induction l as [|x l IH]; [reflexivity|]. cbn [List.filter].
  destruct (g x); cbn [List.filter andb]; [destruct (f x)|]; rewrite IH; reflexivity.
Qed.

Lemma filter_all {A : Type} (f : A -> bool) (l : list A) :
  (forall x, In x l -> f x = true) -> List.filter f l = l.
Proof.
  induction l as [|x l IH]; intros H; [reflexivity|]. cbn [List.filter].
  rewrite (H x (or_introl eq_refl)), IH; [reflexivity|].
  intros y Hy. apply H. right. exact Hy.
Qed.

Lemma day_query (project_id : string) (d : Z) (l : ledger) :
  List.filter (has_project project_id)
    (List.filter (in_range (midnight d) (midnight d + 86399)) (entries l))
  = targets project_id d l.
Proof.
  unfold targets. rewrite filter_filter. apply filter_ext. intros e.
  unfold on_day. rewrite in_range_day. apply andb_comm.
Qed.

Lemma for_each_delete_inv (ts : list time_entry) :
  forall l l' r,
    for_each (fun e => delete_entry (entry_id e)) ts l = (l', r) ->
    exists n, entries l' = List.filter (spared (firstn n ts)) (entries l)
      /\ next_id l' = next_id l
      /\ (r = Ok tt -> firstn n ts = ts /\ log l' = log l ++ deletions ts).
Proof.
  induction ts as [|t ts IH]; intros l l' r; cbn [for_each].
  - intros [= <- <-]. exists 0%nat. cbn [firstn]. repeat split.
    + symmetry. apply filter_all. reflexivity.
    + symmetry. apply app_nil_r.
  - intros H. apply bind_inv in H as [(l1 & [] & Hs & Hk)|(e & Hs & ->)].
    + apply send_inv in Hs as [(Hr & _)|(_ & He & Hn & Hl)]; [discriminate|].
      cbn [effect fst snd] in He, Hn.
      apply IH in Hk as (n & He' & Hn' & Hok).
      exists (S n). cbn [firstn]. split; [|split].
      * rewrite He', He, filter_filter. apply filter_ext. intros e.
        unfold spared. cbn [existsb]. rewrite negb_orb.
        rewrite (Z.eqb_sym (entry_id t)). reflexivity.
      * congruence.
      * intros Hr. destruct (Hok Hr) as [Hf Hl'].
        split; [f_equal; exact Hf|].
        rewrite Hl', Hl. cbn [deletions map]. rewrite <- app_assoc. reflexivity.
    + apply send_inv in Hs as [(_ & He & Hn & _)|(Hr & _)]; [|discriminate].
      exists 0%nat. cbn [firstn]. split; [|split; [exact Hn|discriminate]].
      rewrite He. symmetry. apply filter_all. reflexivity.
Qed.

Lemma delete_time_entry_inv (project_id : string) (d : Z) (l l' : ledger)
    (r : result unit) :
  delete_time_entry project_id d l = (l', r) ->
  exists n, entries l' = List.filter (spared (firstn n (targets project_id d l))) (entries l)
    /\ next_id l' = next_id l
    /\ (r = Ok tt ->
        firstn n (targets project_id d l) = targets project_id d l
        /\ log l' = log l ++ (ListEntries (midnight d) (midnight d + 86399), true)
                             :: deletions (targets project_id d l)).
Proof.
  unfold delete_time_entry, get_entries. intros H.
  apply bind_inv in H as [(l1 & es & Hg & Hk)|(e & Hg & ->)].
  - apply bind_inv in Hg as [(l0 & [] & Hs & Hg)|(e & Hs & [=])].
    injection Hg as <- <-.
    apply send_inv in Hs as [(Hr & _)|(_ & He & Hn & Hl)]; [discriminate|].
    cbn [effect fst snd] in He, Hn.
    rewrite for_each_filter, He, day_query in Hk.
    apply for_each_delete_inv in Hk as (n & He' & Hn' & Hok).
    exists n. split; [congruence|]. split; [congruence|].
    intros Hr. destruct (Hok Hr) as [Hf Hl']. split; [exact Hf|].
    rewrite Hl', Hl, <- app_assoc. reflexivity.
  - apply bind_inv in Hg as [(l0 & [] & Hs & [=])|(e' & Hs & [= ->])].
    apply send_inv in Hs as [(_ & He & Hn & _)|(Hr & _)]; [|discriminate].
    exists 0%nat. cbn [firstn]. split; [|split; [exact Hn|discriminate]].
    rewrite He. symmetry. apply filter_all. reflexivity.
Qed.

Lemma dt_date_nine (d : Z) : dt_date (midnight d + 32400) = d.
Proof.
  unfold dt_date, midnight. symmetry.
  apply (Z.div_unique _ _ _ 32400); lia.
Qed.

Lemma book_time_inv (project_id : string) (d minutes : Z) (l l' : ledger)
    (r : result (option time_entry)) :
  0 < minutes ->
  book_time project_id d minutes l = (l', r) ->
  exists l1 r1, delete_time_entry project_id d l = (l1, r1)
    /\ ((exists e, r = Raise e /\ entries l' = entries l1 /\ next_id l' = next_id l1)
        \/ (r1 = Ok tt /\ r = Ok (Some (booked project_id d minutes l1))
            /\ entries l' = entries l1 ++ [booked project_id d minutes l1]
            /\ next_id l' = next_id l1 + 1
            /\ log l' = log l1 ++ [(CreateEntry project_id (midnight d + 32400)
                                      (midnight d + 32400 + 60 * minutes), true)])).
Proof.
  intros Hm. unfold book_time.
  destruct (Z.leb_spec minutes 0) as [|_]; [lia|]. intros H.
  apply bind_inv in H as [(l1 & [] & Hd & H)|(e & Hd & ->)];
    [|exists l', (Raise e); split; [exact Hd|left; eauto]].
  exists l1, (Ok tt). split; [exact Hd|].
  unfold lift in H.
  repeat match type of H with
         | Ledger.bind (fun l => (l, ?x)) _ _ = _ =>
             let E := fresh "E" in
             destruct x as [?v|?e] eqn:E; unfold Ledger.bind at 1 in H;
             [|injection H as <- <-; left; eauto]
         end.
  vm_compute in E. injection E as <-.
  unfold datetime_add in E0. destruct (_ && _) in E0; [|discriminate].
  injection E0 as <-.
  unfold timedelta_minutes, timedelta in E1. destruct (_ && _) in E1; [|discriminate].
  injection E1 as <-.
  unfold datetime_add in E2. destruct (_ && _) in E2; [|discriminate].
  injection E2 as <-.
  unfold post_entry in H.
  apply bind_inv in H as [(l2 & resp & Hp & H)|(e & Hp & ->)].
  - injection H as <- <-.
    apply bind_inv in Hp as [(l3 & [] & Hs & [= <- <-])|(e & Hs & [=])].
    apply send_inv in Hs as [(Hr & _)|(_ & He & Hn & Hl)]; [discriminate|].
    cbn [effect fst snd] in He, Hn. right.
    replace (midnight d + 32400 + 60 * minutes - (midnight d + 32400))
      with (60 * minutes) in * by lia.
    unfold booked. repeat split; assumption.
  - apply bind_inv in Hp as [(l3 & [] & Hs & [=])|(e' & Hs & [= ->])].
    apply send_inv in Hs as [(_ & He & Hn & _)|(Hr & _)]; [|discriminate].
    left. eauto.
Qed.

(** C10.  Booking zero or fewer minutes does nothing at all: the call
    returns [None] at once, no request is sent (the log is unchanged, so
    neither the deletion of the existing entries nor a creation takes
    place) and the ledger is left as it was. *)
Theorem book_time_nonpositive_noop (project_id : string) (date minutes : Z)
    (l : ledger) :
  minutes <= 0 -> book_time project_id date minutes l = (l, Ok None).
Proof.
  intros Hm. unfold book_time.
  destruct (Z.leb_spec minutes 0); [reflexivity|lia].
Qed.

Lemma on_day_booked (project_id : string) (d minutes : Z) (l : ledger) :
  on_day project_id d (booked project_id d minutes l) = true.
Proof.
  unfold on_day, has_project, booked. cbn [entry_project entry_start].
  rewrite String.eqb_refl, dt_date_nine, Z.eqb_refl. reflexivity.
Qed.

Lemma spared_self (ts : list time_entry) (e : time_entry) :
  In e ts -> spared ts e = false.
Proof.
  intros Hin. unfold spared. apply negb_false_iff, existsb_exists.
  exists e. split; [exact Hin|apply Z.eqb_refl].
Qed.

Lemma no_target_left (project_id : string) (d : Z) (l : ledger) :
  List.filter (on_day project_id d)
    (List.filter (spared (targets project_id d l)) (entries l)) = [].
Proof.
  rewrite filter_filter.
  destruct (List.filter _ (entries l)) as [|e es] eqn:Hf; [reflexivity|].
  assert (Hin : In e (List.filter
                        (fun x => spared (targets project_id d l) x
                                  && on_day project_id d x) (entries l)))
    by (rewrite Hf; left; reflexivity).
  apply filter_In in Hin as [Hin Hb]. apply andb_prop in Hb as [Hs Ho].
  rewrite spared_self in Hs; [discriminate|].
  unfold targets. apply filter_In. split; assumption.
Qed.

(** C3.  A booking of [minutes > 0] that succeeds first lists the day,
    then deletes every entry of that project and day that was there, and
    only then creates the new entry: these are its requests, in this
    order.  Afterwards the ledger holds exactly one entry for that
    project and day, the one just created. *)
Theorem book_time_replaces_day (project_id : string) (date minutes : Z)
    (l l' : ledger) (resp : option time_entry) :
  0 < minutes ->
  book_time project_id date minutes l = (l', Ok resp) ->
  let created := booked project_id date minutes l in
  resp = Some created
  /\ List.filter (on_day project_id date) (entries l') = [created]
  /\ log l' = log l
              ++ (ListEntries (midnight date) (midnight date + 86399), true)
                 :: deletions (targets project_id date l)
              ++ [(CreateEntry project_id (midnight date + 32400)
                     (midnight date + 32400 + 60 * minutes), true)].
Proof.
  intros Hm H created.
  apply book_time_inv in H as (l1 & r1 & Hd & [(e & [=] & _)|(-> & Hr & He & Hn & Hl)]);
    [|exact Hm].
  apply delete_time_entry_inv in Hd as (n & He1 & Hn1 & Hok).
  destruct (Hok eq_refl) as [Hall Hl1]. rewrite Hall in He1.
  assert (Hb : booked project_id date minutes l1 = created)
    by (unfold created, booked; rewrite Hn1; reflexivity).
  rewrite Hb in *. split; [congruence|]. split.
  - rewrite He, List.filter_app, He1, no_target_left. cbn [List.filter app].
    unfold created. rewrite on_day_booked. reflexivity.
  - rewrite Hl, Hl1, <- app_assoc. reflexivity.
Qed.

(** *** Identifiers stay unique, and a day's operation leaves the other
    days alone *)

Lemma In_map_filter {A B : Type} (f : A -> B) (g : A -> bool) (l : list A) (y : B) :
  In y (map f (List.filter g l)) -> In y (map f l).
Proof.
  intros H. apply in_map_iff in H as (x & <- & Hx).
  apply filter_In in Hx as [Hx _]. apply in_map. exact Hx.
Qed.

Lemma NoDup_map_filter {A B : Type} (f : A -> B) (g : A -> bool) (l : list A) :
  List.NoDup (map f l) -> List.NoDup (map f (List.filter g l)).
Proof.
  induction l as [|x l IH]; cbn [map List.filter]; intros H; [constructor|].
  apply List.NoDup_cons_iff in H as [Hx Hl].
  destruct (g x); cbn [map]; [|exact (IH Hl)].
  apply List.NoDup_cons_iff. split; [|exact (IH Hl)].
  intros Hin. apply Hx. exact (In_map_filter _ _ _ _ Hin).
Qed.

Lemma wf_filter (g : time_entry -> bool) (l l' : ledger) :
  wf l -> entries l' = List.filter g (entries l) -> next_id l' = next_id l -> wf l'.
Proof.
  intros [Hnd Hlt] He Hn. split; rewrite He.
  - apply NoDup_map_filter, Hnd.
  - rewrite Hn. rewrite List.Forall_forall in *. intros e Hin.
    apply filter_In in Hin as [Hin _]. exact (Hlt e Hin).
Qed.

Lemma same_id_same_entry (es : list time_entry) (e t : time_entry) :
  List.NoDup (map entry_id es) -> In e es -> In t es ->
  entry_id t = entry_id e -> t = e.
Proof.
  induction es as [|x es IH]; cbn [map]; intros Hnd He Ht Hid; [destruct He|].
  apply List.NoDup_cons_iff in Hnd as [Hx Hl].
  destruct He as [->|He], Ht as [->|Ht]; try reflexivity.
  - destruct Hx. rewrite <- Hid. apply in_map, Ht.
  - destruct Hx. rewrite Hid. apply in_map, He.
  - exact (IH Hl He Ht Hid).
Qed.

Lemma same_off_day_refl (d : Z) (l : ledger) : same_off_day d l l.
Proof. intros e _. reflexivity. Qed.

Lemma same_off_day_entries (d : Z) (l l1 l' : ledger) :
  entries l' = entries l1 -> same_off_day d l l1 -> same_off_day d l l'.
Proof. intros He H e Hne. rewrite He. exact (H e Hne). Qed.

Lemma delete_time_entry_frame (project_id : string) (d : Z) (l l' : ledger)
    (r : result unit) :
  wf l -> delete_time_entry project_id d l = (l', r) ->
  wf l' /\ same_off_day d l l'.
Proof.
  intros Hwf H. apply delete_time_entry_inv in H as (n & He & Hn & _).
  split; [exact (wf_filter _ _ _ Hwf He Hn)|].
  intros e Hne. rewrite He, filter_In. split; [tauto|].
  intros Hin. split; [exact Hin|].
  unfold spared. apply negb_true_iff.
  destruct (existsb _ _) eqn:Hex; [|reflexivity].
  apply existsb_exists in Hex as (t & Ht & Hid). apply Z.eqb_eq in Hid.
  assert (Ht' : In t (targets project_id d l)).
  { rewrite <- (firstn_skipn n). apply in_or_app. left. exact Ht. }
  unfold targets in Ht'. apply filter_In in Ht' as [Ht' Hon].
  rewrite (same_id_same_entry _ _ _ (proj1 Hwf) Hin Ht' Hid) in Hon.
  unfold on_day in Hon. apply andb_prop in Hon as [_ Hd].
  apply Z.eqb_eq in Hd. contradiction.
Qed.

Lemma wf_booked (project_id : string) (d minutes : Z) (l1 l' : ledger) :
  wf l1 -> entries l' = entries l1 ++ [booked project_id d minutes l1] ->
  next_id l' = next_id l1 + 1 -> wf l'.
Proof.
  intros [Hnd Hlt] He Hn. rewrite List.Forall_forall in Hlt.
  split; rewrite He.
  - rewrite map_app. cbn [map booked entry_id].
    apply List.NoDup_app.
    + exact Hnd.
    + apply List.NoDup_cons_iff. split; [intros []|apply List.NoDup_nil].
    + intros i Hi [<-|[]].
      apply in_map_iff in Hi as (e & Hid & Hin).
      specialize (Hlt e Hin). lia.
  - rewrite Hn. apply List.Forall_forall. intros e Hin.
    apply in_app_or in Hin as [Hin|[<-|[]]].
    + specialize (Hlt e Hin). lia.
    + cbn [booked entry_id]. lia.
Qed.

Lemma book_time_frame (project_id : string) (d minutes : Z) (l l' : ledger)
    (r : result (option time_entry)) :
  wf l -> book_time project_id d minutes l = (l', r) ->
  wf l' /\ same_off_day d l l'.
Proof.
  intros Hwf H.
  destruct (Z_le_gt_dec minutes 0) as [Hm|Hm].
  - unfold book_time in H. destruct (Z.leb_spec minutes 0) as [_|?]; [|lia].
    injection H as <- <-. split; [exact Hwf|apply same_off_day_refl].
  - apply book_time_inv in H as (l1 & r1 & Hd & Hcase); [|lia].
    destruct (delete_time_entry_frame _ _ _ _ _ Hwf Hd) as [Hwf1 Hsame].
    destruct Hcase as [(e & _ & He & Hn)|(_ & _ & He & Hn & _)].
    + split; [|exact (same_off_day_entries _ _ _ _ He Hsame)].
      destruct Hwf1 as [H1 H2]. split; rewrite He; [exact H1|].
      rewrite Hn. exact H2.
    + split; [exact (wf_booked _ _ _ _ _ Hwf1 He Hn)|].
      intros e Hne. rewrite He, in_app_iff, (Hsame e Hne).
      split; [|tauto]. intros [Hin|[<-|[]]]; [exact Hin|].
      destruct Hne. apply dt_date_nine.
Qed.

End Runs.

(** ** The reconciliation engine *)

Section Reconciliation.

Lemma submit_day_disabled (project_id : string) (week : list Z)
    (prefilled : gmap Z Z) (i : nat) (inp : Input) (c : bool) (date : Z)
    (l : ledger) :
  nth_error week i = Some date -> disabled inp = true ->
  submit_day project_id week prefilled i inp c l = (l, Ok c).
Proof.
  intros Hi Hd. unfold submit_day, index, lift, Ledger.bind.
  rewrite Hi, Hd. reflexivity.
Qed.



(** *** The whole loop *)

Lemma submit_loop_app (project_id : string) (week : list Z)
    (prefilled : gmap Z Z) (xs ys : list Input) :
  forall (i : nat) (c : bool) (l : ledger),
    submit_loop project_id week prefilled i (xs ++ ys) c l
    = Ledger.bind (submit_loop project_id week prefilled i xs c)
        (fun c' => submit_loop project_id week prefilled (i + length xs) ys c') l.
Proof.
  induction xs as [|x xs IH]; intros i c l; cbn [submit_loop app length].
  - unfold Ledger.bind, ret. rewrite Nat.add_0_r. reflexivity.
  - unfold Ledger.bind.
    destruct (submit_day project_id week prefilled i x c l) as [l1 [c1|e]];
      [|reflexivity].
    rewrite IH. unfold Ledger.bind.
    replace (S i + length xs)%nat with (i + S (length xs))%nat by lia.
    reflexivity.
Qed.

Lemma submit_day_frame (project_id : string) (week : list Z)
    (prefilled : gmap Z Z) (i : nat) (inp : Input) (c : bool)
    (l l' : ledger) (r : result bool) :
  wf l -> submit_day project_id week prefilled i inp c l = (l', r) ->
  wf l' /\ forall d, nth_error week i = Some d -> same_off_day d l l'.
Proof.
  intros Hwf. unfold submit_day, index, lift. unfold Ledger.bind at 1.
  destruct (nth_error week i) as [date|];
    [|intros [= <- <-]; split; [exact Hwf|discriminate]].
  assert (Hsame : forall l1, wf l1 /\ same_off_day date l l1 ->
            wf l1 /\ forall d, Some date = Some d -> same_off_day d l l1)
    by (intros l1 [H1 H2]; split; [exact H1|intros d [= <-]; exact H2]).
  assert (Hrefl : wf l /\ forall d, Some date = Some d -> same_off_day d l l)
    by (apply Hsame; split; [exact Hwf|apply same_off_day_refl]).
  destruct (disabled inp); [intros [= <- <-]; exact Hrefl|].
  unfold Ledger.bind at 1.
  destruct (parse_hours _) as [minutes|e]; [|intros [= <- <-]; exact Hrefl].
  destruct (_ && _).
  - intros H. apply Hsame.
    apply bind_inv in H as [(l1 & [] & Hd & [= <- <-])|(e & Hd & ->)];
      exact (delete_time_entry_frame _ _ _ _ _ Hwf Hd).
  - destruct (0 <? minutes); [|intros [= <- <-]; exact Hrefl].
    destruct (_ || _); [|intros [= <- <-]; exact Hrefl].
    intros H. apply Hsame.
    apply bind_inv in H as [(l1 & b & Hb & [= <- <-])|(e & Hb & ->)];
      exact (book_time_frame _ _ _ _ _ _ Hwf Hb).
Qed.

Lemma submit_loop_wf (project_id : string) (week : list Z)
    (prefilled : gmap Z Z) (inps : list Input) :
  forall (i : nat) (c : bool) (l l' : ledger) (r : result bool),
    wf l -> submit_loop project_id week prefilled i inps c l = (l', r) -> wf l'.
Proof.
  induction inps as [|inp inps IH]; intros i c l l' r Hwf; cbn [submit_loop].
  - intros [= <- <-]. exact Hwf.
  - intros H. apply bind_inv in H as [(l1 & c1 & Hd & Hk)|(e & Hd & ->)].
    + apply (IH _ _ _ _ _ (proj1 (submit_day_frame _ _ _ _ _ _ _ _ _ Hwf Hd)) Hk).
    + exact (proj1 (submit_day_frame _ _ _ _ _ _ _ _ _ Hwf Hd)).
Qed.

(** C2.  When the operations of the earlier inputs have succeeded and a
    ledger call of a later input fails, [submit_hours] ends at once with
    the [RequestException] of that call: the failed request is the last
    request made (nothing is retried and nothing is sent after it), every
    request before it succeeded, and the entries of all days other than
    the failing one are exactly as the earlier operations left them (no
    request undoes them). *)
Theorem submit_hours_partial_failure (today : Z) (a : ClockifyTUI)
    (project_id : string) (week : list Z) (done rest : list Input)
    (inp : Input) (c : bool) (l0 l1 l2 : ledger) :
  selected a = Some project_id ->
  get_week_dates today (week_offset a) = Ok week ->
  inputs a = done ++ inp :: rest ->
  wf l0 ->
  submit_loop project_id week (prefilled_hours a) 0 done false l0 = (l1, Ok c) ->
  submit_day project_id week (prefilled_hours a) (length done) inp c l1
  = (l2, Raise RequestException) ->
  submit_hours today a l0 = (l2, Raise RequestException)
  /\ (exists pre x, log l2 = log l1 ++ pre ++ [(x, false)] /\ succeeded pre)
  /\ (exists d, nth_error week (length done) = Some d /\ same_off_day d l1 l2).
Proof.
  intros Hsel Hweek Hinp Hwf Hdone Hfail. split; [|split].
  - unfold submit_hours. rewrite Hsel, Hweek, Hinp.
    unfold lift. unfold Ledger.bind at 1 2.
    rewrite submit_loop_app. rewrite (bind_ok _ _ _ _ _ Hdone).
    cbn [submit_loop Nat.add]. rewrite (bind_raise _ _ _ _ _ Hfail). reflexivity.
  - pose proof (traced_submit_day project_id week (prefilled_hours a)
                  (length done) inp c l1) as Ht.
    rewrite Hfail in Ht. cbn [fst snd] in Ht.
    destruct Ht as (reqs & Hl & pre & x & -> & Hpre). eauto.
  - pose proof (submit_loop_wf _ _ _ _ _ _ _ _ _ Hwf Hdone) as Hwf1.
    destruct (submit_day_frame _ _ _ _ _ _ _ _ _ Hwf1 Hfail) as [_ Hsame].
    destruct (nth_error week (length done)) as [d|] eqn:Hd; [eauto|].
    unfold submit_day, index, lift in Hfail. unfold Ledger.bind at 1 in Hfail.
    rewrite Hd in Hfail. discriminate.
Qed.

Lemma wf_sample_ledger (script : list bool) : wf (sample_ledger script).
Proof.
  split; cbn.
  - repeat (apply List.NoDup_cons_iff; split; [cbn; intuition discriminate|]).
    apply List.NoDup_nil.
  - repeat (apply List.Forall_cons; [cbn; lia|]). apply List.Forall_nil.
Qed.

Lemma submit_hours_partial_failure_witness :
  let l0 := sample_ledger [false; false; false; true] in
  let l1 := fst (submit_loop "p" sample_week (prefilled_hours sample_view) 0
                   [enabled "0"] false l0) in
  let l2 := fst (submit_day "p" sample_week (prefilled_hours sample_view) 1
                   (enabled "2") true l1) in
  submit_hours 738889 sample_view l0 = (l2, Raise RequestException)
  /\ (exists pre x, log l2 = log l1 ++ pre ++ [(x, false)] /\ succeeded pre)
  /\ (exists d, nth_error sample_week 1 = Some d /\ same_off_day d l1 l2).
Proof.
  cbv zeta.
  apply (submit_hours_partial_failure 738889 sample_view "p" sample_week
           [enabled "0"]
           [enabled "1.5"; enabled ""; locked ""; locked ""; locked ""]
           (enabled "2") true);
    first [apply wf_sample_ledger | vm_compute; reflexivity].
Defined.

(** The run of the witness, spelled out: the Monday entry is gone, the
    Wednesday entry is untouched, the request that failed is the last. *)
Example partial_failure_run :
  let '(l, r) := submit_hours 738889 sample_view
                   (sample_ledger [false; false; false; true]) in
  r = Raise RequestException
  /\ map entry_id (entries l) = [2]
  /\ log l = [ (ListEntries (midnight 738886) (midnight 738886 + 86399), true);
               (DeleteEntry 1, true);
               (ListEntries (midnight 738887) (midnight 738887 + 86399), true);
               (CreateEntry "p" (midnight 738887 + 32400)
                  (midnight 738887 + 32400 + 60 * 120), false) ].
Proof. vm_compute. repeat split. Qed.

Lemma book_time_nonpositive_noop_witness :
  book_time "p" 738886 0 (sample_ledger []) = (sample_ledger [], Ok None).
Proof. apply (book_time_nonpositive_noop "p" 738886 0 (sample_ledger [])). lia. Defined.

Lemma book_time_replaces_day_witness :
  let l' := fst (book_time "p" 738886 120 crowded_ledger) in
  let created := booked "p" 738886 120 crowded_ledger in
  Some created = Some created
  /\ List.filter (on_day "p" 738886) (entries l') = [created]
  /\ log l' = log crowded_ledger
              ++ (ListEntries (midnight 738886) (midnight 738886 + 86399), true)
                 :: deletions (targets "p" 738886 crowded_ledger)
              ++ [(CreateEntry "p" (midnight 738886 + 32400)
                     (midnight 738886 + 32400 + 60 * 120), true)].
Proof.
  cbv zeta.
  apply (book_time_replaces_day "p" 738886 120 crowded_ledger
           (fst (book_time "p" 738886 120 crowded_ledger))
           (Some (booked "p" 738886 120 crowded_ledger)));
    [lia|vm_compute; reflexivity].
Defined.

(** The run of this witness: the two Monday entries of [p] are deleted,
    in the order listed, before the new one is created; the entry of the
    other project and the Wednesday entry stay. *)
Example book_time_run :
  let l' := fst (book_time "p" 738886 120 crowded_ledger) in
  map entry_id (entries l') = [2; 4; 5]
  /\ map fst (log l')
     = [ ListEntries (midnight 738886) (midnight 738886 + 86399);
         DeleteEntry 1; DeleteEntry 3;
         CreateEntry "p" (midnight 738886 + 32400) (midnight 738886 + 32400 + 7200) ]
  /\ group_by_day "p" (entries l') !! 738886 = Some 120.
Proof. vm_compute. repeat split. Qed.

(** *** Locked days *)

Lemma is_future_date_iff (today date : Z) :
  is_future_date today date = true <-> today < date.
Proof. unfold is_future_date. apply Z.ltb_lt. Qed.

Lemma rmap_nth {A B : Type} (f : A -> result B) (xs : list A) :
  forall (ys : list B) (i : nat) (y : B),
    rmap f xs = Ok ys -> nth_error ys i = Some y ->
    exists x, nth_error xs i = Some x /\ f x = Ok y.
Proof.
  induction xs as [|x xs IH]; intros ys i y; cbn [rmap].
  - intros [= <-]. destruct i; discriminate.
  - destruct (f x) as [y0|e] eqn:Hx; cbn [rbind]; [|discriminate].
    destruct (rmap f xs) as [ys0|e] eqn:Hxs; cbn [rbind]; [|discriminate].
    intros [= <-]. destruct i as [|i]; cbn [nth_error].
    + intros [= <-]. eauto.
    + intros Hy. exact (IH ys0 i y eq_refl Hy).
Qed.

Lemma range_nth (n i : nat) (x : Z) :
  nth_error (range n) i = Some x -> x = Z.of_nat i.
Proof.
  unfold range. intros H. rewrite nth_error_map in H.
  destruct (nth_error (seq 0 n) i) as [k|] eqn:Hk; [|discriminate].
  injection H as <-. f_equal.
  pose proof (nth_error_Some (seq 0 n) i) as Hlen.
  rewrite Hk, length_seq in Hlen.
  assert (Hi : (i < n)%nat) by (apply Hlen; discriminate).
  rewrite nth_error_nth' with (d := 0%nat) in Hk by (rewrite length_seq; exact Hi).
  rewrite seq_nth in Hk by exact Hi. injection Hk as <-. reflexivity.
Qed.

(** The inputs that [reset_ui] builds are disabled exactly on the dates
    that are in the future at the time they are built. *)
Lemma reset_ui_disabled (today : Z) (a a' : ClockifyTUI) (week : list Z)
    (i : nat) (inp : Input) (d : Z) :
  selected a <> None ->
  reset_ui today a = Ok a' ->
  get_week_dates today (week_offset a) = Ok week ->
  nth_error (inputs a') i = Some inp ->
  nth_error week i = Some d ->
  disabled inp = is_future_date today d.
Proof.
  intros Hsel Hr Hw Hi Hd. unfold reset_ui in Hr.
  destruct (selected a); [|contradiction].
  rewrite Hw in Hr. cbn [rbind] in Hr.
  destruct (rmap _ (range 7)) as [inps|e] eqn:Hm; cbn [rbind] in Hr; [|discriminate].
  injection Hr as <-. cbn [inputs] in Hi.
  destruct (rmap_nth _ _ _ _ _ Hm Hi) as (x & Hx & Hday).
  apply range_nth in Hx. subst x.
  unfold day_input, index in Hday. rewrite Nat2Z.id, Hd in Hday.
  cbn [rbind] in Hday.
  destruct (match prefilled_hours a !! d with Some _ => _ | None => _ end);
    cbn [rbind] in Hday; [|discriminate].
  injection Hday as <-. reflexivity.
Qed.

(** While the clock shows the day on which the view was built, a date
    after today makes no request, whatever text its field holds. *)
Lemma submit_day_skips_future (today : Z) (a a' : ClockifyTUI)
    (project_id : string) (week : list Z) (i : nat) (inp : Input) (d : Z)
    (text : string) (c : bool) (l : ledger) :
  selected a <> None ->
  reset_ui today a = Ok a' ->
  get_week_dates today (week_offset a) = Ok week ->
  nth_error (inputs a') i = Some inp ->
  nth_error week i = Some d ->
  today < d ->
  submit_day project_id week (prefilled_hours a') i
    {| value := text; disabled := disabled inp |} c l = (l, Ok c).
Proof.
  intros Hsel Hr Hw Hi Hd Hlt.
  apply (submit_day_disabled _ _ _ _ _ _ d); [exact Hd|]. cbn [disabled].
  rewrite (reset_ui_disabled _ _ _ _ _ _ _ Hsel Hr Hw Hi Hd).
  apply is_future_date_iff. exact Hlt.
Qed.

(** C9, the failing run.  The view is built on Sunday 2024-01-07 (ordinal
    738892), when no day of its week is in the future, so that no field
    is disabled.  It is still open on Monday 2024-01-08 (738893); the user
    types 2 into the second field and submits.  [submit_hours] takes the
    dates from the week of the new Monday and the locks from the fields
    as they were built: it books 120 minutes on Tuesday 2024-01-09
    (738894), a date after today. *)
Theorem submit_hours_books_future_date :
  match reset_ui 738892 blank_view with
  | Ok built =>
      map disabled (inputs built) = [false; false; false; false; false; false; false]
      /\ let '(l, r) := submit_hours 738893 (type_text 1 "2" built) empty_ledger in
         is_future_date 738893 738894 = true
         /\ log l = [ (ListEntries (midnight 738894) (midnight 738894 + 86399), true);
                      (CreateEntry "p" (midnight 738894 + 32400)
                         (midnight 738894 + 32400 + 60 * 120), true);
                      (ListEntries (midnight 738893) (midnight 738899 + 86399), true) ]
         /\ map (fun e => dt_date (entry_start e)) (entries l) = [738894]
  | Raise _ => False
  end.
Proof. vm_compute. repeat split. Qed.

End Reconciliation.

(** ** The duration codec *)

Section DurationCodec.

Lemma round_ratio_negative (s : bool) (p q : Z) :
  Float.round_ratio s p q <> S754_nan /\ negative (Float.round_ratio s p q) = s.
Proof.
  unfold Float.round_ratio.
  destruct (p <=? 0); [split; [discriminate|reflexivity]|].
  destruct (Float.scaled p q _) as [n0 d0].
  destruct (Float.scaled_div p q _) as [[qt r] d].
  destruct (_ =? 2 ^ Float.prec); cbn zeta beta iota;
    repeat match goal with
           | |- context [if ?b then _ else _] => destruct b
           end; split; first [discriminate|reflexivity].
Qed.

Lemma of_decimal_negative (s : bool) (c k : Z) :
  negative (Float.of_decimal s c k) = s.
Proof. unfold Float.of_decimal. destruct (0 <=? k); apply round_ratio_negative. Qed.

Lemma mul_negative (x : spec_float) (m : positive) (e : Z) :
  negative (Float.mul x (S754_finite false m e)) = negative x.
Proof.
  destruct x as [sx|sx| |sx mx ex]; cbn [Float.mul negative];
    rewrite ?xorb_false_r; try reflexivity.
  destruct (0 <=? ex + e); apply round_ratio_negative.
Qed.

Lemma scaled_div_nonneg (p q e : Z) :
  0 <= p -> 0 < q -> 0 <= fst (fst (Float.scaled_div p q e)).
Proof.
  intros Hp Hq. unfold Float.scaled_div, Float.scaled.
  assert (Hpow : forall k, 0 <= k -> 0 < 2 ^ k)
    by (intros k Hk; apply Z.pow_pos_nonneg; lia).
  destruct (Z.leb_spec 0 e).
  - pose proof (Z.div_pos p (q * 2 ^ e) Hp
                  (Z.mul_pos_pos _ _ Hq (Hpow e ltac:(lia)))) as Hd.
    unfold Z.div in Hd. destruct (Z.div_eucl p (q * 2 ^ e)). exact Hd.
  - pose proof (Hpow (- e) ltac:(lia)).
    pose proof (Z.div_pos (p * 2 ^ (- e)) q ltac:(nia) Hq) as Hd.
    unfold Z.div in Hd. destruct (Z.div_eucl (p * 2 ^ (- e)) q). exact Hd.
Qed.

Lemma round_half_even_ge (qt r d : Z) : qt <= Float.round_half_even qt r d.
Proof. unfold Float.round_half_even. destruct (_ || _); lia. Qed.

Lemma round_negative (x : spec_float) (n : Z) :
  Float.round x = Ok n -> n < 0 -> negative x = true.
Proof.
  destruct x as [s|s| |s m e]; cbn [Float.round negative]; try discriminate.
  - intros [= <-]. lia.
  - pose proof (scaled_div_nonneg (Z.pos m) 1 (- e) ltac:(lia) ltac:(lia)) as Hq.
    destruct (Float.scaled_div (Z.pos m) 1 (- e)) as [[qt r] d]. cbn [fst] in Hq.
    pose proof (round_half_even_ge qt r d).
    intros [= <-]. destruct s; [reflexivity|lia].
Qed.

Lemma sixty : Float.of_int 60 = S754_finite false 8444249301319680 (-47).
Proof. vm_compute. reflexivity. Qed.

Lemma parse_abs_negative (s : bool) (body : list ascii) (x : spec_float) :
  Float.parse_abs s body = Some x -> negative x = true -> s = true.
Proof.
  unfold Float.parse_abs.
  destruct (_ || _); [intros [= <-]; exact id|].
  destruct (Float.is_word "nan" body); [intros [= <-]; discriminate|].
  destruct (take_digits body 0 0) as [[ip ni] r1].
  destruct (match r1 with [] => _ | _ :: _ => _ end) as [[fp nf] r2].
  destruct (ni + nf =? 0); [discriminate|].
  destruct (Float.parse_exponent r2); [|discriminate].
  intros [= <-]. rewrite of_decimal_negative. exact id.
Qed.

Lemma take_sign_minus (s body : list ascii) :
  Float.take_sign s = (true, body) -> In "-"%char s.
Proof.
  destruct s as [|c s]; cbn [Float.take_sign]; [discriminate|].
  destruct (Ascii.eqb_spec c "-") as [->|_]; [left; reflexivity|].
  destruct (Ascii.eqb c "+"); discriminate.
Qed.

Lemma In_lstrip (sp : ascii -> bool) (c : ascii) (s : list ascii) :
  In c (lstrip sp s) -> In c s.
Proof.
  induction s as [|x s IH]; cbn [lstrip]; [exact id|].
  destruct (sp x); [right; exact (IH H)|exact id].
Qed.

Lemma In_strip_with (sp : ascii -> bool) (c : ascii) (s : list ascii) :
  In c (strip_with sp s) -> In c s.
Proof.
  unfold strip_with. intros H.
  apply in_rev, In_lstrip, in_rev, In_lstrip in H. exact H.
Qed.

Lemma of_string_negative (text : string) (x : spec_float) :
  Float.of_string text = Ok x -> negative x = true ->
  In "-"%char (list_ascii_of_string text).
Proof.
  unfold Float.of_string. destruct (Float.underscores_ok None _); [|discriminate].
  destruct (Float.take_sign _) as [neg body] eqn:Hs.
  destruct (Float.parse_abs neg body) as [y|] eqn:Hp; [|discriminate].
  intros [= ->] Hneg. rewrite (parse_abs_negative _ _ _ Hp Hneg) in Hs.
  apply take_sign_minus in Hs. unfold Float.drop_underscores in Hs.
  apply filter_In in Hs as [Hs _]. apply In_strip_with in Hs.
  apply in_map_iff in Hs as (c & Hc & Hin).
  destruct (is_space c && (127 <=? code c)) eqn:Hb; [discriminate Hc|].
  subst c. exact Hin.
Qed.

Lemma chars_replace (a b : ascii) (text : string) :
  list_ascii_of_string (replace a b text)
  = replace_char a b (list_ascii_of_string text).
Proof. unfold replace. apply list_ascii_of_string_of_list_ascii. Qed.

Lemma replace_comma_twice (text : string) :
  replace "," "." (replace "," "." text) = replace "," "." text.
Proof.
  unfold replace at 1. rewrite chars_replace. unfold replace. f_equal.
  unfold replace_char. rewrite map_map. apply map_ext. intros c.
  destruct (Ascii.eqb c ",") eqn:E; cbn; rewrite ?E; reflexivity.
Qed.

Lemma replace_empty (text : string) :
  String.eqb (replace "," "." text) "" = String.eqb text "".
Proof. destruct text; reflexivity. Qed.

Lemma minus_before_replace (text : string) :
  In "-"%char (list_ascii_of_string (replace "," "." text)) ->
  In "-"%char (list_ascii_of_string text).
Proof.
  rewrite chars_replace. unfold replace_char. intros H.
  apply in_map_iff in H as (c & Hc & Hin).
  destruct (Ascii.eqb c ","); [discriminate Hc|]. subst c. exact Hin.
Qed.

(** C6 (amended).  For every input string whose hours, times 60, stay
    within the range of a float, [parse_hours] returns an integer: 0 for
    empty input; a comma is read as a dot; 0, not an error, for text that
    [float] rejects; and for text that reads as a number of hours the
    product of the hours and 60 rounded to an integer (0 when the product
    is not a number).  The result is negative only when the text holds a
    minus sign. *)
Theorem parse_hours_spec (text : string) :
  parse_hours "" = Ok 0
  /\ parse_hours (replace "," "." text) = parse_hours text
  /\ (Float.of_string (replace "," "." text) = Raise ValueError ->
      parse_hours text = Ok 0)
  /\ (infinite_minutes text = false ->
      exists n, parse_hours text = Ok n
        /\ (forall hours, text <> ""%string ->
              Float.of_string (replace "," "." text) = Ok hours ->
              match Float.round (Float.mul hours (Float.of_int 60)) with
              | Raise _ => n = 0 /\ Float.mul hours (Float.of_int 60) = S754_nan
              | Ok r => n = r
              end)
        /\ (n < 0 -> In "-"%char (list_ascii_of_string text))).
Proof.
  split; [reflexivity|]. split; [|split].
  - unfold parse_hours. rewrite replace_empty, replace_comma_twice. reflexivity.
  - intros H. unfold parse_hours. rewrite H.
    destruct (String.eqb text ""); reflexivity.
  - unfold infinite_minutes, parse_hours. intros Hfin.
    destruct (String.eqb_spec text "") as [->|Hne];
      [exists 0; split; [reflexivity|split; [contradiction|lia]]|].
    destruct (Float.of_string _) as [hours|e] eqn:Hh; cbn [rbind].
    + destruct (Float.round _) as [n|e] eqn:Hr.
      * exists n. split; [reflexivity|]. split.
        -- intros h _ [= <-]. rewrite Hr. reflexivity.
        -- intros Hn.
           apply minus_before_replace, (of_string_negative _ hours Hh).
           rewrite <- (mul_negative hours 8444249301319680 (-47)), <- sixty.
           exact (round_negative _ _ Hr Hn).
      * destruct (Float.mul hours (Float.of_int 60)) as [s|s| |s m x] eqn:Hm;
          cbn [Float.round] in Hr; try discriminate.
        -- injection Hr as <-. exists 0. split; [reflexivity|]. split; [|lia].
           intros h _ [= <-]. rewrite Hm. cbn [Float.round]. split; reflexivity.
        -- destruct (Float.scaled_div _ _ _) as [[qt r] d]. discriminate.
    + exists 0. split; [|split; [intros h _ [=]|lia]].
      unfold Float.of_string in Hh.
      repeat match type of Hh with
             | context [if ?b then _ else _] => destruct b
             | context [let '(_, _) := ?p in _] => destruct p
             | context [match ?o with Some _ => _ | None => _ end] => destruct o
             end; try discriminate; injection Hh as <-; reflexivity.
Qed.

Lemma parse_hours_spec_witness :
  infinite_minutes "-1,5" = false
  /\ exists n, parse_hours "-1,5" = Ok n
       /\ (forall hours, "-1,5"%string <> ""%string ->
             Float.of_string (replace "," "." "-1,5") = Ok hours ->
             match Float.round (Float.mul hours (Float.of_int 60)) with
             | Raise _ => n = 0 /\ Float.mul hours (Float.of_int 60) = S754_nan
             | Ok r => n = r
             end)
       /\ (n < 0 -> In "-"%char (list_ascii_of_string "-1,5")).
Proof.
  split; [vm_compute; reflexivity|].
  apply (proj2 (proj2 (proj2 (parse_hours_spec "-1,5")))).
  vm_compute. reflexivity.
Defined.

(** C6 as stated fails: a negative number of hours gives negative
    minutes, and an infinite one raises instead of returning. *)
Lemma parse_hours_negative_and_infinite :
  parse_hours "-1" = Ok (-60) /\ parse_hours "inf" = Raise OverflowError.
Proof. split; vm_compute; reflexivity. Qed.

(** The values pinned by the specification. *)
Example parse_hours_pinned :
  parse_hours "" = Ok 0 /\ parse_hours "abc" = Ok 0
  /\ parse_hours "2,5" = Ok 150 /\ parse_hours "2.5" = Ok 150
  /\ parse_hours " 8 " = Ok 480.
Proof. repeat split; vm_compute; reflexivity. Qed.

End DurationCodec.

(** ** Rounding to binary64 *)

Section Rounding.

Lemma pow2_pos (n : Z) : 0 <= n -> 0 < 2 ^ n.
Proof. intros H. apply Z.pow_pos_nonneg; lia. Qed.

Lemma pow2_lt_inv (a b : Z) : 0 <= b -> 2 ^ a < 2 ^ b -> a < b.
Proof. intros Hb H. apply (Z.pow_lt_mono_r_iff 2); lia. Qed.

Lemma div_eucl_eq (a b : Z) : Z.div_eucl a b = (a / b, a mod b).
Proof. unfold Z.div, Z.modulo. destruct (Z.div_eucl a b). reflexivity. Qed.

Lemma scaled_neg (p q e : Z) : e < 0 -> Float.scaled p q e = (p * 2 ^ (- e), q).
Proof. intros H. unfold Float.scaled. destruct (Z.leb_spec 0 e); [lia|reflexivity]. Qed.

Lemma round_half_even_bounds (qt r d : Z) :
  0 <= r < d ->
  qt <= Float.round_half_even qt r d <= qt + 1
  /\ - d <= 2 * (Float.round_half_even qt r d * d - (qt * d + r)) <= d.
Proof.
  intros Hr. unfold Float.round_half_even.
  destruct (Z.ltb_spec d (2 * r)); cbn [orb]; [nia|].
  destruct (Z.eqb_spec d (2 * r)); cbn [andb]; [destruct (Z.odd qt)|]; nia.
Qed.

Lemma round_half_even_unique (qt r d j : Z) :
  0 <= r < d -> 2 * Z.abs (j * d - (qt * d + r)) < d ->
  Float.round_half_even qt r d = j.
Proof.
  intros Hr Hj. unfold Float.round_half_even.
  destruct (Z.ltb_spec d (2 * r)); cbn [orb]; [nia|].
  destruct (Z.eqb_spec d (2 * r)); cbn [andb]; [destruct (Z.odd qt)|]; nia.
Qed.

Lemma mantissa_near (p q N : Z) :
  0 < q ->
  - q <= 2 * (mantissa p q N * q - p * 2 ^ N) <= q
  /\ p * 2 ^ N / q <= mantissa p q N <= p * 2 ^ N / q + 1.
Proof.
  intros Hq. unfold mantissa.
  pose proof (Z.mod_pos_bound (p * 2 ^ N) q Hq) as Hr.
  pose proof (Z.div_mod (p * 2 ^ N) q ltac:(lia)) as Hd.
  pose proof (round_half_even_bounds (p * 2 ^ N / q) ((p * 2 ^ N) mod q) q Hr).
  nia.
Qed.

Lemma round_ratio_normal (s : bool) (p q N : Z) :
  0 < p -> 0 < q -> 0 < N <= 1074 ->
  2 ^ 52 * q <= p * 2 ^ N -> p * 2 ^ N < 2 ^ 53 * q ->
  Float.round_ratio s p q
  = if mantissa p q N =? 2 ^ 53
    then S754_finite s (Z.to_pos (2 ^ 52)) (- N + 1)
    else S754_finite s (Z.to_pos (mantissa p q N)) (- N).
Proof.
  intros Hp Hq HN Hlo Hhi.
  pose proof (Z.log2_spec p Hp) as Ha. pose proof (Z.log2_spec q Hq) as Hb.
  pose proof (Z.log2_nonneg p) as Ha0. pose proof (Z.log2_nonneg q) as Hb0.
  set (a := Z.log2 p) in *. set (b := Z.log2 q) in *.
  pose proof (pow2_pos N ltac:(lia)) as HpN.
  assert (Ha' : 2 ^ a <= p < 2 * 2 ^ a)
    by (rewrite (Z.pow_succ_r 2 a Ha0) in Ha; exact Ha).
  assert (Hb' : 2 ^ b <= q < 2 * 2 ^ b)
    by (rewrite (Z.pow_succ_r 2 b Hb0) in Hb; exact Hb).
  pose proof (pow2_pos a Ha0) as HAp. pose proof (pow2_pos b Hb0) as HBp.
  assert (Hab1 : 52 - N <= a - b).
  { assert (2 ^ (52 + b) < 2 ^ (a + 1 + N)); [|apply pow2_lt_inv in H; lia].
    replace (a + 1 + N) with (Z.succ a + N) by lia.
    rewrite !Z.pow_add_r, Z.pow_succ_r by lia.
    apply Z.le_lt_trans with (p * 2 ^ N); [nia|].
    apply Z.mul_lt_mono_pos_r; lia. }
  assert (Hab2 : a - b <= 53 - N).
  { assert (2 ^ (a + N) < 2 ^ (53 + Z.succ b)); [|apply pow2_lt_inv in H; lia].
    rewrite !Z.pow_add_r, Z.pow_succ_r by lia.
    apply Z.le_lt_trans with (p * 2 ^ N); [apply Z.mul_le_mono_nonneg_r; lia|].
    apply Z.lt_le_trans with (2 ^ 53 * q); [lia|]. nia. }
  unfold Float.round_ratio.
  destruct (Z.leb_spec p 0); [lia|].
  fold a b. unfold Float.prec, Float.emin, Float.emax.
  assert (He1 : (let '(n0, d0) := Float.scaled p q (Z.max (a - b - 53) (-1074)) in
                 if d0 * 2 ^ 53 <=? n0
                 then Z.max (a - b - 53) (-1074) + 1
                 else Z.max (a - b - 53) (-1074)) = - N).
  { destruct (Z.eq_dec (Z.max (a - b - 53) (-1074)) (- N)) as [E|E].
    - rewrite E, scaled_neg by lia. rewrite Z.opp_involutive.
      destruct (Z.leb_spec (q * 2 ^ 53) (p * 2 ^ N)); [lia|reflexivity].
    - assert (E' : Z.max (a - b - 53) (-1074) = - N - 1) by lia.
      rewrite E', scaled_neg by lia.
      replace (- (- N - 1)) with (N + 1) by lia.
      rewrite Z.pow_add_r by lia.
      destruct (Z.leb_spec (q * 2 ^ 53) (p * (2 ^ N * 2 ^ 1))); [lia|].
      change (2 ^ 1) with 2 in *. lia. }
  destruct (Float.scaled p q (Z.max (a - b - 53) (-1074))) as [n0 d0].
  rewrite He1. unfold Float.scaled_div. rewrite scaled_neg by lia.
  rewrite Z.opp_involutive, div_eucl_eq. fold (mantissa p q N).
  pose proof (mantissa_near p q N Hq) as [_ Hm].
  assert (2 ^ 52 <= p * 2 ^ N / q) by (apply Z.div_le_lower_bound; lia).
  assert (p * 2 ^ N / q < 2 ^ 53) by (apply Z.div_lt_upper_bound; lia).
  change (53 - 1) with 52.
  destruct (Z.eqb_spec (mantissa p q N) (2 ^ 53)) as [E|E].
  - change (2 ^ 52 =? 0) with false. cbn iota.
    destruct (Z.ltb_spec (1024 - 53) (- N + 1)); [lia|reflexivity].
  - destruct (Z.eqb_spec (mantissa p q N) 0); [lia|].
    destruct (Z.ltb_spec (1024 - 53) (- N)); [lia|reflexivity].
Qed.

Lemma div_ratio (n d n' d' : Z) :
  0 < d -> 0 < d' -> n * d' = n' * d ->
  n / d = n' / d' /\ (n mod d) * d' = (n' mod d') * d.
Proof.
  intros Hd Hd' H.
  pose proof (Z.div_mod n d ltac:(lia)) as Hn.
  pose proof (Z.mod_pos_bound n d Hd) as Hr.
  assert (Hq : n' / d' = n / d).
  { symmetry. apply (Z.div_unique n' d' (n / d) (n' - d' * (n / d))); [|lia].
    left. nia. }
  split; [symmetry; exact Hq|].
  pose proof (Z.div_mod n' d' ltac:(lia)) as Hn'. nia.
Qed.

Lemma round_half_even_ratio (qt r d r' d' : Z) :
  0 < d -> 0 < d' -> r * d' = r' * d ->
  Float.round_half_even qt r d = Float.round_half_even qt r' d'.
Proof.
  intros Hd Hd' H. unfold Float.round_half_even.
  assert (E1 : (d <? 2 * r) = (d' <? 2 * r'))
    by (destruct (Z.ltb_spec d (2 * r)), (Z.ltb_spec d' (2 * r')); try reflexivity; nia).
  assert (E2 : (d =? 2 * r) = (d' =? 2 * r'))
    by (destruct (Z.eqb_spec d (2 * r)), (Z.eqb_spec d' (2 * r')); try reflexivity; nia).
  rewrite E1, E2. reflexivity.
Qed.

Lemma mantissa_ratio (p q p' q' N : Z) :
  0 < q -> 0 < q' -> p * q' = p' * q -> mantissa p q N = mantissa p' q' N.
Proof.
  intros Hq Hq' H. unfold mantissa.
  destruct (div_ratio (p * 2 ^ N) q (p' * 2 ^ N) q' Hq Hq' ltac:(nia)) as [E1 E2].
  rewrite E1. apply round_half_even_ratio; assumption.
Qed.

(** [round_ratio] depends on the quotient only. *)
Lemma round_ratio_ratio (s : bool) (p q p' q' N : Z) :
  0 < p -> 0 < q -> 0 < N <= 1074 ->
  2 ^ 52 * q <= p * 2 ^ N -> p * 2 ^ N < 2 ^ 53 * q ->
  0 < p' -> 0 < q' -> p * q' = p' * q ->
  Float.round_ratio s p' q' = Float.round_ratio s p q.
Proof.
  intros Hp Hq HN Hlo Hhi Hp' Hq' H.
  pose proof (pow2_pos N ltac:(lia)) as HpN.
  rewrite (round_ratio_normal s p q N) by assumption.
  rewrite (round_ratio_normal s p' q' N); try assumption; try nia.
  rewrite (mantissa_ratio p' q' p q N) by lia. reflexivity.
Qed.

Lemma round_ratio_value (p q N : Z) :
  0 < p -> 0 < q -> 0 < N <= 1074 ->
  2 ^ 52 * q <= p * 2 ^ N -> p * 2 ^ N < 2 ^ 53 * q ->
  has_value (Float.round_ratio false p q) (mantissa p q N) N
  /\ 2 ^ 52 <= mantissa p q N <= 2 ^ 53.
Proof.
  intros Hp Hq HN Hlo Hhi.
  pose proof (pow2_pos N ltac:(lia)) as HpN.
  pose proof (mantissa_near p q N Hq) as [_ Hm].
  assert (2 ^ 52 <= p * 2 ^ N / q) by (apply Z.div_le_lower_bound; lia).
  assert (p * 2 ^ N / q < 2 ^ 53) by (apply Z.div_lt_upper_bound; lia).
  split; [|lia].
  rewrite (round_ratio_normal false p q N) by assumption.
  destruct (Z.eqb_spec (mantissa p q N) (2 ^ 53)) as [E|E].
  - exists (Z.to_pos (2 ^ 52)), (- N + 1). split; [reflexivity|]. split; [lia|].
    rewrite E. replace (- (- N + 1)) with (N - 1) by lia.
    replace N with (Z.succ (N - 1)) at 1 by lia.
    rewrite Z.pow_succ_r by lia.
    change (Z.pos (Z.to_pos (2 ^ 52))) with (2 ^ 52). change (2 ^ 53) with (2 ^ 52 * 2).
    lia.
  - exists (Z.to_pos (mantissa p q N)), (- N). split; [reflexivity|]. split; [lia|].
    rewrite Z2Pos.id by lia. rewrite Z.opp_involutive. reflexivity.
Qed.

Lemma round_value (x : spec_float) (M N : Z) :
  has_value x M N -> 0 <= N ->
  Float.round x = Ok (Float.round_half_even (M / 2 ^ N) (M mod 2 ^ N) (2 ^ N)).
Proof.
  intros (m & e & -> & He & Hv) HN. cbn [Float.round].
  unfold Float.scaled_div, Float.scaled.
  destruct (Z.leb_spec 0 (- e)); [|lia].
  rewrite div_eucl_eq, Z.mul_1_l.
  pose proof (pow2_pos N HN). pose proof (pow2_pos (- e) ltac:(lia)).
  destruct (div_ratio (Z.pos m) (2 ^ (- e)) M (2 ^ N)) as [E1 E2];
    [lia|lia|lia|].
  rewrite E1. f_equal. apply round_half_even_ratio; lia.
Qed.

Lemma is_integer_value (x : spec_float) (M N : Z) :
  has_value x M N -> 0 <= N ->
  Float.is_integer x = (M mod 2 ^ N =? 0).
Proof.
  intros (m & e & -> & He & Hv) HN. cbn [Float.is_integer].
  unfold Float.scaled_div, Float.scaled.
  destruct (Z.leb_spec 0 (- e)); [|lia].
  rewrite div_eucl_eq, Z.mul_1_l.
  pose proof (pow2_pos N HN). pose proof (pow2_pos (- e) ltac:(lia)).
  destruct (div_ratio (Z.pos m) (2 ^ (- e)) M (2 ^ N)) as [E1 E2];
    [lia|lia|lia|].
  destruct (Z.eqb_spec (Z.pos m mod 2 ^ (- e)) 0), (Z.eqb_spec (M mod 2 ^ N) 0);
    try reflexivity; nia.
Qed.

Lemma to_int_value (x : spec_float) (M N : Z) :
  has_value x M N -> 0 <= N -> Float.to_int x = Ok (M / 2 ^ N).
Proof.
  intros (m & e & -> & He & Hv) HN. cbn [Float.to_int].
  unfold Float.scaled_div, Float.scaled.
  destruct (Z.leb_spec 0 (- e)); [|lia].
  rewrite div_eucl_eq, Z.mul_1_l.
  pose proof (pow2_pos N HN). pose proof (pow2_pos (- e) ltac:(lia)).
  destruct (div_ratio (Z.pos m) (2 ^ (- e)) M (2 ^ N)) as [E1 E2];
    [lia|lia|lia|].
  rewrite E1. reflexivity.
Qed.

Lemma round1_value (x : spec_float) (M N : Z) :
  has_value x M N -> 0 <= N ->
  Float.round1 x
  = Float.round_ratio false
      (Float.round_half_even (10 * M / 2 ^ N) ((10 * M) mod 2 ^ N) (2 ^ N)) 10.
Proof.
  intros (m & e & -> & He & Hv) HN. cbn [Float.round1].
  unfold Float.scaled_div, Float.scaled.
  destruct (Z.leb_spec 0 (- e)); [|lia].
  rewrite div_eucl_eq, Z.mul_1_l.
  pose proof (pow2_pos N HN). pose proof (pow2_pos (- e) ltac:(lia)).
  destruct (div_ratio (10 * Z.pos m) (2 ^ (- e)) (10 * M) (2 ^ N)) as [E1 E2];
    [lia|lia|lia|].
  rewrite E1. f_equal. apply round_half_even_ratio; lia.
Qed.

(** A quotient between [2^-1000] and [2^52] has an exponent at which its
    mantissa takes 53 bits. *)
Lemma normal_exponent (p q : Z) :
  0 < p -> 0 < q -> p < 2 ^ 52 * q -> q <= 2 ^ 1000 * p ->
  exists N, 0 < N <= 1074 /\ 2 ^ 52 * q <= p * 2 ^ N /\ p * 2 ^ N < 2 ^ 53 * q.
Proof.
  intros Hp Hq Hhi Hlo.
  pose proof (Z.log2_spec p Hp) as Ha. pose proof (Z.log2_spec q Hq) as Hb.
  pose proof (Z.log2_nonneg p) as Ha0. pose proof (Z.log2_nonneg q) as Hb0.
  set (a := Z.log2 p) in *. set (b := Z.log2 q) in *.
  rewrite Z.pow_succ_r in Ha, Hb by lia.
  pose proof (pow2_pos a Ha0) as HA. pose proof (pow2_pos b Hb0) as HB.
  assert (Ht : a <= 52 + b).
  { assert (2 ^ a < 2 ^ (53 + b)); [|apply pow2_lt_inv in H; lia].
    rewrite Z.pow_add_r by lia. nia. }
  assert (Hu : b <= 1001 + a).
  { assert (2 ^ b < 2 ^ (1001 + a)); [|apply pow2_lt_inv in H; lia].
    rewrite Z.pow_add_r by lia. change (2 ^ 1001) with (2 * 2 ^ 1000). nia. }
  set (t := 52 + b - a).
  assert (HT : 2 ^ a * 2 ^ t = 2 ^ 52 * 2 ^ b).
  { rewrite <- !Z.pow_add_r by lia. f_equal. lia. }
  pose proof (pow2_pos t ltac:(lia)) as HTp.
  destruct (Z_le_gt_dec (2 ^ 52 * q) (p * 2 ^ t)) as [Hge|Hlt].
  - exists t. split; [|split; [exact Hge|nia]].
    split; [|lia]. destruct (Z.eq_dec t 0) as [E|E]; [|lia].
    rewrite E in Hge. change (2 ^ 0) with 1 in Hge. lia.
  - exists (t + 1). rewrite Z.pow_add_r by lia. change (2 ^ 1) with 2.
    split; [lia|]. nia.
Qed.

Lemma round_ratio_ext (s : bool) (p q p' q' : Z) :
  0 < p -> 0 < q -> 0 < p' -> 0 < q' -> p * q' = p' * q ->
  p < 2 ^ 52 * q -> q <= 2 ^ 1000 * p ->
  Float.round_ratio s p' q' = Float.round_ratio s p q.
Proof.
  intros Hp Hq Hp' Hq' H Hhi Hlo.
  destruct (normal_exponent p q Hp Hq Hhi Hlo) as (N & HN & H1 & H2).
  apply (round_ratio_ratio s p q p' q' N); assumption.
Qed.

Lemma small_multiple (x a : Z) : 5 < a -> -5 <= x * a <= 5 -> x = 0.
Proof. intros Ha H. destruct (Z.lt_trichotomy x 0) as [Hx|[Hx|Hx]]; [nia|lia|nia]. Qed.

Lemma tenths_exponent (k : Z) :
  1 <= k < 10 * 2 ^ 45 ->
  exists N, 8 <= N <= 56 /\ 2 ^ 52 * 10 <= k * 2 ^ N /\ k * 2 ^ N < 2 ^ 53 * 10.
Proof.
  intros Hk.
  pose proof (Z.log2_spec k ltac:(lia)) as Ha.
  pose proof (Z.log2_nonneg k) as Ha0.
  set (a := Z.log2 k) in *.
  rewrite Z.pow_succ_r in Ha by lia.
  assert (Ha1 : a <= 48).
  { assert (2 ^ a < 2 ^ 49) by lia. apply pow2_lt_inv in H; lia. }
  pose proof (pow2_pos a Ha0) as HA.
  assert (HC : 2 ^ a * 2 ^ (56 - a) = 2 ^ 56)
    by (rewrite <- Z.pow_add_r by lia; f_equal; lia).
  pose proof (pow2_pos (56 - a) ltac:(lia)) as HCp.
  destruct (Z_lt_le_dec (k * 2 ^ (56 - a)) (2 ^ 53 * 10)) as [Hlt|Hge].
  - exists (56 - a). split; [lia|]. split; [|exact Hlt]. nia.
  - assert (Ha2 : a <= 47).
    { destruct (Z.eq_dec a 48) as [E|E]; [|lia]. rewrite E in Hge.
      change (56 - 48) with 8 in Hge. lia. }
    assert (HC2 : 2 ^ (56 - a) = 2 * 2 ^ (55 - a)).
    { replace (56 - a) with (Z.succ (55 - a)) by lia. apply Z.pow_succ_r. lia. }
    exists (55 - a). split; [lia|]. nia.
Qed.

Lemma tenths_value (k : Z) :
  1 <= k < 10 * 2 ^ 45 ->
  exists M N, 8 <= N <= 56 /\ has_value (tenths k) M N
    /\ 2 ^ 52 <= M <= 2 ^ 53 /\ -5 <= 10 * M - k * 2 ^ N <= 5.
Proof.
  intros Hk. destruct (tenths_exponent k Hk) as (N & HN & Hlo & Hhi).
  destruct (round_ratio_value k 10 N) as [Hv Hm]; try lia.
  pose proof (mantissa_near k 10 N ltac:(lia)) as [Hn _].
  exists (mantissa k 10 N), N. repeat split; try assumption; lia.
Qed.

Lemma sixty_value :
  Float.of_int 60 = S754_finite false (Z.to_pos (60 * 2 ^ 47)) (-47).
Proof. vm_compute. reflexivity. Qed.

Lemma mul_sixty_value (x : spec_float) (M N Np : Z) :
  has_value x M N -> 0 <= N -> 0 < M -> 0 < Np <= 1074 ->
  2 ^ 52 * 2 ^ N <= 60 * M * 2 ^ Np -> 60 * M * 2 ^ Np < 2 ^ 53 * 2 ^ N ->
  Float.mul x (Float.of_int 60) = Float.round_ratio false (60 * M) (2 ^ N).
Proof.
  intros (m & e & -> & He & Hv) HN HM HNp Hlo Hhi.
  rewrite sixty_value. cbn [Float.mul xorb].
  destruct (Z.leb_spec 0 (e + -47)); [lia|].
  pose proof (pow2_pos N HN). pose proof (pow2_pos (- e) ltac:(lia)).
  assert (E : 2 ^ (- (e + -47)) = 2 ^ 47 * 2 ^ (- e)).
  { replace (- (e + -47)) with (47 + - e) by lia. apply Z.pow_add_r; lia. }
  rewrite E. change (Z.pos (Z.to_pos (60 * 2 ^ 47))) with (60 * 2 ^ 47).
  apply (round_ratio_ratio false (60 * M) (2 ^ N) _ _ Np); try lia; nia.
Qed.

(** The hours nearest to [k / 10], times 60, round to [6 * k] minutes. *)
Lemma tenths_to_minutes (k : Z) :
  1 <= k < 10 * 2 ^ 45 ->
  Float.round (Float.mul (tenths k) (Float.of_int 60)) = Ok (6 * k).
Proof.
  intros Hk. destruct (tenths_value k Hk) as (M & N & HN & Hv & HM & Hnear).
  pose proof (pow2_pos N ltac:(lia)) as HA.
  assert (HNp : exists Np, 2 <= Np <= 56
             /\ (2 ^ N = 32 * 2 ^ Np \/ 2 ^ N = 64 * 2 ^ Np)
             /\ 2 ^ 52 * 2 ^ N <= 60 * M * 2 ^ Np
             /\ 60 * M * 2 ^ Np < 2 ^ 53 * 2 ^ N).
  { destruct (Z_lt_le_dec (60 * M) (2 ^ 58)) as [Hlt|Hge].
    - exists (N - 5). pose proof (pow2_pos (N - 5) ltac:(lia)).
      assert (E : 2 ^ N = 32 * 2 ^ (N - 5)).
      { replace N with (5 + (N - 5)) at 1 by lia. rewrite Z.pow_add_r by lia.
        reflexivity. }
      split; [lia|]. split; [left; exact E|]. rewrite E. nia.
    - exists (N - 6). pose proof (pow2_pos (N - 6) ltac:(lia)).
      assert (E : 2 ^ N = 64 * 2 ^ (N - 6)).
      { replace N with (6 + (N - 6)) at 1 by lia. rewrite Z.pow_add_r by lia.
        reflexivity. }
      split; [lia|]. split; [right; exact E|]. rewrite E. nia. }
  destruct HNp as (Np & HNp & HAB & Hlo & Hhi).
  pose proof (pow2_pos Np ltac:(lia)) as HB.
  assert (HB4 : 4 <= 2 ^ Np).
  { change 4 with (2 ^ 2). apply Z.pow_le_mono_r; lia. }
  rewrite (mul_sixty_value _ M N Np Hv) by lia.
  destruct (round_ratio_value (60 * M) (2 ^ N) Np) as [Hvp _]; try lia.
  pose proof (mantissa_near (60 * M) (2 ^ N) Np HA) as [Hnp _].
  set (Mp := mantissa (60 * M) (2 ^ N) Np) in *.
  rewrite (round_value _ Mp Np Hvp) by lia. f_equal.
  pose proof (Z.div_mod Mp (2 ^ Np) ltac:(lia)) as Hd.
  apply round_half_even_unique; [apply Z.mod_pos_bound; lia|].
  replace (Mp / 2 ^ Np * 2 ^ Np + Mp mod 2 ^ Np) with Mp by lia.
  assert (Hd1 : -1 <= Mp - 6 * k * 2 ^ Np <= 1).
  { destruct HAB as [E|E]; rewrite E in *; nia. }
  lia.
Qed.

Lemma hours_are_tenths (k : Z) :
  1 <= k < 10 * 2 ^ 45 -> Float.int_truediv (6 * k) 60 = Ok (tenths k).
Proof.
  intros Hk. destruct (tenths_exponent k Hk) as (N & HN & Hlo & Hhi).
  unfold Float.int_truediv.
  destruct (Z.ltb_spec (6 * k) 0); [lia|]. rewrite Z.abs_eq by lia.
  rewrite (round_ratio_ratio false k 10 (6 * k) 60 N) by lia.
  fold (tenths k).
  destruct (tenths_value k Hk) as (M & N' & _ & (m & e & -> & _) & _).
  reflexivity.
Qed.

Lemma format_minutes_tenths (k : Z) :
  1 <= k < 10 * 2 ^ 45 ->
  format_minutes (6 * k)
  = Ok (if k mod 10 =? 0 then str_int (k / 10) else Float.str (tenths k)).
Proof.
  intros Hk. unfold format_minutes.
  destruct (Z.eqb_spec (6 * k) 0); [lia|].
  rewrite (hours_are_tenths k Hk). cbn [rbind].
  destruct (tenths_value k Hk) as (M & N & HN & Hv & HM & Hnear).
  pose proof (pow2_pos N ltac:(lia)) as HA.
  assert (HA8 : 2 ^ 8 <= 2 ^ N) by (apply Z.pow_le_mono_r; lia).
  change (2 ^ 8) with 256 in HA8.
  rewrite (is_integer_value _ M N Hv) by lia.
  rewrite (to_int_value _ M N Hv) by lia. cbn [rbind].
  rewrite (round1_value _ M N Hv) by lia.
  pose proof (Z.div_mod M (2 ^ N) ltac:(lia)) as HdM.
  pose proof (Z.div_mod k 10 ltac:(lia)) as Hdk.
  destruct (Z.eqb_spec (k mod 10) 0) as [E10|E10].
  - assert (HMk : M = k / 10 * 2 ^ N) by nia.
    assert (Hmod : M mod 2 ^ N = 0) by (rewrite HMk; apply Z.mod_mul; lia).
    rewrite Hmod. cbn. do 2 f_equal.
    rewrite HMk. apply Z.div_mul. lia.
  - destruct (Z.eqb_spec (M mod 2 ^ N) 0) as [E|E].
    + exfalso. rewrite E, Z.add_0_r in HdM.
      assert (Hj : -5 <= (10 * (M / 2 ^ N) - k) * 2 ^ N <= 5) by lia.
      pose proof (small_multiple (10 * (M / 2 ^ N) - k) (2 ^ N) ltac:(lia) Hj) as Hx.
      pose proof (Z.mod_pos_bound k 10 ltac:(lia)). lia.
    + f_equal. f_equal. unfold tenths. f_equal.
      pose proof (Z.div_mod (10 * M) (2 ^ N) ltac:(lia)) as Hd.
      apply round_half_even_unique; [apply Z.mod_pos_bound; lia|]. lia.
Qed.

End Rounding.

(** ** Decimals and the shortest text of a float *)

Section Decimals.

Lemma pow10_pos (n : Z) : 0 <= n -> 0 < 10 ^ n.
Proof. intros H. apply Z.pow_pos_nonneg; lia. Qed.

Lemma pow10_succ (n : Z) : 0 <= n -> 10 ^ (n + 1) = 10 * 10 ^ n.
Proof. intros H. rewrite Z.pow_add_r by lia. change (10 ^ 1) with 10. lia. Qed.

Lemma pow10_le (a b : Z) : 0 <= a <= b -> 10 ^ a <= 10 ^ b.
Proof. intros H. apply Z.pow_le_mono_r; lia. Qed.

Lemma pow10_lt_inv (a b : Z) : 0 <= b -> 10 ^ a < 10 ^ b -> a < b.
Proof. intros Hb H. apply (Z.pow_lt_mono_r_iff 10); lia. Qed.

Lemma tenths_shape (k : Z) :
  1 <= k < 10 * 2 ^ 45 ->
  exists m e, tenths k = S754_finite false m e
    /\ 2 ^ 52 <= Z.pos m < 2 ^ 53 /\ -56 <= e <= -7
    /\ -5 <= 10 * Z.pos m - k * 2 ^ (- e) <= 5.
Proof.
  intros Hk. destruct (tenths_exponent k Hk) as (N & HN & Hlo & Hhi).
  pose proof (round_ratio_value k 10 N ltac:(lia) ltac:(lia) ltac:(lia) Hlo Hhi)
    as [_ HM].
  pose proof (mantissa_near k 10 N ltac:(lia)) as [Hn _].
  unfold tenths. rewrite (round_ratio_normal false k 10 N) by lia.
  set (M := mantissa k 10 N) in *.
  destruct (Z.eqb_spec M (2 ^ 53)) as [E|E].
  - exists (Z.to_pos (2 ^ 52)), (- N + 1). split; [reflexivity|].
    change (Z.pos (Z.to_pos (2 ^ 52))) with (2 ^ 52).
    split; [lia|]. split; [lia|].
    replace (- (- N + 1)) with (N - 1) by lia.
    assert (E2 : 2 ^ N = 2 * 2 ^ (N - 1)).
    { replace N with (Z.succ (N - 1)) at 1 by lia. apply Z.pow_succ_r. lia. }
    rewrite E, E2 in Hn. change (2 ^ 53) with (2 * 2 ^ 52) in Hn. lia.
  - exists (Z.to_pos M), (- N). split; [reflexivity|].
    rewrite Z2Pos.id by lia. rewrite Z.opp_involutive.
    split; [lia|]. split; lia.
Qed.

(** A quotient that is a binary64 number is not rounded. *)
Lemma round_ratio_exact (s : bool) (p q : Z) (m : positive) (e : Z) :
  0 < p -> 0 < q -> 2 ^ 52 <= Z.pos m < 2 ^ 53 -> -1074 <= e < 0 ->
  p * 2 ^ (- e) = Z.pos m * q ->
  Float.round_ratio s p q = S754_finite s m e.
Proof.
  intros Hp Hq Hm He H.
  rewrite (round_ratio_normal s p q (- e)) by nia.
  assert (HM : mantissa p q (- e) = Z.pos m).
  { unfold mantissa. rewrite H, Z.div_mul, Z.mod_mul by lia.
    unfold Float.round_half_even.
    destruct (Z.ltb_spec q (2 * 0)); [lia|].
    destruct (Z.eqb_spec q (2 * 0)); [lia|]. reflexivity. }
  rewrite HM. destruct (Z.eqb_spec (Z.pos m) (2 ^ 53)); [lia|].
  rewrite Z.opp_involutive. reflexivity.
Qed.

Lemma of_decimal_frac (s : bool) (c k : Z) :
  Float.of_decimal s c k = Float.round_ratio s (dnum c k) (dden k).
Proof.
  unfold Float.of_decimal, dnum, dden. destruct (0 <=? k); reflexivity.
Qed.

Lemma dden_pos (k : Z) : 0 < dden k.
Proof.
  unfold dden. destruct (Z.leb_spec 0 k); [lia|apply pow10_pos; lia].
Qed.

Lemma dnum_pos (c k : Z) : 0 < c -> 0 < dnum c k.
Proof.
  intros Hc. unfold dnum. destruct (Z.leb_spec 0 k); [|lia].
  pose proof (pow10_pos k ltac:(lia)). nia.
Qed.

Lemma frac_shift (c k T : Z) :
  0 <= T -> 0 <= k + T -> dnum c k * 10 ^ T = c * 10 ^ (k + T) * dden k.
Proof.
  intros HT Hk. unfold dnum, dden. destruct (Z.leb_spec 0 k).
  - rewrite Z.pow_add_r by lia. lia.
  - replace T with (- k + (k + T)) at 1 by lia.
    rewrite Z.pow_add_r by lia. lia.
Qed.

(** Two decimals of the same value read as the same float. *)
Lemma of_decimal_ext (s : bool) (c1 k1 c2 k2 T : Z) :
  0 < c1 -> 0 < c2 -> 0 <= T -> 0 <= k1 + T -> 0 <= k2 + T ->
  c1 * 10 ^ (k1 + T) = c2 * 10 ^ (k2 + T) ->
  dnum c2 k2 < 2 ^ 52 * dden k2 -> dden k2 <= 2 ^ 1000 * dnum c2 k2 ->
  Float.of_decimal s c1 k1 = Float.of_decimal s c2 k2.
Proof.
  intros H1 H2 HT Hk1 Hk2 H Hhi Hlo. rewrite !of_decimal_frac.
  pose proof (dden_pos k1). pose proof (dden_pos k2).
  pose proof (dnum_pos c1 k1 H1). pose proof (dnum_pos c2 k2 H2).
  apply round_ratio_ext; try assumption.
  pose proof (frac_shift c1 k1 T HT Hk1) as E1.
  pose proof (frac_shift c2 k2 T HT Hk2) as E2.
  pose proof (pow10_pos T HT) as HpT.
  apply (Z.mul_cancel_r _ _ (10 ^ T)); [lia|].
  transitivity (dnum c2 k2 * 10 ^ T * dden k1); [lia|].
  rewrite E2. transitivity (dnum c1 k1 * 10 ^ T * dden k2); [|lia].
  rewrite E1, H. lia.
Qed.

Lemma lt10_mono (n1 n2 d k : Z) :
  n1 <= n2 -> lt10 n2 d k = true -> lt10 n1 d k = true.
Proof.
  intros Hn. unfold lt10. destruct (Z.leb_spec 0 k) as [Hk|Hk]; intros H.
  - apply Z.ltb_lt in H. apply Z.ltb_lt. lia.
  - apply Z.ltb_lt in H. apply Z.ltb_lt.
    pose proof (pow10_pos (- k) ltac:(lia)). nia.
Qed.

Lemma lt10_mono_false (n1 n2 d k : Z) :
  n1 <= n2 -> lt10 n1 d k = false -> lt10 n2 d k = false.
Proof.
  intros Hn H. destruct (lt10 n2 d k) eqn:E; [|reflexivity].
  rewrite (lt10_mono n1 n2 d k Hn E) in H. discriminate H.
Qed.

Lemma find_decpt_spec (n d : Z) (fuel : nat) :
  forall k,
    lt10 n d (k - 1) = false -> lt10 n d (k + Z.of_nat fuel - 1) = true ->
    lt10 n d (Float.find_decpt fuel n d k) = true
    /\ lt10 n d (Float.find_decpt fuel n d k - 1) = false.
Proof.
  induction fuel as [|fuel IH]; intros k Hlo Hhi.
  - replace (k + Z.of_nat 0 - 1) with (k - 1) in Hhi by lia. congruence.
  - cbn [Float.find_decpt]. fold (lt10 n d k).
    destruct (lt10 n d k) eqn:E; [split; assumption|].
    apply IH.
    + replace (k + 1 - 1) with k by lia. exact E.
    + replace (k + 1 + Z.of_nat fuel - 1) with (k + Z.of_nat (S fuel) - 1) by lia.
      exact Hhi.
Qed.

Lemma decpt_start_checked :
  forallb (fun i => decpt_start_ok (- Z.of_nat i)) (seq 1 60) = true.
Proof. vm_compute. reflexivity. Qed.

Section Shortest.

Variables (m : positive) (e : Z).
Hypothesis Hm : 2 ^ 52 <= Z.pos m < 2 ^ 53.
Hypothesis He : -60 <= e <= -5.
(** The number is at least one tenth. *)
Hypothesis Hx : 2 ^ (- e) <= 10 * Z.pos m.

Lemma d_bounds : 32 <= 2 ^ (- e) <= 2 ^ 60.
Proof.
  split.
  - change 32 with (2 ^ 5). apply Z.pow_le_mono_r; lia.
  - apply Z.pow_le_mono_r; lia.
Qed.

Lemma decpt_spec :
  lt10 (Z.pos m) (2 ^ (- e)) (Float.decpt (Z.pos m) (2 ^ (- e))) = true
  /\ lt10 (Z.pos m) (2 ^ (- e)) (Float.decpt (Z.pos m) (2 ^ (- e)) - 1) = false.
Proof.
  set (n := Z.pos m) in *. set (d := 2 ^ (- e)) in *. set (k0 := Float.decpt n d) in *.
  unfold k0, Float.decpt.
  assert (Hn : Z.log2 n = 52).
  { apply Z.log2_unique; [lia|]. unfold n. change (2 ^ (52 + 1)) with (2 ^ 53). lia. }
  assert (Hd : Z.log2 d = - e) by (unfold d; apply Z.log2_pow2; lia).
  rewrite Hn, Hd. cbv zeta.
  replace (52 - - e - 1) with (52 + e - 1) by lia. fold (decpt_start e).
  assert (Hin : In (Z.to_nat (- e)) (seq 1 60)) by (apply in_seq; lia).
  pose proof (proj1 (forallb_forall _ _) decpt_start_checked _ Hin) as Hc.
  cbv beta in Hc. rewrite Z2Nat.id, Z.opp_involutive in Hc by lia.
  unfold decpt_start_ok in Hc. apply andb_prop in Hc as [H1 H2].
  apply negb_true_iff in H1. fold d in H1, H2.
  apply find_decpt_spec.
  - apply (lt10_mono_false (2 ^ 52)); [unfold n; lia|exact H1].
  - change (Z.of_nat 6) with 6.
    replace (decpt_start e + 6 - 1) with (decpt_start e + 5) by lia.
    apply (lt10_mono n (2 ^ 53)); [unfold n; lia|exact H2].
Qed.

Lemma decpt_range : 0 <= Float.decpt (Z.pos m) (2 ^ (- e)) <= 15.
Proof.
  pose proof decpt_spec as Hspec. pose proof d_bounds as Hd.
  set (n := Z.pos m) in *. set (d := 2 ^ (- e)) in *. set (k0 := Float.decpt n d) in *.
  destruct Hspec as [H1 H2].
  split.
  - destruct (Z_lt_le_dec k0 0) as [Hneg|]; [exfalso|assumption].
    unfold lt10 in H1. destruct (Z.leb_spec 0 k0); [lia|].
    apply Z.ltb_lt in H1.
    assert (10 ^ 1 <= 10 ^ (- k0)) by (apply pow10_le; lia).
    change (10 ^ 1) with 10 in *. fold n d in Hx. nia.
  - destruct (Z_lt_le_dec 15 k0) as [Hbig|]; [exfalso|lia].
    unfold lt10 in H2. destruct (Z.leb_spec 0 (k0 - 1)); [|lia].
    apply Z.ltb_ge in H2.
    assert (10 ^ 15 <= 10 ^ (k0 - 1)) by (apply pow10_le; lia).
    assert (n < 2 ^ 53) by (unfold n; lia).
    assert (32 * 10 ^ 15 <= d * 10 ^ (k0 - 1)) by nia.
    change (2 ^ 53) with 9007199254740992 in *.
    change (10 ^ 15) with 1000000000000000 in *. lia.
Qed.

Lemma decpt_bounds :
  Z.pos m < 2 ^ (- e) * 10 ^ (Float.decpt (Z.pos m) (2 ^ (- e)))
  /\ 2 ^ (- e) * 10 ^ (Float.decpt (Z.pos m) (2 ^ (- e))) <= 10 * Z.pos m.
Proof.
  destruct decpt_spec as [H1 H2]. pose proof decpt_range as Hk.
  set (n := Z.pos m) in *. set (d := 2 ^ (- e)) in *. set (k0 := Float.decpt n d) in *.
  unfold lt10 in H1, H2. destruct (Z.leb_spec 0 k0); [|lia].
  apply Z.ltb_lt in H1. split; [exact H1|].
  destruct (Z.leb_spec 0 (k0 - 1)).
  - apply Z.ltb_ge in H2.
    replace k0 with (k0 - 1 + 1) at 1 by lia. rewrite pow10_succ by lia. lia.
  - apply Z.ltb_ge in H2. replace k0 with 0 in * by lia.
    change (- (0 - 1)) with 1 in H2. change (10 ^ 1) with 10 in H2.
    change (10 ^ 0) with 1. lia.
Qed.

Lemma candidate_spec (p c : Z) :
  1 <= p <= 17 ->
  Float.repr_candidate m e (Float.decpt (Z.pos m) (2 ^ (- e))) p = Some c ->
  Float.of_decimal false c (Float.decpt (Z.pos m) (2 ^ (- e)) - p) = S754_finite false m e
  /\ 10 ^ (p - 1) <= c <= 10 ^ p.
Proof.
  intros Hp. pose proof decpt_bounds as [D1 D2]. pose proof decpt_range as Hk.
  pose proof d_bounds as Hd.
  set (n := Z.pos m) in *. set (d := 2 ^ (- e)) in *. set (k0 := Float.decpt n d) in *.
  pose proof (pow10_pos k0 ltac:(lia)) as Hk0.
  pose proof (pow10_pos (p - 1) ltac:(lia)) as Hp1.
  assert (Ep : 10 ^ p = 10 * 10 ^ (p - 1)).
  { replace p with (p - 1 + 1) at 1 by lia. apply pow10_succ. lia. }
  unfold Float.repr_candidate. destruct (Z.leb_spec 0 e); [lia|].
  fold n d k0. set (sc := k0 - p).
  set (n' := if 0 <=? sc then n else n * 10 ^ (- sc)).
  set (d' := if 0 <=? sc then d * 10 ^ sc else d).
  assert (Hd' : 0 < d').
  { unfold d'. destruct (Z.leb_spec 0 sc); [|lia].
    pose proof (pow10_pos sc ltac:(lia)). nia. }
  assert (C : n' < d' * 10 ^ p /\ d' * 10 ^ (p - 1) <= n').
  { unfold n', d'. destruct (Z.leb_spec 0 sc).
    - assert (E : 10 ^ k0 = 10 ^ sc * 10 ^ p).
      { rewrite <- Z.pow_add_r by lia. f_equal. unfold sc. lia. }
      pose proof (pow10_pos sc ltac:(lia)). nia.
    - assert (E : 10 ^ p = 10 ^ (- sc) * 10 ^ k0).
      { rewrite <- Z.pow_add_r by lia. f_equal. unfold sc. lia. }
      pose proof (pow10_pos (- sc) ltac:(lia)). nia. }
  destruct C as [C1 C2].
  assert (Hexact : forall c', n' = c' * d' ->
            Float.of_decimal false c' sc = S754_finite false m e).
  { intros c' Hc. rewrite of_decimal_frac.
    assert (0 < c') by nia.
    apply round_ratio_exact; [apply dnum_pos; lia|apply dden_pos|exact Hm|lia|].
    fold d n. revert Hc. unfold n', d', dnum, dden.
    destruct (Z.leb_spec 0 sc); lia. }
  rewrite div_eucl_eq.
  pose proof (Z.div_mod n' d' ltac:(lia)) as Hdiv.
  pose proof (Z.mod_pos_bound n' d' Hd') as Hr.
  assert (Hlo : 10 ^ (p - 1) <= n' / d' < 10 ^ p).
  { split; [apply Z.div_le_lower_bound; lia|apply Z.div_lt_upper_bound; lia]. }
  set (lo := n' / d') in *. set (r := n' mod d') in *.
  destruct (Z.eqb_spec r 0) as [E0|E0].
  { intros [= <-]. split; [|lia]. apply Hexact. lia. }
  set (b := (2 * r <? d') || (2 * r =? d') && Z.even lo).
  set (c1 := if b then lo else lo + 1). set (c2 := if b then lo + 1 else lo).
  assert (Hc1 : c1 = lo \/ c1 = lo + 1) by (unfold c1; destruct b; auto).
  assert (Hc2 : c2 = lo \/ c2 = lo + 1) by (unfold c2; destruct b; auto).
  clearbody c1 c2.
  assert (Hback : forall c0,
            match Float.of_decimal false c0 sc with
            | S754_finite _ m' e' => (m' =? m)%positive && (e' =? e)
            | _ => false
            end = true ->
            Float.of_decimal false c0 sc = S754_finite false m e).
  { intros c0.
    pose proof (of_decimal_negative false c0 sc) as Hs.
    destruct (Float.of_decimal false c0 sc) as [| | |s0 m0 e0]; try discriminate.
    cbn [negative] in Hs. subst s0. intros Hb.
    apply andb_prop in Hb as [Hb1 Hb2].
    apply Pos.eqb_eq in Hb1. apply Z.eqb_eq in Hb2. subst. reflexivity. }
  pose proof (Hback c1) as B1. pose proof (Hback c2) as B2.
  destruct (match Float.of_decimal false c1 sc with
            | S754_finite _ m' e' => (m' =? m)%positive && (e' =? e)
            | _ => false
            end).
  { intros [= <-]. split; [apply B1; reflexivity|lia]. }
  destruct (match Float.of_decimal false c2 sc with
            | S754_finite _ m' e' => (m' =? m)%positive && (e' =? e)
            | _ => false
            end); [|discriminate].
  intros [= <-]. split; [apply B2; reflexivity|lia].
Qed.

(** The one-decimal text of [k / 10] is among the candidates for the
    float nearest to [k / 10]. *)
Lemma candidate_tenth (k : Z) :
  tenths k = S754_finite false m e ->
  -5 <= 10 * Z.pos m - k * 2 ^ (- e) <= 5 ->
  Float.repr_candidate m e (Float.decpt (Z.pos m) (2 ^ (- e))) (Float.decpt (Z.pos m) (2 ^ (- e)) + 1) <> None.
Proof.
  intros Hk Hnear. pose proof d_bounds as Hd.
  set (n := Z.pos m) in *. set (d := 2 ^ (- e)) in *. set (k0 := Float.decpt n d) in *.
  unfold Float.repr_candidate. destruct (Z.leb_spec 0 e); [lia|].
  fold n d k0. replace (k0 - (k0 + 1)) with (-1) by lia.
  change (0 <=? -1) with false. cbv iota. change (10 ^ (- -1)) with 10.
  rewrite div_eucl_eq.
  pose proof (Z.div_mod (n * 10) d ltac:(lia)) as Hdiv.
  pose proof (Z.mod_pos_bound (n * 10) d ltac:(lia)) as Hr.
  set (lo := n * 10 / d) in *. set (r := (n * 10) mod d) in *.
  destruct (Z.eqb_spec r 0); [discriminate|].
  assert (Hback : match Float.of_decimal false k (-1) with
                  | S754_finite _ m' e' => (m' =? m)%positive && (e' =? e)
                  | _ => false
                  end = true).
  { unfold Float.of_decimal. change (0 <=? -1) with false. cbv iota.
    change (10 ^ (- -1)) with 10. fold (tenths k). rewrite Hk.
    rewrite Pos.eqb_refl, Z.eqb_refl. reflexivity. }
  assert (Hc : (lo = k /\ r <= 5) \/ (lo + 1 = k /\ d - 5 <= r)).
  { destruct (Z.lt_trichotomy lo k) as [Hl|[Hl|Hl]].
    - right. assert (lo + 1 = k); [|split; [assumption|nia]].
      destruct (Z_le_gt_dec (lo + 2) k); [nia|lia].
    - left. split; [assumption|nia].
    - nia. }
  destruct Hc as [[E Hr5]|[E Hr5]].
  - destruct (Z.ltb_spec (2 * r) d); [|lia]. cbn [orb].
    rewrite E, Hback. discriminate.
  - destruct (Z.ltb_spec (2 * r) d); [lia|].
    destruct (Z.eqb_spec (2 * r) d); [lia|]. cbn [orb andb].
    rewrite E, Hback. discriminate.
Qed.

End Shortest.

Lemma shortest_spec (m : positive) (e k : Z) (fuel : nat) :
  forall p,
    (exists ps, p <= ps < p + Z.of_nat fuel
                /\ Float.repr_candidate m e k ps <> None) ->
    exists c p', Float.shortest fuel m e k p = (c, p')
                 /\ Float.repr_candidate m e k p' = Some c
                 /\ p <= p' < p + Z.of_nat fuel.
Proof.
  induction fuel as [|fuel IH]; intros p (ps & Hps & Hc); [lia|].
  cbn [Float.shortest].
  destruct (Float.repr_candidate m e k p) as [c|] eqn:E.
  - exists c, p. split; [reflexivity|]. split; [exact E|lia].
  - destruct (IH (p + 1)) as (c & p' & H1 & H2 & H3).
    + exists ps. split; [|exact Hc].
      destruct (Z.eq_dec ps p) as [->|]; [congruence|lia].
    + exists c, p'. split; [exact H1|]. split; [exact H2|lia].
Qed.

Lemma strip_zeros_spec (fuel : nat) :
  forall c, 0 < c ->
    0 < Float.strip_zeros fuel c
    /\ exists z, 0 <= z /\ c = Float.strip_zeros fuel c * 10 ^ z.
Proof.
  induction fuel as [|fuel IH]; intros c Hc; cbn [Float.strip_zeros].
  - split; [exact Hc|]. exists 0. change (10 ^ 0) with 1. lia.
  - destruct (Z.eqb_spec (c mod 10) 0) as [E|E]; cbn [andb].
    + destruct (Z.ltb_spec 0 c); [|lia].
      pose proof (Z.div_mod c 10 ltac:(lia)) as Hd.
      destruct (IH (c / 10) ltac:(lia)) as (Hpos & z & Hz & Hs).
      split; [exact Hpos|]. exists (z + 1). split; [lia|].
      rewrite pow10_succ by lia. lia.
    + split; [exact Hc|]. exists 0. change (10 ^ 0) with 1. lia.
Qed.

Lemma digit_count_unique (c a b : Z) :
  0 <= a -> 0 <= b -> 10 ^ a <= c < 10 ^ (a + 1) -> 10 ^ b <= c < 10 ^ (b + 1) ->
  a = b.
Proof.
  intros Ha Hb Hca Hcb.
  assert (a < b + 1) by (apply pow10_lt_inv; lia).
  assert (b < a + 1) by (apply pow10_lt_inv; lia). lia.
Qed.

Lemma decimal_bounds (c p k : Z) :
  1 <= p -> 0 <= k <= 15 -> 10 ^ (p - 1) <= c <= 10 ^ p ->
  dnum c (k - p) < 2 ^ 52 * dden (k - p)
  /\ dden (k - p) <= 2 ^ 1000 * dnum c (k - p).
Proof.
  intros Hp Hk Hc. unfold dnum, dden.
  pose proof (pow10_pos (p - 1) ltac:(lia)) as Hp1.
  assert (Ep : 10 ^ p = 10 * 10 ^ (p - 1)).
  { replace p with (p - 1 + 1) at 1 by lia. apply pow10_succ. lia. }
  assert (H15 : 10 ^ k <= 10 ^ 15) by (apply pow10_le; lia).
  assert (Hbig : 10 <= 2 ^ 1000) by (apply Z.leb_le; vm_compute; reflexivity).
  assert (H52 : 10 ^ 15 < 2 ^ 52) by (apply Z.ltb_lt; vm_compute; reflexivity).
  pose proof (pow10_pos k ltac:(lia)) as Hk0.
  destruct (Z.leb_spec 0 (k - p)).
  - assert (E : 10 ^ k = 10 ^ p * 10 ^ (k - p)).
    { rewrite <- Z.pow_add_r by lia. f_equal. lia. }
    pose proof (pow10_pos (k - p) ltac:(lia)). split; nia.
  - assert (E : 10 ^ p = 10 ^ k * 10 ^ (- (k - p))).
    { rewrite <- Z.pow_add_r by lia. f_equal. lia. }
    pose proof (pow10_pos (- (k - p)) ltac:(lia)).
    assert (10 ^ (- (k - p)) <= 10 ^ p) by (apply pow10_le; lia).
    split; nia.
Qed.

Lemma same_decimal (P c' c z L F kk k p : Z) :
  0 <= L -> 0 <= z -> 0 <= F -> 0 <= p -> 0 <= k -> 0 <= kk ->
  P * 10 ^ L = c' * 10 ^ (kk + F) -> c = c' * 10 ^ z -> L + z = p + kk - k ->
  P * 10 ^ p = c * 10 ^ (k + F).
Proof.
  intros HL Hz HF Hp Hk Hkk HP Hc Hlen.
  pose proof (pow10_pos L HL) as H0.
  apply (Z.mul_cancel_r _ _ (10 ^ L)); [lia|].
  transitivity (P * 10 ^ L * 10 ^ p); [ring|].
  rewrite HP, Hc, <- !Z.mul_assoc, <- !Z.pow_add_r by lia.
  do 2 f_equal. lia.
Qed.

End Decimals.

(** ** The text of a number of hours *)

Section Text.

Lemma digit_facts (c : ascii) :
  is_digit c = true ->
  plain c = true /\ is_c_space c = false /\ Ascii.eqb c "." = false
  /\ Ascii.eqb c "-" = false /\ Ascii.eqb c "+" = false
  /\ lower c = c /\ Ascii.eqb "i" c = false /\ Ascii.eqb "n" c = false
  /\ 0 <= digit_val c <= 9.
Proof.
  destruct c as [[] [] [] [] [] [] [] []]; intros H; try discriminate H;
    vm_compute; repeat split; congruence.
Qed.

Lemma plain_facts (c : ascii) :
  plain c = true ->
  (is_space c && (127 <=? code c)) = false
  /\ Ascii.eqb c "_" = false /\ Ascii.eqb c "," = false.
Proof.
  destruct c as [[] [] [] [] [] [] [] []]; intros H; try discriminate H;
    vm_compute; repeat split; congruence.
Qed.

Lemma digit_char_val (d : Z) :
  0 <= d <= 9 -> is_digit (digit_char d) = true /\ digit_val (digit_char d) = d.
Proof.
  intros H.
  assert (Hd : d = 0 \/ d = 1 \/ d = 2 \/ d = 3 \/ d = 4 \/ d = 5 \/ d = 6
               \/ d = 7 \/ d = 8 \/ d = 9) by lia.
  repeat (destruct Hd as [->|Hd]; [vm_compute; split; reflexivity|]).
  subst d. vm_compute. split; reflexivity.
Qed.

Lemma fold_dstep (ds : list ascii) :
  forall acc, fold_left dstep ds acc
              = acc * 10 ^ Z.of_nat (length ds) + dvalue ds.
Proof.
  unfold dvalue. induction ds as [|c ds IH]; intros acc; cbn [fold_left length].
  - cbn. lia.
  - rewrite IH, (IH (dstep 0 c)). unfold dstep.
    rewrite Nat2Z.inj_succ, Z.pow_succ_r by lia. lia.
Qed.

Lemma dvalue_app (a b : list ascii) :
  dvalue (a ++ b) = dvalue a * 10 ^ Z.of_nat (length b) + dvalue b.
Proof. unfold dvalue at 1. rewrite fold_left_app. apply fold_dstep. Qed.

Lemma take_digits_run (ds rest : list ascii) :
  forallb is_digit ds = true -> starts_with_no_digit rest ->
  forall acc n,
    take_digits (ds ++ rest) acc n
    = (fold_left dstep ds acc, n + Z.of_nat (length ds), rest).
Proof.
  intros Hds Hrest. induction ds as [|c ds IH]; intros acc n.
  - cbn [app fold_left length]. rewrite Z.add_0_r.
    destruct rest as [|c rest]; [reflexivity|].
    cbn [take_digits]. cbn in Hrest. rewrite Hrest. reflexivity.
  - cbn [forallb] in Hds. apply andb_prop in Hds as [Hc Hds].
    cbn [app take_digits fold_left length]. rewrite Hc, (IH Hds).
    unfold dstep at 2. rewrite Nat2Z.inj_succ. do 2 f_equal. lia.
Qed.

Lemma chars_of_list (l : list ascii) :
  list_ascii_of_string (string_of_list_ascii l) = l.
Proof. apply list_ascii_of_string_of_list_ascii. Qed.

Lemma map_id_on {A : Type} (f : A -> A) (l : list A) :
  (forall x, In x l -> f x = x) -> map f l = l.
Proof.
  induction l as [|x l IH]; intros H; [reflexivity|]. cbn [map].
  rewrite (H x (or_introl eq_refl)), IH; [reflexivity|].
  intros y Hy. apply H. right. exact Hy.
Qed.

Lemma forallb_In {A : Type} (f : A -> bool) (l : list A) (x : A) :
  forallb f l = true -> In x l -> f x = true.
Proof. intros H Hin. rewrite forallb_forall in H. exact (H x Hin). Qed.

Lemma underscores_ok_plain (l : list ascii) :
  forallb plain l = true ->
  forall prev, match prev with Some p => Ascii.eqb p "_" = false | None => True end ->
    Float.underscores_ok prev l = true.
Proof.
  induction l as [|c l IH]; intros Hl prev Hprev.
  - cbn [Float.underscores_ok]. destruct prev as [p|]; [rewrite Hprev|]; reflexivity.
  - cbn [forallb] in Hl. apply andb_prop in Hl as [Hc Hl].
    destruct (plain_facts c Hc) as (_ & Hu & _).
    cbn [Float.underscores_ok]. rewrite Hu.
    rewrite (IH Hl (Some c) Hu), andb_true_r.
    destruct prev as [p|]; [rewrite Hprev|]; reflexivity.
Qed.

Lemma drop_underscores_plain (l : list ascii) :
  forallb plain l = true -> Float.drop_underscores l = l.
Proof.
  intros Hl. unfold Float.drop_underscores.
  induction l as [|c l IH]; [reflexivity|].
  cbn [forallb] in Hl. apply andb_prop in Hl as [Hc Hl].
  destruct (plain_facts c Hc) as (_ & Hu & _).
  cbn [List.filter]. rewrite Hu. cbn [negb]. rewrite (IH Hl). reflexivity.
Qed.

Lemma lstrip_head (sp : ascii -> bool) (c : ascii) (l : list ascii) :
  sp c = false -> lstrip sp (c :: l) = c :: l.
Proof. intros H. cbn [lstrip]. rewrite H. reflexivity. Qed.

Lemma decimal_text_strip (l : list ascii) :
  decimal_text l -> strip_with is_c_space l = l.
Proof.
  intros (_ & (c1 & l1 & E1 & H1) & (l2 & c2 & E2 & H2)).
  unfold strip_with. rewrite E1 at 1. rewrite lstrip_head by apply (digit_facts c1 H1).
  rewrite <- E1. rewrite E2 at 1. rewrite rev_app_distr. cbn [rev app].
  rewrite lstrip_head by apply (digit_facts c2 H2).
  change (c2 :: rev l2) with (rev [c2] ++ rev l2).
  rewrite <- rev_app_distr, rev_involutive. symmetry. exact E2.
Qed.

Lemma is_word_digit (w : string) (c : ascii) (l : list ascii) :
  is_digit c = true ->
  (exists w', w = String "i" w' \/ w = String "n" w') ->
  Float.is_word w (c :: l) = false.
Proof.
  intros Hc (w' & [->| ->]); unfold Float.is_word; cbn [map string_of_list_ascii];
    destruct (digit_facts c Hc) as (_ & _ & _ & _ & _ & -> & Hi & Hn & _);
    cbn [String.eqb]; [rewrite Hi|rewrite Hn]; reflexivity.
Qed.

Lemma of_string_decimal_text (l : list ascii) :
  decimal_text l ->
  Float.of_string (string_of_list_ascii l)
  = match Float.parse_abs false l with
    | Some x => Ok x
    | None => Raise ValueError
    end.
Proof.
  intros Hl. pose proof Hl as (Hp & (c & l' & E & Hc) & _).
  unfold Float.of_string. rewrite chars_of_list.
  rewrite map_id_on.
  2:{ intros x Hx. destruct (plain_facts x (forallb_In _ _ _ Hp Hx)) as (-> & _).
      reflexivity. }
  rewrite (decimal_text_strip l Hl).
  rewrite (underscores_ok_plain l Hp None I).
  rewrite (drop_underscores_plain l Hp).
  rewrite E. cbn [Float.take_sign].
  destruct (digit_facts c Hc) as (_ & _ & _ & -> & -> & _). reflexivity.
Qed.

Lemma parse_hours_decimal_text (l : list ascii) :
  decimal_text l ->
  parse_hours (string_of_list_ascii l)
  = match Float.parse_abs false l with
    | Some hours =>
        match Float.round (Float.mul hours (Float.of_int 60)) with
        | Raise ValueError => Ok 0
        | r => r
        end
    | None => Ok 0
    end.
Proof.
  intros Hl. pose proof Hl as (Hp & (c & l' & E & Hc) & _).
  unfold parse_hours.
  assert (Hne : String.eqb (string_of_list_ascii l) "" = false)
    by (rewrite E; reflexivity).
  rewrite Hne. unfold replace. rewrite chars_of_list.
  unfold replace_char. rewrite map_id_on.
  2:{ intros x Hx. destruct (plain_facts x (forallb_In _ _ _ Hp Hx)) as (_ & _ & ->).
      reflexivity. }
  rewrite (of_string_decimal_text l Hl).
  destruct (Float.parse_abs false l); reflexivity.
Qed.

Lemma digits_plain (l : list ascii) :
  forallb is_digit l = true -> forallb plain l = true.
Proof.
  intros H. apply forallb_forall. intros c Hc.
  apply (digit_facts c (forallb_In _ _ _ H Hc)).
Qed.

Lemma digits_last (l : list ascii) :
  forallb is_digit l = true -> l <> [] ->
  exists l' c, l = l' ++ [c] /\ is_digit c = true.
Proof.
  intros H Hne. destruct (exists_last Hne) as (l' & c & ->).
  exists l', c. split; [reflexivity|].
  rewrite forallb_app in H. apply andb_prop in H as [_ H].
  cbn in H. rewrite andb_true_r in H. exact H.
Qed.

Lemma digits_head (l : list ascii) :
  forallb is_digit l = true -> l <> [] ->
  exists c l', l = c :: l' /\ is_digit c = true.
Proof.
  intros H Hne. destruct l as [|c l']; [contradiction|].
  exists c, l'. split; [reflexivity|].
  cbn [forallb] in H. apply andb_prop in H as [H _]. exact H.
Qed.

Lemma decimal_text_digits (l : list ascii) :
  forallb is_digit l = true -> l <> [] -> decimal_text l.
Proof.
  intros H Hne. split; [apply digits_plain, H|].
  split; [apply digits_head|apply digits_last]; assumption.
Qed.

Lemma decimal_text_point (ip fp : list ascii) :
  forallb is_digit ip = true -> forallb is_digit fp = true ->
  ip <> [] -> fp <> [] -> decimal_text (ip ++ "."%char :: fp).
Proof.
  intros Hi Hf Hin Hfn. split; [|split].
  - rewrite forallb_app. cbn [forallb].
    rewrite (digits_plain ip Hi), (digits_plain fp Hf). reflexivity.
  - destruct (digits_head ip Hi Hin) as (c & l' & -> & Hc).
    exists c, (l' ++ "."%char :: fp). split; [reflexivity|exact Hc].
  - destruct (digits_last fp Hf Hfn) as (l' & c & -> & Hc).
    exists (ip ++ "."%char :: l'), c. split; [|exact Hc].
    rewrite <- app_assoc. reflexivity.
Qed.

Lemma parse_abs_words (c : ascii) (l : list ascii) :
  is_digit c = true ->
  Float.is_word "inf" (c :: l) || Float.is_word "infinity" (c :: l) = false
  /\ Float.is_word "nan" (c :: l) = false.
Proof.
  intros Hc. rewrite !(is_word_digit _ c l Hc); [split; reflexivity|..]; eauto.
Qed.

(** [float] on a run of digits. *)
Lemma parse_abs_digits (ds : list ascii) :
  forallb is_digit ds = true -> ds <> [] ->
  Float.parse_abs false ds = Some (Float.of_decimal false (dvalue ds) 0).
Proof.
  intros Hd Hne. destruct (digits_head ds Hd Hne) as (c & l' & E & Hc).
  unfold Float.parse_abs.
  destruct (parse_abs_words c l' Hc) as [W1 W2]. rewrite <- E in W1, W2.
  rewrite W1, W2.
  rewrite <- (app_nil_r ds) at 1.
  rewrite (take_digits_run ds [] Hd I). fold (dvalue ds).
  destruct (Z.eqb_spec (0 + Z.of_nat (length ds) + 0) 0) as [E0|_].
  - destruct ds; [contradiction|cbn [length] in E0; lia].
  - cbn [Float.parse_exponent]. reflexivity.
Qed.

(** [float] on digits, a point and digits. *)
Lemma parse_abs_point (ip fp : list ascii) :
  forallb is_digit ip = true -> forallb is_digit fp = true -> ip <> [] ->
  Float.parse_abs false (ip ++ "."%char :: fp)
  = Some (Float.of_decimal false (dvalue (ip ++ fp)) (- Z.of_nat (length fp))).
Proof.
  intros Hi Hf Hne. destruct (digits_head ip Hi Hne) as (c & l' & E & Hc).
  unfold Float.parse_abs.
  destruct (parse_abs_words c (l' ++ "."%char :: fp) Hc) as [W1 W2].
  change (c :: l' ++ "."%char :: fp) with ((c :: l') ++ "."%char :: fp) in W1, W2.
  rewrite <- E in W1, W2. rewrite W1, W2.
  rewrite (take_digits_run ip ("."%char :: fp) Hi eq_refl).
  cbn [Ascii.eqb Bool.eqb]. cbv iota.
  rewrite <- (app_nil_r fp) at 1.
  rewrite (take_digits_run fp [] Hf I).
  destruct (Z.eqb_spec (0 + Z.of_nat (length ip) + (0 + Z.of_nat (length fp))) 0)
    as [E0|_].
  - destruct ip; [contradiction|cbn [length] in E0; lia].
  - cbn [Float.parse_exponent]. unfold dvalue. rewrite fold_left_app.
    do 2 f_equal; lia.
Qed.

Lemma digits_go_S (fuel : nat) (n : Z) (acc : list ascii) :
  digits_go (S fuel) n acc
  = if n <? 10 then digit_char (n mod 10) :: acc
    else digits_go fuel (n / 10) (digit_char (n mod 10) :: acc).
Proof. reflexivity. Qed.

Lemma digits_go_spec (fuel : nat) :
  forall n acc, 0 <= n < 2 ^ Z.of_nat (S fuel) ->
    exists ds, digits_go (S fuel) n acc = ds ++ acc
      /\ forallb is_digit ds = true /\ ds <> [] /\ dvalue ds = n
      /\ (0 < n -> 10 ^ (Z.of_nat (length ds) - 1) <= n
                   < 10 ^ Z.of_nat (length ds)).
Proof.
  induction fuel as [|fuel IH]; intros n acc Hn;
    rewrite digits_go_S; destruct (Z.ltb_spec n 10) as [Hlt|Hge].
  1,3: exists [digit_char (n mod 10)]; rewrite Z.mod_small by lia;
    destruct (digit_char_val n ltac:(lia)) as [Hd Hv];
    split; [reflexivity|]; split; [cbn; rewrite Hd; reflexivity|];
    split; [discriminate|]; split; [unfold dvalue, dstep; cbn; lia|];
    intros Hpos; cbn; lia.
  - change (2 ^ Z.of_nat 1) with 2 in Hn. lia.
  - pose proof (Z.div_mod n 10 ltac:(lia)) as Hdiv.
    pose proof (Z.mod_pos_bound n 10 ltac:(lia)) as Hr.
    rewrite Nat2Z.inj_succ, Z.pow_succ_r in Hn by lia.
    destruct (IH (n / 10) (digit_char (n mod 10) :: acc) ltac:(lia))
      as (ds & E & Hd & Hne & Hv & Hlen).
    destruct (digit_char_val (n mod 10) ltac:(lia)) as [Hd0 Hv0].
    exists (ds ++ [digit_char (n mod 10)]).
    split; [rewrite E, <- app_assoc; reflexivity|].
    split; [rewrite forallb_app, Hd; cbn; rewrite Hd0; reflexivity|].
    split; [destruct ds; discriminate|].
    split.
    + rewrite dvalue_app, Hv. unfold dvalue, dstep. cbn. lia.
    + intros _. specialize (Hlen ltac:(lia)).
      rewrite length_app, Nat2Z.inj_add. cbn [length].
      change (Z.of_nat 1) with 1.
      assert (Hl : 1 <= Z.of_nat (length ds)) by (destruct ds; [contradiction|cbn [length]; lia]).
      replace (Z.of_nat (length ds) + 1 - 1) with (Z.of_nat (length ds) - 1 + 1) by lia.
      rewrite !pow10_succ by lia. lia.
Qed.

(** The decimal digits of a positive integer. *)
Lemma digits_spec (n : Z) :
  0 < n ->
  forallb is_digit (digits n) = true /\ digits n <> [] /\ dvalue (digits n) = n
  /\ 10 ^ (Z.of_nat (length (digits n)) - 1) <= n < 10 ^ Z.of_nat (length (digits n)).
Proof.
  intros Hn. unfold digits.
  destruct (digits_go_spec (Z.to_nat (Z.log2 n)) n []) as (ds & E & Hd & Hne & Hv & Hl).
  - pose proof (Z.log2_spec n Hn) as Hlog. pose proof (Z.log2_nonneg n).
    rewrite Nat2Z.inj_succ, Z2Nat.id by lia. lia.
  - rewrite E, app_nil_r. auto.
Qed.

Lemma zeros_spec (j : Z) :
  forallb is_digit (Float.zeros j) = true /\ dvalue (Float.zeros j) = 0
  /\ length (Float.zeros j) = Z.to_nat j.
Proof.
  unfold Float.zeros. induction (Z.to_nat j) as [|i (IH1 & IH2 & IH3)].
  - repeat split.
  - cbn [repeat]. split; [cbn [forallb]; rewrite IH1; reflexivity|].
    split; [|cbn [length]; rewrite IH3; reflexivity].
    change ("0"%char :: repeat "0"%char i) with (["0"%char] ++ repeat "0"%char i).
    rewrite dvalue_app, IH2. reflexivity.
Qed.

(** The positional text of the digits [ds] with the point after [k]
    digits: digits, a point and digits, of the value [dvalue ds * 10^(k - len)]. *)
Lemma format_repr_text (ds : list ascii) (k : Z) :
  forallb is_digit ds = true -> ds <> [] -> 0 <= k <= 16 ->
  exists ip fp,
    Float.format_repr false ds k = ip ++ "."%char :: fp
    /\ forallb is_digit ip = true /\ forallb is_digit fp = true
    /\ ip <> [] /\ fp <> []
    /\ dvalue (ip ++ fp) * 10 ^ Z.of_nat (length ds)
       = dvalue ds * 10 ^ (k + Z.of_nat (length fp)).
Proof.
  intros Hd Hne Hk. unfold Float.format_repr.
  destruct (Z.leb_spec k (-4)) as [?|_]; [lia|].
  destruct (Z.ltb_spec 16 k) as [?|_]; [lia|].
  cbn [orb]. set (len := Z.of_nat (length ds)).
  assert (Hlen : 1 <= len) by (unfold len; destruct ds; [contradiction|cbn [length]; lia]).
  destruct (Z.leb_spec k 0) as [Hk0|Hk0].
  - replace k with 0 by lia. exists ["0"%char], ds.
    split; [reflexivity|]. split; [reflexivity|]. split; [exact Hd|].
    split; [discriminate|]. split; [exact Hne|].
    change (["0"%char] ++ ds) with ("0"%char :: ds).
    unfold dvalue at 1. cbn [fold_left]. reflexivity.
  - destruct (Z.leb_spec len k) as [Hlk|Hlk].
    + destruct (zeros_spec (k - len)) as (Z1 & Z2 & Z3).
      exists (ds ++ Float.zeros (k - len)), ["0"%char].
      split; [rewrite <- app_assoc; reflexivity|].
      split; [rewrite forallb_app, Hd, Z1; reflexivity|].
      split; [reflexivity|].
      split; [destruct ds; [contradiction|discriminate]|].
      split; [discriminate|].
      rewrite !dvalue_app, Z2, Z3. cbn [length]. change (Z.of_nat 1) with 1.
      change (dvalue ["0"%char]) with 0. rewrite Z2Nat.id by lia.
      change (10 ^ 1) with 10. rewrite !Z.add_0_r.
      rewrite pow10_succ by lia.
      assert (E : 10 ^ k = 10 ^ (k - len) * 10 ^ len).
      { rewrite <- Z.pow_add_r by lia. f_equal. lia. }
      rewrite E. fold len. lia.
    + pose proof (firstn_skipn (Z.to_nat k) ds) as Hfs.
      pose proof Hd as Hd'. rewrite <- Hfs, forallb_app in Hd'.
      apply andb_prop in Hd' as [Hd1 Hd2].
      exists (firstn (Z.to_nat k) ds), (skipn (Z.to_nat k) ds).
      split; [reflexivity|]. split; [exact Hd1|]. split; [exact Hd2|].
      assert (Hl1 : length (firstn (Z.to_nat k) ds) = Z.to_nat k)
        by (apply firstn_length_le; unfold len in *; lia).
      assert (Hl2 : length (skipn (Z.to_nat k) ds) = (length ds - Z.to_nat k)%nat)
        by apply length_skipn.
      split; [intros E; rewrite E in Hl1; cbn [length] in Hl1; lia|].
      split; [intros E; rewrite E in Hl2; cbn [length] in Hl2; unfold len in *; lia|].
      rewrite Hfs, Hl2. fold len. f_equal. f_equal. unfold len in *. lia.
Qed.

(** [str] of a float between a tenth and [2^48] that some decimal of at
    most 17 digits reads back to is a plain decimal, and [float] reads it
    back as the same float. *)
Lemma str_reads_back (m : positive) (e : Z) :
  2 ^ 52 <= Z.pos m < 2 ^ 53 -> -60 <= e <= -5 -> 2 ^ (- e) <= 10 * Z.pos m ->
  (exists ps, 1 <= ps < 1 + Z.of_nat 17
     /\ Float.repr_candidate m e (Float.decpt (Z.pos m) (2 ^ (- e))) ps <> None) ->
  exists l, Float.str (S754_finite false m e) = string_of_list_ascii l
    /\ decimal_text l
    /\ Float.parse_abs false l = Some (S754_finite false m e).
Proof.
  intros Hm He Hx Hcand.
  unfold Float.str, Float.shortest_digits.
  destruct (Z.leb_spec 0 e) as [?|_]; [lia|].
  set (k0 := Float.decpt (Z.pos m) (2 ^ (- e))) in *.
  destruct (shortest_spec m e k0 17 1 Hcand) as (c & p & Hs & Hc & Hp).
  rewrite Hs.
  destruct (candidate_spec m e Hm He Hx p c ltac:(lia) Hc) as [Hof Hcb].
  pose proof (decpt_range m e Hm He Hx) as Hk. fold k0 in Hk.
  pose proof (pow10_pos (p - 1) ltac:(lia)) as Hp1.
  destruct (strip_zeros_spec 18 c ltac:(lia)) as (Hc' & z & Hz & Ez).
  set (c' := Float.strip_zeros 18 c) in *.
  destruct (digits_spec c' Hc') as (Hd & Hne & Hv & Hlen).
  set (ds := digits c') in *.
  set (kk := if c =? 10 ^ p then k0 + 1 else k0).
  assert (Hkk : 0 <= kk <= 16) by (unfold kk; destruct (c =? 10 ^ p); lia).
  assert (Hkk0 : k0 <= kk) by (unfold kk; destruct (c =? 10 ^ p); lia).
  destruct (format_repr_text ds kk Hd Hne Hkk)
    as (ip & fp & E & Hi & Hf & Hin & Hfn & HP).
  rewrite Hv in HP.
  exists (ip ++ "."%char :: fp). split; [rewrite E; reflexivity|].
  split; [apply decimal_text_point; assumption|].
  rewrite (parse_abs_point ip fp Hi Hf Hin). f_equal. rewrite <- Hof.
  set (L := Z.of_nat (length ds)) in *. set (F := Z.of_nat (length fp)) in *.
  set (P := dvalue (ip ++ fp)) in *.
  assert (HL : 1 <= L) by (unfold L; destruct ds; [contradiction|cbn [length]; lia]).
  assert (HF : 0 <= F) by (unfold F; lia).
  pose proof (pow10_pos L ltac:(lia)) as HpL.
  pose proof (pow10_pos (kk + F) ltac:(lia)) as HpF.
  pose proof (pow10_pos z Hz) as Hpz.
  assert (HPpos : 0 < P) by nia.
  assert (Hcount : L + z = p + kk - k0).
  { assert (L - 1 + z = p + kk - k0 - 1); [|lia].
    apply (digit_count_unique c); [lia|lia| |].
    - replace (L - 1 + z + 1) with (L + z) by lia.
      rewrite !Z.pow_add_r by lia. nia.
    - assert (Ep : 10 ^ p = 10 * 10 ^ (p - 1)).
      { replace p with (p - 1 + 1) at 1 by lia. apply pow10_succ. lia. }
      unfold kk. destruct (Z.eqb_spec c (10 ^ p)) as [Ec|Ec].
      + replace (p + (k0 + 1) - k0 - 1) with p by lia.
        rewrite pow10_succ by lia. lia.
      + replace (p + k0 - k0 - 1 + 1) with p by lia.
        replace (p + k0 - k0 - 1) with (p - 1) by lia. lia. }
  destruct (decimal_bounds c p k0 ltac:(lia) Hk Hcb) as [Hhi Hlo].
  apply (of_decimal_ext false P (- F) c (k0 - p) (F + p)); try lia;
    try assumption.
  replace (- F + (F + p)) with p by lia.
  replace (k0 - p + (F + p)) with (k0 + F) by lia.
  apply (same_decimal P c' c z L F kk k0 p); lia.
Qed.

(** Whole hours: the text is the integer, which reads back exactly. *)
Lemma whole_hours_round_trip (h : Z) :
  1 <= h < 2 ^ 45 -> parse_hours (str_int h) = Ok (60 * h).
Proof.
  intros Hh. unfold str_int. destruct (Z.ltb_spec h 0); [lia|].
  destruct (digits_spec h ltac:(lia)) as (Hd & Hne & Hv & _).
  rewrite (parse_hours_decimal_text _ (decimal_text_digits _ Hd Hne)).
  rewrite (parse_abs_digits _ Hd Hne), Hv.
  assert (Hk : 1 <= 10 * h < 10 * 2 ^ 45) by lia.
  assert (E : Float.of_decimal false h 0 = tenths (10 * h)).
  { unfold Float.of_decimal, tenths. cbn [Z.leb Z.compare]. cbv iota.
    change (10 ^ 0) with 1.
    destruct (tenths_exponent (10 * h) Hk) as (N & HN & Hlo & Hhi).
    apply (round_ratio_ratio false (10 * h) 10 (h * 1) 1 N); lia. }
  rewrite E, (tenths_to_minutes (10 * h) Hk). f_equal. lia.
Qed.

(** Tenths of hours: the text is the shortest decimal that reads back as
    the float nearest to the hours. *)
Lemma tenths_round_trip (k : Z) :
  2 <= k < 10 * 2 ^ 45 -> parse_hours (Float.str (tenths k)) = Ok (6 * k).
Proof.
  intros Hk.
  destruct (tenths_shape k ltac:(lia)) as (m & e & Ht & Hm & He & Hnear).
  assert (Hd : 2 ^ 7 <= 2 ^ (- e)) by (apply Z.pow_le_mono_r; lia).
  change (2 ^ 7) with 128 in Hd.
  assert (Hx : 2 ^ (- e) <= 10 * Z.pos m) by nia.
  pose proof (decpt_range m e Hm ltac:(lia) Hx) as Hk0.
  destruct (str_reads_back m e Hm ltac:(lia) Hx) as (l & Hl & Htext & Hparse).
  - exists (Float.decpt (Z.pos m) (2 ^ (- e)) + 1). split; [lia|].
    apply (candidate_tenth m e Hm ltac:(lia) Hx k Ht Hnear).
  - rewrite Ht, Hl, (parse_hours_decimal_text l Htext), Hparse, <- Ht.
    rewrite (tenths_to_minutes k ltac:(lia)). reflexivity.
Qed.

(** The round trip for every multiple of 6 minutes below [2^45] hours. *)
Lemma round_trip_multiples_of_six (k : Z) :
  0 <= k < 10 * 2 ^ 45 ->
  exists text, format_minutes (6 * k) = Ok text /\ parse_hours text = Ok (6 * k).
Proof.
  intros Hk.
  destruct (Z.eq_dec k 0) as [->|H0];
    [exists ""%string; split; reflexivity|].
  destruct (Z.eq_dec k 1) as [->|H1];
    [exists "0.1"%string; split; vm_compute; reflexivity|].
  rewrite (format_minutes_tenths k ltac:(lia)).
  pose proof (Z.div_mod k 10 ltac:(lia)) as Hdiv.
  pose proof (Z.mod_pos_bound k 10 ltac:(lia)) as Hr.
  destruct (Z.eqb_spec (k mod 10) 0) as [E|E].
  - exists (str_int (k / 10)). split; [reflexivity|].
    rewrite whole_hours_round_trip by lia. f_equal. lia.
  - exists (Float.str (tenths k)). split; [reflexivity|].
    apply tenths_round_trip. lia.
Qed.

End Text.

(** ** The round trip of the duration codec *)

Section RoundTrip.

(** C7 (amended).  For every non-negative integer [m] that is an exact
    multiple of 6 and less than [60 * 2^45] (that is, less than [2^45]
    hours), [textToMinutes(minutesToText(m))] equals [m]; for [m = 95] the
    round trip is lossy: [minutesToText(95)] is 1.6 and [textToMinutes] of
    that is 96. *)
Theorem format_parse_round_trip :
  (forall m, 0 <= m < 60 * 2 ^ 45 -> m mod 6 = 0 ->
     exists text, format_minutes m = Ok text /\ parse_hours text = Ok m)
  /\ format_minutes 95 = Ok "1.6"%string
  /\ parse_hours "1.6" = Ok 96.
Proof.
  split; [|split; vm_compute; reflexivity].
  intros m Hm H6.
  pose proof (Z.div_mod m 6 ltac:(lia)) as Hdiv.
  replace m with (6 * (m / 6)) by lia.
  apply round_trip_multiples_of_six.
  split; [apply Z.div_pos; lia|].
  apply Z.div_lt_upper_bound; lia.
Qed.

Lemma format_parse_round_trip_witness :
  exists text, format_minutes 90 = Ok text /\ parse_hours text = Ok 90.
Proof.
  apply (proj1 format_parse_round_trip 90);
    [split; [apply Z.leb_le|apply Z.ltb_lt]; vm_compute; reflexivity
    |vm_compute; reflexivity].
Defined.

(** C7 as stated fails: beyond 2^53 hours the quotient is no longer
    exact.  [60 * (2^53 + 1)] minutes are shown as 9007199254740992 hours,
    which read back as 60 minutes less. *)
Lemma round_trip_fails_for_large_minutes :
  let m := 60 * (2 ^ 53 + 1) in
  m mod 6 = 0
  /\ format_minutes m = Ok "9007199254740992"%string
  /\ parse_hours "9007199254740992" = Ok (m - 60).
Proof. cbv zeta. repeat split; vm_compute; reflexivity. Qed.

End RoundTrip.

(** ** The fields of a week *)

Section WeekLocks.

Lemma get_week_dates_ok (today offset : Z) (week : list Z) :
  MINORDINAL <= today <= MAXORDINAL ->
  get_week_dates today offset = Ok week ->
  week = week_from (monday_of today + 7 * offset)
  /\ MINORDINAL <= monday_of today + 7 * offset
  /\ monday_of today + 7 * offset + 6 <= MAXORDINAL.
Proof.
  intros Ht H.
  destruct (Z_lt_le_dec (monday_of today + 7 * offset) MINORDINAL) as [Hlo|Hlo].
  { rewrite get_week_dates_out_of_range in H by auto. discriminate H. }
  destruct (Z_lt_le_dec MAXORDINAL (monday_of today + 7 * offset + 6)) as [Hhi|Hhi].
  { rewrite get_week_dates_out_of_range in H by auto. discriminate H. }
  rewrite get_week_dates_in_range in H by assumption.
  injection H as <-. auto.
Qed.

Lemma rmap_map {A B C : Type} (f : A -> result B) (g : B -> C) (h : A -> C)
    (xs : list A) :
  (forall x y, In x xs -> f x = Ok y -> g y = h x) ->
  forall ys, rmap f xs = Ok ys -> map g ys = map h xs.
Proof.
  induction xs as [|x xs IH]; intros Hf ys; cbn [rmap].
  - intros [= <-]. reflexivity.
  - destruct (f x) as [y|e] eqn:Hx; cbn [rbind]; [|discriminate].
    destruct (rmap f xs) as [ys0|e] eqn:Hxs; cbn [rbind]; [|discriminate].
    intros [= <-]. cbn [map]. f_equal.
    + apply (Hf x y); [left; reflexivity|exact Hx].
    + apply IH; [|reflexivity]. intros x0 y0 Hin. apply Hf. right. exact Hin.
Qed.

Lemma index_week_from (s i : Z) :
  In i (range 7) -> index (week_from s) (Z.to_nat i) = Ok (s + i).
Proof.
  rewrite week_from_explicit. unfold range. cbn [seq map In].
  intros [<-|[<-|[<-|[<-|[<-|[<-|[<-|[]]]]]]]];
    rewrite Nat2Z.id; unfold index; cbn [nth_error]; f_equal; lia.
Qed.

Lemma day_input_disabled (today : Z) (prefilled : gmap Z Z) (s i : Z)
    (inp : Input) :
  In i (range 7) ->
  day_input today prefilled (week_from s) i = Ok inp ->
  disabled inp = is_future_date today (s + i).
Proof.
  intros Hi. unfold day_input. rewrite (index_week_from s i Hi). cbn [rbind].
  destruct (match prefilled !! (s + i) with Some _ => _ | None => _ end);
    cbn [rbind]; [|discriminate].
  intros [= <-]. reflexivity.
Qed.

(** X1.  The fields that [reset_ui] builds: seven of them; the field of day
    [i] is locked exactly when that day is after today, so that a week to
    come is locked as a whole and a past week is open as a whole. *)
Theorem reset_ui_locks_by_week (today : Z) (a a' : ClockifyTUI) :
  MINORDINAL <= today <= MAXORDINAL ->
  selected a <> None ->
  reset_ui today a = Ok a' ->
  map disabled (inputs a')
  = map (fun i => weekday today <? 7 * week_offset a + i) (range 7)
  /\ (1 <= week_offset a -> map disabled (inputs a') = repeat true 7)
  /\ (week_offset a <= -1 -> map disabled (inputs a') = repeat false 7).
Proof.
  intros Ht Hsel Hr. unfold reset_ui in Hr.
  destruct (selected a) as [p|]; [|contradiction].
  destruct (get_week_dates today (week_offset a)) as [week|e] eqn:Hw;
    cbn [rbind] in Hr; [|discriminate].
  destruct (get_week_dates_ok _ _ _ Ht Hw) as (-> & _ & _).
  destruct (rmap _ (range 7)) as [inps|e] eqn:Hm; cbn [rbind] in Hr; [|discriminate].
  injection Hr as <-. cbn [inputs].
  assert (Hmap : map disabled inps
                 = map (fun i => weekday today <? 7 * week_offset a + i) (range 7)).
  { apply (rmap_map _ _ _ _) with (ys := inps) (2 := Hm).
    intros i y Hi Hy. rewrite (day_input_disabled _ _ _ _ _ Hi Hy).
    unfold is_future_date, monday_of.
    destruct (Z.ltb_spec today (today - weekday today + 7 * week_offset a + i)),
      (Z.ltb_spec (weekday today) (7 * week_offset a + i)); try reflexivity; lia. }
  pose proof (weekday_range today) as Hwd.
  split; [exact Hmap|]. rewrite Hmap. unfold range. cbn [seq map repeat].
  split; intros Ho.
  - repeat (apply (f_equal2 cons); [apply Z.ltb_lt; lia|]). reflexivity.
  - repeat (apply (f_equal2 cons); [apply Z.ltb_ge; lia|]). reflexivity.
Qed.

End WeekLocks.

(** ** Durations as text *)

Section DurationText.

Lemma digits_nonneg_spec (n : Z) :
  0 <= n ->
  forallb is_digit (digits n) = true /\ digits n <> [] /\ dvalue (digits n) = n.
Proof.
  intros Hn. destruct (Z.eq_dec n 0) as [->|H0].
  - repeat split. discriminate.
  - destruct (digits_spec n ltac:(lia)) as (H1 & H2 & H3 & _). auto.
Qed.

Lemma length_digits_pos (n : Z) :
  0 <= n -> (0 <? 0 + Z.of_nat (length (digits n))) = true.
Proof.
  intros Hn. destruct (digits_nonneg_spec n Hn) as (_ & Hne & _).
  apply Z.ltb_lt. destruct (digits n); [contradiction|cbn [length]; lia].
Qed.

(** The group [(\d+)u] of the pattern on the digits of [n] followed by
    the letter [u]. *)
Lemma take_digits_unit (n : Z) (u : ascii) (rest : list ascii) :
  0 <= n -> is_digit u = false ->
  take_digits (digits n ++ u :: rest) 0 0
  = (n, 0 + Z.of_nat (length (digits n)), u :: rest).
Proof.
  intros Hn Hu. destruct (digits_nonneg_spec n Hn) as (Hd & _ & Hv).
  rewrite (take_digits_run (digits n) (u :: rest) Hd Hu). fold (dvalue (digits n)).
  rewrite Hv. reflexivity.
Qed.

(** X2.  [parse_duration] on the durations the service reports: the hours and
    the minutes are read, whatever follows the minutes is dropped, and so
    are seconds on their own or after the hours. *)
Theorem parse_duration_reads_hours_and_minutes (h m s : Z) (rest : list ascii) :
  0 <= h -> 0 <= m -> 0 <= s ->
  let text (l : list ascii) := Some (string_of_list_ascii ("P" :: "T" :: l))%char in
  parse_duration (text (digits h ++ "H" :: digits m ++ "M" :: rest))%char = 60 * h + m
  /\ parse_duration (text (digits h ++ ["H"]))%char = 60 * h
  /\ parse_duration (text (digits m ++ "M" :: rest))%char = m
  /\ parse_duration (text (digits h ++ "H" :: digits s ++ "S" :: rest))%char = 60 * h
  /\ parse_duration (text (digits s ++ "S" :: rest))%char = 0.
Proof.
  intros Hh Hm Hs text. unfold text, parse_duration.
  rewrite !chars_of_list. cbn [Ascii.eqb Bool.eqb andb].
  rewrite !take_digits_unit by (assumption || reflexivity).
  rewrite !length_digits_pos by assumption.
  cbn [Ascii.eqb Bool.eqb andb].
  rewrite !take_digits_unit by (assumption || reflexivity).
  rewrite !length_digits_pos by assumption.
  cbn [Ascii.eqb Bool.eqb andb take_digits].
  repeat split; lia.
Qed.

Lemma append_chars (a b : string) :
  list_ascii_of_string (String.append a b)
  = list_ascii_of_string a ++ list_ascii_of_string b.
Proof.
  induction a as [|c a IH]; [reflexivity|].
  change (String.append (String c a) b) with (String c (String.append a b)).
  cbn [list_ascii_of_string app]. f_equal. exact IH.
Qed.

(** The minutes of a duration as the ledger reports it. *)
Lemma parse_duration_iso (s : Z) :
  0 <= s -> parse_duration (Some (iso_duration s)) = s / 60.
Proof.
  intros Hs. unfold iso_duration.
  destruct (Z.leb_spec s 0) as [H0|H0].
  { replace s with 0 by lia. reflexivity. }
  pose proof (Z.div_mod s 3600 ltac:(lia)) as Hd1.
  pose proof (Z.mod_pos_bound s 3600 ltac:(lia)) as Hr1.
  pose proof (Z.div_mod (s mod 3600) 60 ltac:(lia)) as Hd2.
  pose proof (Z.mod_pos_bound (s mod 3600) 60 ltac:(lia)) as Hr2.
  assert (Hh : 0 <= s / 3600) by (apply Z.div_pos; lia).
  assert (Hm : 0 <= s mod 3600 / 60) by (apply Z.div_pos; lia).
  pose proof (Z.mod_pos_bound s 60 ltac:(lia)) as Hr3.
  assert (Hq : s / 60 = 60 * (s / 3600) + s mod 3600 / 60).
  { symmetry. apply (Z.div_unique s 60 _ ((s mod 3600) mod 60)); [|lia].
    left. apply Z.mod_pos_bound. lia. }
  rewrite Hq. set (h := s / 3600) in *. set (m := s mod 3600 / 60) in *.
  set (sec := s mod 60) in *.
  unfold parse_duration. rewrite !append_chars.
  change (list_ascii_of_string "PT") with ["P"; "T"]%char.
  cbn [app Ascii.eqb Bool.eqb andb].
  destruct (Z.ltb_spec 0 h) as [Hh0|Hh0], (Z.ltb_spec 0 m) as [Hm0|Hm0],
    (Z.ltb_spec 0 sec) as [Hs0|Hs0];
    rewrite ?append_chars, ?chars_of_list;
    change (list_ascii_of_string "H") with ["H"]%char;
    change (list_ascii_of_string "M") with ["M"]%char;
    change (list_ascii_of_string "S") with ["S"]%char;
    change (list_ascii_of_string "") with (@nil ascii);
    rewrite <- ?app_assoc; cbn [app];
    rewrite ?take_digits_unit by (lia || reflexivity);
    rewrite ?length_digits_pos by lia;
    cbn [Ascii.eqb Bool.eqb andb take_digits];
    rewrite ?take_digits_unit by (lia || reflexivity);
    rewrite ?length_digits_pos by lia;
    cbn [Ascii.eqb Bool.eqb andb take_digits]; lia.
Qed.

End DurationText.

(** ** The operations on a day *)

Section DayOperations.

Lemma spared_targets (project_id : string) (d : Z) (l : ledger) (e : time_entry) :
  wf l -> In e (entries l) ->
  spared (targets project_id d l) e = negb (on_day project_id d e).
Proof.
  intros [Hnd _] Hin. destruct (on_day project_id d e) eqn:Hon; cbn [negb].
  - apply spared_self. unfold targets. apply filter_In. auto.
  - unfold spared. apply negb_true_iff.
    destruct (existsb _ _) eqn:Hex; [|reflexivity].
    apply existsb_exists in Hex as (t & Ht & Hid). apply Z.eqb_eq in Hid.
    unfold targets in Ht. apply filter_In in Ht as [Ht Hont].
    rewrite (same_id_same_entry _ _ _ Hnd Hin Ht Hid) in Hont. congruence.
Qed.

Lemma delete_time_entry_entries (project_id : string) (d : Z) (l l' : ledger) :
  wf l ->
  delete_time_entry project_id d l = (l', Ok tt) ->
  entries l' = List.filter (fun e => negb (on_day project_id d e)) (entries l).
Proof.
  intros Hwf H. apply delete_time_entry_inv in H as (n & He & _ & Hok).
  destruct (Hok eq_refl) as [Hall _]. rewrite Hall in He.
  rewrite He. apply filter_ext_in.
  intros e Hin. apply spared_targets; assumption.
Qed.

(** X3.  [delete_time_entry] that succeeds removes the entries of the
    project that start on the date, all of them and nothing else; its
    requests are the query of the day and one deletion for each of them. *)
Theorem delete_time_entry_removes_day (project_id : string) (date : Z)
    (l l' : ledger) :
  wf l ->
  delete_time_entry project_id date l = (l', Ok tt) ->
  entries l' = List.filter (fun e => negb (on_day project_id date e)) (entries l)
  /\ log l' = log l
              ++ (ListEntries (midnight date) (midnight date + 86399), true)
                 :: deletions (targets project_id date l).
Proof.
  intros Hwf H. split; [exact (delete_time_entry_entries _ _ _ _ Hwf H)|].
  apply delete_time_entry_inv in H as (n & _ & _ & Hok).
  exact (proj2 (Hok eq_refl)).
Qed.

Lemma targets_after_delete (project_id : string) (d : Z) (l l' : ledger) :
  entries l' = List.filter (fun e => negb (on_day project_id d e)) (entries l) ->
  targets project_id d l' = [].
Proof.
  intros He. unfold targets. rewrite He, filter_filter. clear He.
  induction (entries l) as [|x xs IH]; [reflexivity|]. cbn [List.filter].
  destruct (on_day project_id d x); exact IH.
Qed.

(** X4.  A second [delete_time_entry] for the same project and date finds
    nothing to delete: it sends the query only and leaves the entries as
    they are. *)
Theorem delete_time_entry_twice (project_id : string) (date : Z)
    (l l1 l2 : ledger) :
  wf l ->
  delete_time_entry project_id date l = (l1, Ok tt) ->
  delete_time_entry project_id date l1 = (l2, Ok tt) ->
  entries l2 = entries l1
  /\ log l2 = log l1 ++ [(ListEntries (midnight date) (midnight date + 86399), true)].
Proof.
  intros Hwf H1 H2.
  destruct (delete_time_entry_frame _ _ _ _ _ Hwf H1) as [Hwf1 _].
  pose proof (delete_time_entry_entries _ _ _ _ Hwf H1) as He1.
  apply delete_time_entry_inv in H2 as (n & He2 & _ & Hok).
  destruct (Hok eq_refl) as [_ Hl].
  rewrite (targets_after_delete _ _ _ _ He1) in He2, Hl.
  destruct n; cbn [firstn] in He2.
  all: split; [rewrite He2; apply filter_all; reflexivity|exact Hl].
Qed.

Lemma for_each_delete_raises (ts : list time_entry) :
  forall l l' e,
    for_each (fun t => delete_entry (entry_id t)) ts l = (l', Raise e) ->
    e = RequestException.
Proof.
  induction ts as [|t ts IH]; intros l l' e; cbn [for_each].
  - discriminate.
  - intros H. apply bind_inv in H as [(l1 & [] & _ & Hk)|(e' & Hs & [= ->])].
    + exact (IH _ _ _ Hk).
    + apply send_inv in Hs as [(Hr & _)|(Hr & _)]; congruence.
Qed.

Lemma delete_time_entry_raises (project_id : string) (d : Z) (l l' : ledger)
    (e : exn) :
  delete_time_entry project_id d l = (l', Raise e) -> e = RequestException.
Proof.
  unfold delete_time_entry, get_entries. intros H.
  apply bind_inv in H as [(l1 & es & Hg & Hk)|(e' & Hg & [= ->])].
  - rewrite for_each_filter in Hk. exact (for_each_delete_raises _ _ _ _ Hk).
  - apply bind_inv in Hg as [(l0 & [] & _ & [=])|(e2 & Hs & [= ->])].
    apply send_inv in Hs as [(Hr & _)|(Hr & _)]; congruence.
Qed.

Lemma filter_spared_firstn (ts : list time_entry) :
  List.NoDup (map entry_id ts) ->
  forall n, List.filter (spared (firstn n ts)) ts = skipn n ts.
Proof.
  induction ts as [|t ts IH]; intros Hnd n.
  - destruct n; reflexivity.
  - apply List.NoDup_cons_iff in Hnd as [Ht Hnd].
    destruct n as [|n]; cbn [firstn skipn].
    + apply filter_all. reflexivity.
    + cbn [List.filter]. rewrite spared_self by (left; reflexivity).
      rewrite <- (IH Hnd n). apply filter_ext_in. intros x Hx.
      unfold spared. cbn [existsb].
      destruct (Z.eqb_spec (entry_id t) (entry_id x)) as [E|_]; [|reflexivity].
      destruct Ht. rewrite E. apply in_map. exact Hx.
Qed.

(** X5.  A [delete_time_entry] that fails does so with the exception of a
    request; the entries of the day deleted before the failure stay
    deleted, the later ones stay in place, in their order, and every
    other entry is untouched. *)
Theorem delete_time_entry_partial (project_id : string) (date : Z)
    (l l' : ledger) (e : exn) :
  wf l ->
  delete_time_entry project_id date l = (l', Raise e) ->
  e = RequestException
  /\ exists n,
       List.filter (on_day project_id date) (entries l')
       = skipn n (targets project_id date l)
       /\ List.filter (fun x => negb (on_day project_id date x)) (entries l')
          = List.filter (fun x => negb (on_day project_id date x)) (entries l).
Proof.
  intros Hwf H. split; [exact (delete_time_entry_raises _ _ _ _ _ H)|].
  apply delete_time_entry_inv in H as (n & He & _ & _).
  exists n. rewrite He, !filter_filter. split.
  - rewrite <- (filter_spared_firstn (targets project_id date l)).
    + unfold targets at 3. rewrite filter_filter. apply filter_ext.
      intros x. apply andb_comm.
    + apply NoDup_map_filter, Hwf.
  - apply filter_ext_in. intros x Hx.
    destruct (on_day project_id date x) eqn:Hon; cbn [negb];
      [apply andb_false_r|]. rewrite andb_true_r.
    unfold spared. apply negb_true_iff.
    destruct (existsb _ _) eqn:Hex; [|reflexivity].
    apply existsb_exists in Hex as (t & Ht & Hid). apply Z.eqb_eq in Hid.
    assert (Ht' : In t (targets project_id date l)).
    { rewrite <- (firstn_skipn n). apply in_or_app. left. exact Ht. }
    unfold targets in Ht'. apply filter_In in Ht' as [Ht' Hont].
    rewrite (same_id_same_entry _ _ _ (proj1 Hwf) Hx Ht' Hid) in Hont. congruence.
Qed.

Lemma book_time_start (d : Z) :
  0 < d <= MAXORDINAL -> datetime_add (midnight d) 32400 = Ok (midnight d + 32400).
Proof.
  intros Hd. unfold datetime_add. rewrite dt_date_nine.
  destruct (Z.ltb_spec 0 d); [|lia]. destruct (Z.leb_spec d MAXORDINAL); [|lia].
  reflexivity.
Qed.

(** X6.  [book_time] deletes before it computes the end of the new entry.
    When that end lies after the last day of [datetime], the entries of
    the day are gone, nothing is created, and the call raises
    [OverflowError]. *)
Theorem book_time_overflow_after_delete (project_id : string)
    (date minutes : Z) (l l1 : ledger) :
  wf l -> 0 < date <= MAXORDINAL -> 0 < minutes ->
  MAXORDINAL < dt_date (midnight date + 32400 + 60 * minutes) ->
  delete_time_entry project_id date l = (l1, Ok tt) ->
  book_time project_id date minutes l = (l1, Raise OverflowError)
  /\ List.filter (on_day project_id date) (entries l1) = [].
Proof.
  intros Hwf Hd Hm Hend Hdel. split.
  - unfold book_time. destruct (Z.leb_spec minutes 0); [lia|].
    unfold Ledger.bind at 1. rewrite Hdel.
    unfold Ledger.bind at 1, lift.
    change (timedelta_hours 9) with (Ok (A := Z) 32400).
    unfold Ledger.bind at 1. rewrite (book_time_start date Hd).
    unfold Ledger.bind at 1, timedelta_minutes, timedelta.
    destruct (_ && _); [|reflexivity].
    unfold Ledger.bind at 1, datetime_add.
    destruct (Z.leb_spec (dt_date (midnight date + 32400 + 60 * minutes)) MAXORDINAL);
      [lia|]. rewrite andb_false_r. reflexivity.
  - exact (targets_after_delete _ _ _ _ (delete_time_entry_entries _ _ _ _ Hwf Hdel)).
Qed.

Lemma book_time_day (project_id : string) (d minutes : Z) (l l' : ledger)
    (resp : option time_entry) :
  0 < minutes ->
  book_time project_id d minutes l = (l', Ok resp) ->
  exists created,
    List.filter (on_day project_id d) (entries l') = [created]
    /\ entry_duration created = Some (iso_duration (60 * minutes)).
Proof.
  intros Hm H.
  apply book_time_inv in H
    as (l1 & r1 & Hd & [(e & [=] & _)|(-> & Hr & He & Hn & Hl)]); [|exact Hm].
  apply delete_time_entry_inv in Hd as (n & He1 & Hn1 & Hok).
  destruct (Hok eq_refl) as [Hall _]. rewrite Hall in He1.
  exists (booked project_id d minutes l1). split; [|reflexivity].
  rewrite He, List.filter_app, He1, no_target_left. cbn [List.filter app].
  rewrite on_day_booked. reflexivity.
Qed.

Lemma day_total_booked (project_id : string) (d minutes : Z) (l l' : ledger)
    (resp : option time_entry) :
  0 < minutes ->
  book_time project_id d minutes l = (l', Ok resp) ->
  day_total project_id d (entries l') = minutes.
Proof.
  intros Hm H. destruct (book_time_day _ _ _ _ _ _ Hm H) as (c & Hf & Hdur).
  unfold day_total. rewrite Hf. cbn [sum_minutes fold_right].
  rewrite Hdur, parse_duration_iso by lia.
  replace (60 * minutes) with (minutes * 60) by lia.
  rewrite Z.div_mul by lia. lia.
Qed.

(** X7.  What is booked is what is read back.  After a [book_time] of
    [minutes > 0] that succeeds, the aggregation of the ledger's entries
    gives exactly [minutes] for the project on that date. *)
Theorem book_time_then_baseline (project_id : string) (date minutes : Z)
    (l l' : ledger) (resp : option time_entry) :
  0 < minutes ->
  book_time project_id date minutes l = (l', Ok resp) ->
  group_by_day project_id (entries l') !! date = Some minutes.
Proof.
  intros Hm H. rewrite group_by_day_lookup.
  rewrite (day_total_booked _ _ _ _ _ _ Hm H).
  destruct (book_time_day _ _ _ _ _ _ Hm H) as (c & -> & _). reflexivity.
Qed.

End DayOperations.

(** ** The Baseline of a week and the effect of a submit *)

Section Baseline.

Lemma in_range_dates (first last : Z) (e : time_entry) :
  in_range (midnight first) (midnight last + 86399) e
  = (first <=? dt_date (entry_start e)) && (dt_date (entry_start e) <=? last).
Proof.
  unfold in_range, midnight, dt_date.
  pose proof (Z.div_mod (entry_start e) 86400 ltac:(lia)) as Hdm.
  pose proof (Z.mod_pos_bound (entry_start e) 86400 ltac:(lia)) as Hb.
  destruct (Z.leb_spec (86400 * first) (entry_start e)),
    (Z.leb_spec first (entry_start e / 86400)); try lia;
    destruct (Z.leb_spec (entry_start e) (86400 * last + 86399)),
      (Z.leb_spec (entry_start e / 86400) last); try lia; reflexivity.
Qed.

Lemma filter_on_day_in_range (project_id : string) (first last d : Z)
    (es : list time_entry) :
  List.filter (on_day project_id d)
    (List.filter (in_range (midnight first) (midnight last + 86399)) es)
  = if (first <=? d) && (d <=? last) then List.filter (on_day project_id d) es
    else [].
Proof.
  rewrite filter_filter.
  destruct ((first <=? d) && (d <=? last)) eqn:Hd.
  - apply filter_ext. intros e. rewrite in_range_dates. unfold on_day.
    destruct (has_project project_id e); cbn [andb]; [|apply andb_false_r].
    destruct (Z.eqb_spec (dt_date (entry_start e)) d) as [->|_];
      [rewrite Hd; reflexivity|apply andb_false_r].
  - induction es as [|e es IH]; [reflexivity|]. cbn [List.filter].
    rewrite in_range_dates. unfold on_day.
    destruct (Z.eqb_spec (dt_date (entry_start e)) d) as [->|_];
      [rewrite Hd; exact IH|].
    rewrite andb_false_r, andb_false_r. exact IH.
Qed.

Lemma get_time_entries_inv (project_id : string) (week : list Z) (first : Z)
    (l l' : ledger) (m : gmap Z Z) :
  hd_error week = Some first ->
  get_time_entries project_id week l = (l', Ok m) ->
  entries l' = entries l /\ next_id l' = next_id l
  /\ log l' = log l ++ [(ListEntries (midnight first)
                           (midnight (List.last week first) + 86399), true)]
  /\ m = group_by_day project_id
           (List.filter (in_range (midnight first)
                           (midnight (List.last week first) + 86399)) (entries l)).
Proof.
  intros Hw. unfold get_time_entries. destruct week as [|d week]; [discriminate|].
  injection Hw as ->. unfold Ledger.bind at 1, lift. intros H.
  apply bind_inv in H as [(l1 & es & Hg & [= <- <-])|(e & _ & [=])].
  unfold get_entries in Hg.
  apply bind_inv in Hg as [(l0 & [] & Hs & [= <- <-])|(e & _ & [=])].
  apply send_inv in Hs as [(Hr & _)|(_ & He & Hn & Hl)]; [discriminate|].
  cbn [effect fst snd] in He, Hn. rewrite He. auto.
Qed.

(** X8.  The Baseline that [get_time_entries] returns for a week holds, for
    each date from the first to the last date of the week, the total of
    the project's entries that start on it, and holds no other date; the
    call sends the one range query and changes no entry. *)
Theorem get_time_entries_totals (project_id : string) (week : list Z)
    (first : Z) (l l' : ledger) (m : gmap Z Z) :
  hd_error week = Some first ->
  get_time_entries project_id week l = (l', Ok m) ->
  let last := List.last week first in
  entries l' = entries l
  /\ log l' = log l ++ [(ListEntries (midnight first) (midnight last + 86399), true)]
  /\ forall d,
       m !! d = if (first <=? d) && (d <=? last)
                then group_by_day project_id (entries l) !! d
                else None.
Proof.
  intros Hw H last.
  destruct (get_time_entries_inv _ _ _ _ _ _ Hw H) as (He & _ & Hl & ->).
  split; [exact He|]. split; [exact Hl|].
  intros d. rewrite !group_by_day_lookup. unfold day_total.
  rewrite filter_on_day_in_range. fold last.
  destruct ((first <=? d) && (d <=? last)); reflexivity.
Qed.

End Baseline.

Section Convergence.

Lemma day_total_nonneg (project_id : string) (d : Z) (es : list time_entry) :
  0 <= day_total project_id d es.
Proof. apply sum_minutes_nonneg. Qed.

Lemma on_day_other (p p' : string) (d d' : Z) (e : time_entry) :
  d' <> d \/ p' <> p ->
  on_day p' d' e = true -> on_day p d e = false.
Proof.
  intros Hne. unfold on_day, has_project.
  destruct (entry_project e) as [q|]; cbn [andb]; [|discriminate].
  destruct (String.eqb_spec q p'), (String.eqb_spec q p); cbn [andb];
    try discriminate; try reflexivity.
  destruct (Z.eqb_spec (dt_date (entry_start e)) d'),
    (Z.eqb_spec (dt_date (entry_start e)) d); try discriminate; try reflexivity.
  intros _. destruct Hne; congruence.
Qed.

Lemma filter_off_day (p p' : string) (d d' : Z) (es : list time_entry) :
  d' <> d \/ p' <> p ->
  List.filter (on_day p' d') (List.filter (fun e => negb (on_day p d e)) es)
  = List.filter (on_day p' d') es.
Proof.
  intros Hne. rewrite filter_filter. apply filter_ext. intros e.
  destruct (on_day p' d' e) eqn:Hon; [|apply andb_false_r].
  rewrite (on_day_other p p' d d' e Hne Hon). reflexivity.
Qed.

Lemma book_time_entries (project_id : string) (d minutes : Z) (l l' : ledger)
    (resp : option time_entry) :
  wf l -> 0 < minutes ->
  book_time project_id d minutes l = (l', Ok resp) ->
  exists created,
    entries l'
    = List.filter (fun e => negb (on_day project_id d e)) (entries l) ++ [created]
    /\ on_day project_id d created = true.
Proof.
  intros Hwf Hm H.
  apply book_time_inv in H
    as (l1 & r1 & Hd & [(e & [=] & _)|(-> & Hr & He & Hn & Hl)]); [|exact Hm].
  exists (booked project_id d minutes l1).
  rewrite He, (delete_time_entry_entries _ _ _ _ Hwf Hd).
  split; [reflexivity|apply on_day_booked].
Qed.

(** One day of a submit that succeeds. *)
Lemma submit_day_total (project_id : string) (week : list Z)
    (prefilled : gmap Z Z) (i : nat) (inp : Input) (c c1 : bool)
    (l l1 : ledger) (d : Z) :
  wf l -> nth_error week i = Some d ->
  default 0 (prefilled !! d) = day_total project_id d (entries l) ->
  submit_day project_id week prefilled i inp c l = (l1, Ok c1) ->
  wf l1
  /\ day_total project_id d (entries l1)
     = edited inp (day_total project_id d (entries l))
  /\ (forall p' d', d' <> d \/ p' <> project_id ->
        List.filter (on_day p' d') (entries l1)
        = List.filter (on_day p' d') (entries l))
  /\ (c1 = false -> c = false /\ l1 = l).
Proof.
  intros Hwf Hd Hsync. unfold submit_day, index. rewrite Hd.
  unfold Ledger.bind at 1, lift. unfold edited.
  pose proof (day_total_nonneg project_id d (entries l)) as Hnn.
  destruct (disabled inp).
  { unfold ret. intros [= <- <-].
    split; [exact Hwf|]. split; [reflexivity|]. split; auto. }
  unfold Ledger.bind at 1.
  destruct (parse_hours (strip (value inp))) as [m|e]; [|discriminate].
  assert (Hprev : match prefilled !! d with Some v => 0 <? v | None => false end
                  = (0 <? day_total project_id d (entries l))).
  { rewrite <- Hsync. destruct (prefilled !! d); reflexivity. }
  rewrite Hprev, Hsync.
  destruct (Z.eqb_spec m 0) as [->|Hm0]; cbn [andb].
  - destruct (Z.ltb_spec 0 (day_total project_id d (entries l))) as [Hp|Hp].
    + intros H. apply bind_inv in H as [(l2 & [] & Hdel & [= <- <-])|(e & _ & [=])].
      pose proof (delete_time_entry_entries _ _ _ _ Hwf Hdel) as He.
      split; [exact (proj1 (delete_time_entry_frame _ _ _ _ _ Hwf Hdel))|].
      split; [|split; [|discriminate]].
      * unfold day_total at 1.
        fold (targets project_id d l2).
        rewrite (targets_after_delete _ _ _ _ He). reflexivity.
      * intros p' d' Hne. rewrite He. apply filter_off_day. exact Hne.
    + cbn [Z.ltb Z.compare]. unfold ret. intros [= <- <-].
      split; [exact Hwf|]. split; [cbn [Z.leb Z.compare]; lia|]. split; auto.
  - destruct (Z.ltb_spec 0 m) as [Hpos|Hneg].
    + destruct (Z.leb_spec 0 m) as [_|?]; [|lia].
      destruct (negb _ || negb _) eqn:Hchg.
      * intros H. apply bind_inv in H as [(l2 & resp & Hb & [= <- <-])|(e & _ & [=])].
        destruct (book_time_entries _ _ _ _ _ _ Hwf Hpos Hb) as (cr & He & Hon).
        split; [exact (proj1 (book_time_frame _ _ _ _ _ _ Hwf Hb))|].
        split; [exact (day_total_booked _ _ _ _ _ _ Hpos Hb)|].
        split; [|discriminate].
        intros p' d' Hne. rewrite He, List.filter_app, filter_off_day by exact Hne.
        cbn [List.filter].
        destruct (on_day p' d' cr) eqn:Hcr; [|apply app_nil_r].
        rewrite (on_day_other project_id p' d d' cr Hne Hcr) in Hon. discriminate.
      * unfold ret. intros [= <- <-]. apply orb_false_elim in Hchg as [_ Heq].
        apply negb_false_iff, Z.eqb_eq in Heq.
        split; [exact Hwf|]. split; [lia|]. split; auto.
    + destruct (Z.leb_spec 0 m) as [?|_]; [lia|]. unfold ret. intros [= <- <-].
      split; [exact Hwf|]. split; [reflexivity|]. split; auto.
Qed.

Lemma nth_error_unique (week : list Z) (i j : nat) (d : Z) :
  List.NoDup week -> nth_error week i = Some d -> nth_error week j = Some d -> i = j.
Proof.
  intros Hnd Hi Hj. apply (proj1 (List.NoDup_nth_error week) Hnd).
  - apply nth_error_Some. congruence.
  - congruence.
Qed.

(** The loop of a submit that succeeds, from position [i] on. *)
Lemma submit_loop_totals (project_id : string) (week : list Z)
    (prefilled : gmap Z Z) (inps : list Input) :
  List.NoDup week ->
  forall (i : nat) (c c' : bool) (l l' : ledger),
    wf l ->
    (forall j d, nth_error week (i + j) = Some d ->
       default 0 (prefilled !! d) = day_total project_id d (entries l)) ->
    submit_loop project_id week prefilled i inps c l = (l', Ok c') ->
    wf l'
    /\ (forall j inp d,
          nth_error inps j = Some inp -> nth_error week (i + j) = Some d ->
          day_total project_id d (entries l')
          = edited inp (day_total project_id d (entries l)))
    /\ (forall p' d',
          p' <> project_id
          \/ (forall j, (j < length inps)%nat -> nth_error week (i + j) <> Some d') ->
          List.filter (on_day p' d') (entries l')
          = List.filter (on_day p' d') (entries l))
    /\ (c' = false -> c = false /\ l' = l).
Proof.
  intros Hnd. induction inps as [|inp inps IH]; intros i c c' l l' Hwf Hsync;
    cbn [submit_loop].
  - intros [= <- <-]. split; [exact Hwf|]. split; [|split; auto].
    intros j inp d Hj. destruct j; discriminate.
  - intros H. apply bind_inv in H as [(l1 & c1 & Hday & Hrest)|(e & _ & [=])].
    destruct (nth_error week i) as [d|] eqn:Hd.
    2:{ unfold submit_day, index in Hday. rewrite Hd in Hday. discriminate. }
    destruct (submit_day_total _ _ _ _ _ _ _ _ _ _ Hwf Hd
                (Hsync 0%nat d ltac:(rewrite Nat.add_0_r; exact Hd)) Hday)
      as (Hwf1 & Htot & Hframe & Hc1).
    assert (Hlater : forall j d', nth_error week (S i + j) = Some d' -> d' <> d).
    { intros j d' Hj ->. pose proof (nth_error_unique _ _ _ _ Hnd Hd Hj). lia. }
    destruct (IH (S i) c1 c' l1 l' Hwf1) as (Hwf' & Htot' & Hframe' & Hc'); [|exact Hrest|].
    { intros j d' Hj. unfold day_total. rewrite Hframe by (left; eauto).
      apply (Hsync (S j)). rewrite <- Hj. f_equal. lia. }
    split; [exact Hwf'|]. split; [|split].
    + intros [|j] inp' d' Hinp Hw; cbn [nth_error] in Hinp.
      * injection Hinp as <-. rewrite Nat.add_0_r, Hd in Hw. injection Hw as <-.
        rewrite <- Htot. unfold day_total. f_equal. apply Hframe'. right.
        intros j _ Hj. exact (Hlater j d Hj eq_refl).
      * replace (i + S j)%nat with (S i + j)%nat in Hw by lia.
        rewrite (Htot' j inp' d' Hinp Hw). f_equal.
        unfold day_total. f_equal. apply Hframe. left. eauto.
    + intros p' d' Hcond. rewrite Hframe', Hframe; [reflexivity| |].
      * destruct Hcond as [Hp|Hpos]; [right; exact Hp|].
        destruct (Z.eq_dec d' d) as [->|Hne]; [|left; exact Hne].
        destruct (Hpos 0%nat); [cbn [length]; lia|].
        rewrite Nat.add_0_r. exact Hd.
      * destruct Hcond as [Hp|Hpos]; [left; exact Hp|]. right.
        intros j Hj Hw. apply (Hpos (S j)); [cbn [length]; lia|].
        rewrite <- Hw. f_equal. lia.
    + intros ->. destruct (Hc' eq_refl) as [-> ->].
      destruct (Hc1 eq_refl) as [-> ->]. auto.
Qed.

Lemma week_from_NoDup (s : Z) : List.NoDup (week_from s).
Proof.
  rewrite week_from_explicit.
  repeat (apply List.NoDup_cons; [cbn [In]; lia|]). apply List.NoDup_nil.
Qed.

Lemma week_from_bounds (s d : Z) : In d (week_from s) <-> s <= d <= s + 6.
Proof. rewrite week_from_explicit. cbn [In]. lia. Qed.

Lemma reset_ui_prefilled (today : Z) (a a' : ClockifyTUI) :
  reset_ui today a = Ok a' -> prefilled_hours a' = prefilled_hours a.
Proof.
  unfold reset_ui. destruct (selected a); [|intros [= <-]; reflexivity].
  destruct (get_week_dates today (week_offset a)); cbn [rbind]; [|discriminate].
  destruct (rmap _ (range 7)); cbn [rbind]; [|discriminate].
  intros [= <-]. reflexivity.
Qed.

(** A refresh that succeeds leaves the entries alone and shows, for each
    date of the week, the total of that date. *)
Lemma refresh_in_sync (today : Z) (a a' : ClockifyTUI) (project_id : string)
    (s : Z) (l l' : ledger) :
  selected a = Some project_id ->
  get_week_dates today (week_offset a) = Ok (week_from s) ->
  refresh_ui_with_data today a l = (l', Ok a') ->
  entries l' = entries l /\ next_id l' = next_id l
  /\ forall d, In d (week_from s) ->
       default 0 (prefilled_hours a' !! d) = day_total project_id d (entries l).
Proof.
  intros Hsel Hw. unfold refresh_ui_with_data. rewrite Hw, Hsel.
  unfold Ledger.bind at 1, lift. intros H.
  apply bind_inv in H as [(l1 & m & Hg & Hr)|(e & _ & [=])].
  injection Hr as <- Hr. apply reset_ui_prefilled in Hr. cbn [prefilled_hours] in Hr.
  assert (Hhd : hd_error (week_from s) = Some s) by (rewrite week_from_explicit; reflexivity).
  destruct (get_time_entries_inv _ _ _ _ _ _ Hhd Hg) as (He & Hn & _ & ->).
  assert (Hlast : List.last (week_from s) s = s + 6)
    by (rewrite week_from_explicit; reflexivity).
  rewrite Hlast in Hr. split; [exact He|]. split; [exact Hn|].
  intros d Hd. apply week_from_bounds in Hd.
  rewrite Hr, group_by_day_lookup. unfold day_total.
  rewrite filter_on_day_in_range.
  destruct (Z.leb_spec s d); [|lia]. destruct (Z.leb_spec d (s + 6)); [|lia].
  cbn [andb]. destruct (List.filter (on_day project_id d) (entries l)); reflexivity.
Qed.

(** X9.  A submit that succeeds makes the ledger agree with the fields.
    From a view whose Baseline shows the totals of the ledger: each open
    field that reads as [m >= 0] minutes leaves its date with a total of
    [m]; a locked field leaves the total of its date as it was; the view
    that results shows the new totals; and the entries of other projects
    and of dates outside the week are the same as before. *)
Theorem submit_hours_applies_edits (today : Z) (a a' : ClockifyTUI)
    (project_id : string) (week : list Z) (l l' : ledger) :
  MINORDINAL <= today <= MAXORDINAL ->
  wf l ->
  selected a = Some project_id ->
  get_week_dates today (week_offset a) = Ok week ->
  (forall d, In d week ->
     default 0 (prefilled_hours a !! d) = day_total project_id d (entries l)) ->
  submit_hours today a l = (l', Ok a') ->
  (forall i inp d m,
     nth_error (inputs a) i = Some inp -> nth_error week i = Some d ->
     disabled inp = false -> parse_hours (strip (value inp)) = Ok m -> 0 <= m ->
     day_total project_id d (entries l') = m)
  /\ (forall i inp d,
        nth_error (inputs a) i = Some inp -> nth_error week i = Some d ->
        disabled inp = true ->
        day_total project_id d (entries l') = day_total project_id d (entries l))
  /\ (forall d, In d week ->
        default 0 (prefilled_hours a' !! d) = day_total project_id d (entries l'))
  /\ (forall p' d', p' <> project_id \/ ~ In d' week ->
        List.filter (on_day p' d') (entries l')
        = List.filter (on_day p' d') (entries l)).
Proof.
  intros Ht Hwf Hsel Hw Hsync. unfold submit_hours. rewrite Hsel.
  unfold Ledger.bind at 1, lift. rewrite Hw. intros H.
  destruct (get_week_dates_ok _ _ _ Ht Hw) as (Hweek & _ & _).
  apply bind_inv in H as [(l1 & c & Hloop & Hend)|(e & _ & [=])].
  destruct (submit_loop_totals project_id week (prefilled_hours a) (inputs a)
              ltac:(rewrite Hweek; apply week_from_NoDup) 0%nat false c l l1 Hwf)
    as (Hwf1 & Htot & Hframe & Hc); [|exact Hloop|].
  { intros j d Hj. apply Hsync. exact (nth_error_In _ _ Hj). }
  assert (Hent : entries l' = entries l1
                 /\ forall d, In d week ->
                      default 0 (prefilled_hours a' !! d)
                      = day_total project_id d (entries l1)).
  { destruct c.
    - apply bind_inv in Hend as [(l2 & a2 & Hr & [= <- <-])|(e & _ & [=])].
      rewrite Hweek in *.
      destruct (refresh_in_sync _ _ _ _ _ _ _ Hsel Hw Hr) as (He & _ & Hs).
      split; [exact He|exact Hs].
    - injection Hend as <- <-. destruct (Hc eq_refl) as [_ ->].
      split; [reflexivity|exact Hsync]. }
  destruct Hent as [Hent Hsync']. rewrite Hent.
  split; [|split; [|split]].
  - intros i inp d m Hi Hd Hdis Hp Hm.
    rewrite (Htot i inp d Hi Hd). unfold edited. rewrite Hdis, Hp.
    destruct (Z.leb_spec 0 m); [reflexivity|lia].
  - intros i inp d Hi Hd Hdis.
    rewrite (Htot i inp d Hi Hd). unfold edited. rewrite Hdis. reflexivity.
  - exact Hsync'.
  - intros p' d' [Hp|Hd]; apply Hframe; [left; exact Hp|right].
    intros j _ Hj. apply Hd. exact (nth_error_In _ _ Hj).
Qed.

End Convergence.

(** ** Totals that are not shown exactly *)

Section LossyRoundTrip.


Lemma hours_exponent (m : Z) :
  1 <= m < 2 ^ 50 ->
  exists N, 8 <= N <= 1074 /\ 2 ^ 52 * 60 <= m * 2 ^ N /\ m * 2 ^ N < 2 ^ 53 * 60.
Proof.
  intros Hm.
  destruct (normal_exponent m 60) as (N & HN & Hlo & Hhi); try lia.
  exists N. split; [|split; assumption]. split; [|lia].
  destruct (Z_lt_le_dec N 8) as [Hs|]; [exfalso|assumption].
  assert (2 ^ N <= 2 ^ 7) by (apply Z.pow_le_mono_r; lia).
  change (2 ^ 7) with 128 in *. change (2 ^ 52) with 4503599627370496 in *.
  change (2 ^ 50) with 1125899906842624 in *. nia.
Qed.

Lemma tenths_text (k : Z) :
  2 <= k < 10 * 2 ^ 45 ->
  exists l, Float.str (tenths k) = string_of_list_ascii l /\ decimal_text l
    /\ parse_hours (string_of_list_ascii l) = Ok (6 * k).
Proof.
  intros Hk.
  destruct (tenths_shape k ltac:(lia)) as (m & e & Ht & Hm & He & Hnear).
  assert (Hd : 2 ^ 7 <= 2 ^ (- e)) by (apply Z.pow_le_mono_r; lia).
  change (2 ^ 7) with 128 in Hd.
  assert (Hx : 2 ^ (- e) <= 10 * Z.pos m) by nia.
  pose proof (decpt_range m e Hm ltac:(lia) Hx) as Hk0.
  destruct (str_reads_back m e Hm ltac:(lia) Hx) as (l & Hl & Htext & Hparse).
  - exists (Float.decpt (Z.pos m) (2 ^ (- e)) + 1). split; [lia|].
    apply (candidate_tenth m e Hm ltac:(lia) Hx k Ht Hnear).
  - exists l. rewrite Ht. split; [exact Hl|]. split; [exact Htext|].
    rewrite (parse_hours_decimal_text l Htext), Hparse, <- Ht.
    rewrite (tenths_to_minutes k ltac:(lia)). reflexivity.
Qed.

Lemma short_text (l : list ascii) (c1 c2 : ascii) :
  l = [c1; "."%char; c2] -> is_digit c1 = true -> is_digit c2 = true ->
  decimal_text l.
Proof.
  intros -> H1 H2. apply (decimal_text_point [c1] [c2]); cbn [forallb];
    rewrite ?H1, ?H2; try reflexivity; discriminate.
Qed.

(** The text shown for [m] minutes is a plain decimal that reads back as
    a multiple of 6 minutes at most 3 minutes away from [m]. *)
Lemma format_minutes_reads_back (m : Z) :
  1 <= m < 2 ^ 50 ->
  exists l n, format_minutes m = Ok (string_of_list_ascii l)
    /\ decimal_text l
    /\ parse_hours (string_of_list_ascii l) = Ok n
    /\ n mod 6 = 0 /\ -3 <= n - m <= 3.
Proof.
  intros Hm.
  assert (H50 : 2 ^ 50 = 32 * 2 ^ 45) by reflexivity.
  pose proof (Z.div_mod m 60 ltac:(lia)) as Hdiv.
  pose proof (Z.mod_pos_bound m 60 ltac:(lia)) as Hr.
  destruct (Z.eq_dec (m mod 60) 0) as [E60|E60].
  { (* whole hours *)
    set (h := m / 60) in *.
    assert (Hh : 1 <= h < 2 ^ 45) by lia.
    destruct (digits_spec h ltac:(lia)) as (Hd & Hne & Hv & _).
    exists (digits h), m.
    replace m with (6 * (10 * h)) at 1 by lia.
    rewrite (format_minutes_tenths (10 * h)) by lia.
    replace (10 * h) with (h * 10) by lia. rewrite Z.mod_mul, Z.div_mul by lia.
    cbn [Z.eqb]. split.
    { unfold str_int. destruct (Z.ltb_spec h 0); [lia|reflexivity]. }
    split; [apply decimal_text_digits; assumption|].
    split.
    { pose proof (whole_hours_round_trip h Hh) as Hw. unfold str_int in Hw.
      destruct (Z.ltb_spec h 0); [lia|]. rewrite Hw. f_equal. lia. }
    split; [|lia]. replace m with (10 * h * 6) by lia. apply Z.mod_mul. lia. }
  destruct (hours_exponent m Hm) as (N & HN & Hlo & Hhi).
  destruct (round_ratio_value m 60 N) as [Hv HM]; try lia.
  pose proof (mantissa_near m 60 N ltac:(lia)) as [Hnear _].
  set (M := mantissa m 60 N) in *.
  pose proof (pow2_pos N ltac:(lia)) as HA.
  assert (HA8 : 2 ^ 8 <= 2 ^ N) by (apply Z.pow_le_mono_r; lia).
  change (2 ^ 8) with 256 in HA8.
  unfold format_minutes. destruct (Z.eqb_spec m 0); [lia|].
  assert (Hdivf : Float.int_truediv m 60 = Ok (Float.round_ratio false m 60)).
  { unfold Float.int_truediv. destruct (Z.ltb_spec m 0); [lia|].
    rewrite Z.abs_eq by lia. destruct Hv as (m0 & e0 & -> & _). reflexivity. }
  rewrite Hdivf. cbn [rbind].
  rewrite (is_integer_value _ M N Hv) by lia.
  pose proof (Z.div_mod M (2 ^ N) ltac:(lia)) as HdM.
  destruct (Z.eqb_spec (M mod 2 ^ N) 0) as [E|E].
  { exfalso. rewrite E, Z.add_0_r in HdM.
    assert (Hj : -30 <= (60 * (M / 2 ^ N) - m) * 2 ^ N <= 30) by lia.
    assert (60 * (M / 2 ^ N) - m = 0); [|lia].
    destruct (Z.lt_trichotomy (60 * (M / 2 ^ N) - m) 0) as [Hx|[Hx|Hx]];
      [nia|lia|nia]. }
  rewrite (round1_value _ M N Hv) by lia.
  pose proof (Z.div_mod (10 * M) (2 ^ N) ltac:(lia)) as Hd10.
  pose proof (Z.mod_pos_bound (10 * M) (2 ^ N) ltac:(lia)) as Hr10.
  pose proof (round_half_even_bounds (10 * M / 2 ^ N) ((10 * M) mod 2 ^ N)
                (2 ^ N) Hr10) as [Hk1 Hk2].
  set (k := Float.round_half_even (10 * M / 2 ^ N) ((10 * M) mod 2 ^ N) (2 ^ N)) in *.
  fold (tenths k).
  assert (Hk0 : 0 <= k).
  { assert (0 <= 10 * M / 2 ^ N) by (apply Z.div_pos; lia). lia. }
  assert (Hclose : -3 <= 6 * k - m <= 3).
  { assert (-4 * 2 ^ N < (6 * k - m) * 2 ^ N < 4 * 2 ^ N) by nia. nia. }
  destruct (Z.eq_dec k 0) as [->|Hk_0].
  { exists ["0"; "."; "0"]%char, 0. split; [reflexivity|].
    split; [apply (short_text _ "0" "0"); reflexivity|].
    split; [vm_compute; reflexivity|]. split; [reflexivity|lia]. }
  destruct (Z.eq_dec k 1) as [->|Hk_1].
  { exists ["0"; "."; "1"]%char, 6. split; [vm_compute; reflexivity|].
    split; [apply (short_text _ "0" "1"); reflexivity|].
    split; [vm_compute; reflexivity|]. split; [reflexivity|lia]. }
  destruct (tenths_text k) as (l & Hl & Htext & Hparse).
  { split; [lia|]. change (2 ^ 50) with (32 * 2 ^ 45) in Hm.
    change (2 ^ 45) with 35184372088832 in *. lia. }
  exists l, (6 * k). split; [rewrite Hl; reflexivity|].
  split; [exact Htext|]. split; [exact Hparse|].
  split; [|lia]. rewrite Z.mul_comm. apply Z.mod_mul. lia.
Qed.

(** X10.  What is shown for a total reads back as a multiple of 6 minutes at
    most 3 minutes away from it; so the round trip gives the total back
    exactly when the total is a multiple of 6. *)
Theorem format_parse_within_three (m : Z) :
  0 <= m < 2 ^ 50 ->
  exists text n,
    format_minutes m = Ok text /\ parse_hours text = Ok n
    /\ n mod 6 = 0 /\ -3 <= n - m <= 3 /\ (n = m <-> m mod 6 = 0).
Proof.
  intros Hm. destruct (Z.eq_dec m 0) as [->|H0].
  { exists ""%string, 0. split; [reflexivity|]. split; [reflexivity|].
    split; [reflexivity|]. split; [lia|]. split; reflexivity. }
  destruct (format_minutes_reads_back m ltac:(lia)) as (l & n & Hf & _ & Hp & H6 & H3).
  exists (string_of_list_ascii l), n. repeat split; try assumption; try lia.
  - intros ->. exact H6.
  - intros Hm6. pose proof (Z.div_mod n 6 ltac:(lia)).
    pose proof (Z.div_mod m 6 ltac:(lia)). lia.
Qed.

End LossyRoundTrip.

(** ** Submitting what is shown *)

Section UneditedSubmit.






(** X13.  An open field that is empty, or whose text is not a number,
    counts as 0 minutes: when its day has a positive total, the submit
    deletes the entries of that day. *)
Theorem submit_day_deletes_on_blank (project_id : string) (week : list Z)
    (prefilled : gmap Z Z) (i : nat) (inp : Input) (c : bool) (l : ledger)
    (d v : Z) :
  nth_error week i = Some d -> disabled inp = false ->
  prefilled !! d = Some v -> 0 < v ->
  strip (value inp) = ""%string
  \/ Float.of_string (replace "," "." (strip (value inp))) = Raise ValueError ->
  submit_day project_id week prefilled i inp c l
  = (delete_time_entry project_id d ;; ret true) l.
Proof.
  intros Hd Hdis Hv Hpos Htext.
  assert (Hp : parse_hours (strip (value inp)) = Ok 0).
  { unfold parse_hours. destruct Htext as [->|H]; [reflexivity|].
    rewrite H. destruct (String.eqb (strip (value inp)) ""); reflexivity. }
  unfold submit_day, index. rewrite Hd. unfold Ledger.bind at 1, lift.
  rewrite Hdis. unfold Ledger.bind at 1. rewrite Hp, Hv.
  destruct (Z.ltb_spec 0 v); [reflexivity|lia].
Qed.

End UneditedSubmit.

(** ** Hours as they are typed *)

Section TypedHours.

Lemma parse_hours_comma (text : string) :
  parse_hours (replace "," "." text) = parse_hours text.
Proof. unfold parse_hours. rewrite replace_empty, replace_comma_twice. reflexivity. Qed.

Lemma replace_digits (ds : list ascii) :
  forallb is_digit ds = true -> replace_char "," "." ds = ds.
Proof.
  intros H. unfold replace_char. apply map_id_on. intros c Hc.
  pose proof (forallb_In _ _ _ H Hc) as Hd.
  destruct (digit_facts c Hd) as (Hp & _).
  destruct (plain_facts c Hp) as (_ & _ & ->). reflexivity.
Qed.

Lemma tenths_zero_minutes :
  Float.round (Float.mul (Float.of_decimal false 0 (-1)) (Float.of_int 60)) = Ok 0.
Proof. vm_compute. reflexivity. Qed.

(** X14.  Hours typed with at most one decimal are read exactly: [h] as
    [60 * h] minutes and [h.d] or [h,d] as [60 * h + 6 * d] minutes. *)
Theorem parse_hours_one_decimal (h d : Z) (sep : ascii) :
  0 <= h < 2 ^ 45 -> 0 <= d <= 9 -> sep = "."%char \/ sep = ","%char ->
  parse_hours (str_int h) = Ok (60 * h)
  /\ parse_hours (string_of_list_ascii (digits h ++ [sep; digit_char d]))
     = Ok (60 * h + 6 * d).
Proof.
  intros Hh Hd Hsep.
  destruct (digits_nonneg_spec h ltac:(lia)) as (Hds & Hne & Hv).
  destruct (digit_char_val d Hd) as [Hdc Hdv].
  split.
  - destruct (Z.eq_dec h 0) as [->|H0]; [vm_compute; reflexivity|].
    apply whole_hours_round_trip. lia.
  - assert (Hdot : parse_hours (string_of_list_ascii
                                  (digits h ++ ["."%char; digit_char d]))
                   = Ok (60 * h + 6 * d)).
    { assert (Hf : forallb is_digit [digit_char d] = true)
        by (cbn [forallb]; rewrite Hdc; reflexivity).
      rewrite (parse_hours_decimal_text _
                 (decimal_text_point (digits h) [digit_char d] Hds Hf Hne
                    ltac:(discriminate))).
      rewrite (parse_abs_point _ _ Hds Hf Hne).
      rewrite dvalue_app, Hv. cbn [length]. change (- Z.of_nat 1) with (-1).
      change (10 ^ Z.of_nat 1) with 10.
      replace (dvalue [digit_char d]) with d
        by (unfold dvalue, dstep; cbn [fold_left]; lia).
      destruct (Z.eq_dec (h * 10 + d) 0) as [E|E].
      - rewrite E, tenths_zero_minutes. f_equal. lia.
      - change (Float.of_decimal false (h * 10 + d) (-1)) with (tenths (h * 10 + d)).
        rewrite tenths_to_minutes; [f_equal; lia|].
        change (2 ^ 45) with 35184372088832 in *. lia. }
    destruct Hsep as [->| ->]; [exact Hdot|].
    rewrite <- parse_hours_comma. unfold replace. rewrite chars_of_list.
    unfold replace_char. rewrite map_app. fold (replace_char "," "." (digits h)).
    rewrite (replace_digits _ Hds). cbn [map Ascii.eqb Bool.eqb].
    destruct (plain_facts (digit_char d) (proj1 (digit_facts _ Hdc))) as (_ & _ & ->).
    exact Hdot.
Qed.

End TypedHours.

(** ** The week keys *)

Section Navigation.

Lemma reset_ui_fields (today : Z) (a a' : ClockifyTUI) :
  reset_ui today a = Ok a' ->
  selected_project_id a' = selected_project_id a
  /\ week_offset a' = week_offset a /\ notifications a' = notifications a.
Proof.
  unfold reset_ui. destruct (selected a); [|intros [= <-]; auto].
  destruct (get_week_dates today (week_offset a)); cbn [rbind]; [|discriminate].
  destruct (rmap _ (range 7)); cbn [rbind]; [|discriminate].
  intros [= <-]. auto.
Qed.

Lemma refresh_fields (today : Z) (a a' : ClockifyTUI) (l l' : ledger) :
  refresh_ui_with_data today a l = (l', Ok a') ->
  selected_project_id a' = selected_project_id a
  /\ week_offset a' = week_offset a /\ notifications a' = notifications a.
Proof.
  unfold refresh_ui_with_data. intros H.
  apply bind_inv in H as [(l1 & week & _ & H)|(e & _ & [=])].
  apply bind_inv in H as [(l2 & m & _ & H)|(e & _ & [=])].
  injection H as _ H. apply reset_ui_fields in H. exact H.
Qed.

(** What a refresh shows depends on the project, the week offset and the
    notifications only: the fields and the Baseline are built anew. *)
Lemma refresh_ext (today : Z) (a b : ClockifyTUI) (l : ledger) :
  selected a <> None ->
  selected_project_id a = selected_project_id b ->
  week_offset a = week_offset b -> notifications a = notifications b ->
  refresh_ui_with_data today a l = refresh_ui_with_data today b l.
Proof.
  intros Hsel Hp Ho Hn. unfold refresh_ui_with_data, selected in *.
  rewrite <- Hp, <- Ho, <- Hn.
  destruct (selected_project_id a) as [p|]; [|contradiction].
  destruct (String.eqb p "") eqn:Ep; [contradiction|].
  unfold Ledger.bind, lift.
  destruct (get_week_dates today (week_offset a)) as [week|e]; [|reflexivity].
  destruct (get_time_entries p week l) as [l1 [m|e]]; [|reflexivity].
  f_equal. unfold reset_ui, selected. cbn [selected_project_id week_offset
    prefilled_hours notifications].
  rewrite Ep. reflexivity.
Qed.

(** X15.  The week keys undo each other.  After [action_prev_week] has
    succeeded, [action_next_week] is a refresh of the view one started
    from (the same view when no project is selected), and the same holds
    with the two keys exchanged. *)
Theorem week_keys_undo (today : Z) (a a1 : ClockifyTUI) (l l1 : ledger) :
  (action_prev_week today a l = (l1, Ok a1) ->
   action_next_week today a1 l1
   = match selected a with
     | Some _ => refresh_ui_with_data today a l1
     | None => (l1, Ok a)
     end)
  /\ (action_next_week today a l = (l1, Ok a1) ->
      action_prev_week today a1 l1
      = match selected a with
        | Some _ => refresh_ui_with_data today a l1
        | None => (l1, Ok a)
        end).
Proof.
  split; unfold action_prev_week, action_next_week;
    change (selected (set_week_offset _ a)) with (selected a);
    destruct (selected a) as [p|] eqn:Hsel.
  - intros H. destruct (refresh_fields _ _ _ _ _ H) as (Hp & Ho & Hn).
    cbn [set_week_offset selected_project_id week_offset notifications] in Hp, Ho, Hn.
    assert (Hs1 : selected (set_week_offset (week_offset a1 + 1) a1) = Some p).
    { unfold selected in *. cbn [set_week_offset selected_project_id].
      rewrite Hp. exact Hsel. }
    rewrite Hs1. apply refresh_ext; cbn [set_week_offset selected_project_id
      week_offset notifications]; [congruence|assumption|lia|assumption].
  - unfold ret. intros [= <- <-].
    change (selected _) with (selected a). rewrite Hsel. unfold ret. do 2 f_equal.
    clear Hsel. destruct a as [sp o inps pre ns]. unfold set_week_offset.
    cbn [selected_project_id week_offset inputs prefilled_hours notifications].
    f_equal. lia.
  - intros H. destruct (refresh_fields _ _ _ _ _ H) as (Hp & Ho & Hn).
    cbn [set_week_offset selected_project_id week_offset notifications] in Hp, Ho, Hn.
    assert (Hs1 : selected (set_week_offset (week_offset a1 - 1) a1) = Some p).
    { unfold selected in *. cbn [set_week_offset selected_project_id].
      rewrite Hp. exact Hsel. }
    rewrite Hs1. apply refresh_ext; cbn [set_week_offset selected_project_id
      week_offset notifications]; [congruence|assumption|lia|assumption].
  - unfold ret. intros [= <- <-].
    change (selected _) with (selected a). rewrite Hsel. unfold ret. do 2 f_equal.
    clear Hsel. destruct a as [sp o inps pre ns]. unfold set_week_offset.
    cbn [selected_project_id week_offset inputs prefilled_hours notifications].
    f_equal. lia.
Qed.

Lemma get_time_entries_reads (project_id : string) (week : list Z)
    (l l' : ledger) (r : result (gmap Z Z)) :
  get_time_entries project_id week l = (l', r) ->
  entries l' = entries l /\ next_id l' = next_id l
  /\ (l' = l \/ exists s f ok, log l' = log l ++ [(ListEntries s f, ok)]).
Proof.
  unfold get_time_entries. destruct week as [|d week].
  - unfold Ledger.bind, lift. intros [= <- <-]. auto.
  - unfold Ledger.bind at 1, lift. intros H.
    assert (Hs : exists l0 r0,
               send (ListEntries (midnight d)
                       (midnight (List.last (d :: week) d) + 86399)) l = (l0, r0)
               /\ l' = l0).
    { unfold get_entries in H. unfold Ledger.bind in H.
      destruct (send _ l) as [l0 [[]|e]]; injection H as <- <-; eauto. }
    destruct Hs as (l0 & r0 & Hs & ->).
    apply send_inv in Hs as [(_ & He & Hn & Hl)|(_ & He & Hn & Hl)];
      cbn [effect fst snd] in *; split; try assumption; split; try assumption;
      right; eauto.
Qed.

Lemma refresh_reads (today : Z) (a : ClockifyTUI) (l l' : ledger)
    (r : result ClockifyTUI) :
  refresh_ui_with_data today a l = (l', r) ->
  entries l' = entries l /\ next_id l' = next_id l
  /\ (l' = l \/ exists s f ok, log l' = log l ++ [(ListEntries s f, ok)]).
Proof.
  unfold refresh_ui_with_data. unfold Ledger.bind at 1, lift.
  destruct (get_week_dates today (week_offset a)) as [week|e];
    [|intros [= <- <-]; auto].
  destruct (selected a) as [p|].
  - unfold Ledger.bind.
    destruct (get_time_entries p week l) as [l1 r1] eqn:Hg.
    apply get_time_entries_reads in Hg.
    destruct r1; intros [= <- <-]; exact Hg.
  - unfold Ledger.bind, ret. intros [= <- <-]. auto.
Qed.

(** X16.  Moving between weeks and refreshing only read.  Whatever the
    outcome, the entries of the ledger are the same afterwards, and at
    most one request has been sent, a range query. *)
Theorem week_keys_read_only (today : Z) (a : ClockifyTUI) (l l' : ledger)
    (r : result ClockifyTUI) :
  action_prev_week today a l = (l', r)
  \/ action_next_week today a l = (l', r)
  \/ refresh_ui_with_data today a l = (l', r) ->
  entries l' = entries l
  /\ (l' = l \/ exists s f ok, log l' = log l ++ [(ListEntries s f, ok)]).
Proof.
  unfold action_prev_week, action_next_week.
  change (selected (set_week_offset _ a)) with (selected a).
  intros [H|[H|H]]; try (destruct (selected a);
    [|unfold ret in H; injection H as <- <-; auto]);
    apply refresh_reads in H; tauto.
Qed.

End Navigation.

(** ** The default project *)

Section DefaultProject.

Lemma splitlines_go_break (c : ascii) (s cur : list ascii) :
  is_line_break c = true ->
  splitlines_go (c :: s) cur = rev cur :: splitlines_go (after_break c s) [].
Proof.
  intros Hc. cbn [splitlines_go]. rewrite Hc. unfold after_break.
  destruct s as [|c' s']; [reflexivity|]. destruct (_ && _); reflexivity.
Qed.

Lemma splitlines_go_other (c : ascii) (s cur : list ascii) :
  is_line_break c = false ->
  splitlines_go (c :: s) cur = splitlines_go s (c :: cur).
Proof. intros Hc. cbn [splitlines_go]. rewrite Hc. reflexivity. Qed.

Lemma one_line_cons (c : ascii) (l : list ascii) :
  one_line (c :: l) <-> is_line_break c = false /\ one_line l.
Proof.
  unfold one_line. cbn [forallb]. rewrite andb_true_iff, negb_true_iff. reflexivity.
Qed.

Lemma one_line_app (a b : list ascii) :
  one_line (a ++ b) <-> one_line a /\ one_line b.
Proof. unfold one_line. rewrite forallb_app, andb_true_iff. reflexivity. Qed.

Lemma one_line_rev (l : list ascii) : one_line (rev l) <-> one_line l.
Proof.
  induction l as [|c l IH]; [reflexivity|]. cbn [rev].
  rewrite one_line_app, !one_line_cons, IH.
  assert (one_line []) by reflexivity. tauto.
Qed.

(** A run without a boundary goes into the current line. *)
Lemma splitlines_go_run (l : list ascii) :
  one_line l ->
  forall s cur, splitlines_go (l ++ s) cur = splitlines_go s (rev l ++ cur).
Proof.
  induction l as [|c l IH]; intros Hl s cur; [reflexivity|].
  apply one_line_cons in Hl as [Hc Hl]. cbn [app rev].
  rewrite splitlines_go_other by exact Hc. rewrite (IH Hl), <- app_assoc. reflexivity.
Qed.

Lemma is_line_break_LF : is_line_break LF = true.
Proof. reflexivity. Qed.

Lemma after_break_LF (s : list ascii) : after_break LF s = s.
Proof. destruct s; reflexivity. Qed.

Lemma splitlines_join (ls : list (list ascii)) :
  Forall one_line ls -> splitlines (join [LF] ls) = drop_last_empty ls.
Proof.
  unfold splitlines. induction ls as [|l ls IH]; intros Hls; [reflexivity|].
  apply Forall_cons in Hls as [Hl Hls]. cbn [join drop_last_empty].
  destruct ls as [|l2 ls].
  - rewrite <- (app_nil_r l) at 1. rewrite (splitlines_go_run l Hl), app_nil_r.
    destruct l as [|c l]; [reflexivity|]. cbn [splitlines_go].
    destruct (rev (c :: l)) eqn:E; [|rewrite <- E, rev_involutive; reflexivity].
    apply (f_equal (@length ascii)) in E. rewrite length_rev in E. discriminate E.
  - rewrite (splitlines_go_run l Hl), app_nil_r. cbn [app].
    rewrite (splitlines_go_break LF) by reflexivity.
    rewrite after_break_LF, rev_involutive. f_equal. exact (IH Hls).
Qed.

Lemma In_drop_last_empty (ls : list (list ascii)) (x : list ascii) :
  (In x (drop_last_empty ls) -> In x ls)
  /\ (In x ls -> x <> [] -> In x (drop_last_empty ls)).
Proof.
  induction ls as [|l ls [IH1 IH2]]; [split; auto|]. cbn [drop_last_empty].
  destruct ls as [|l2 ls].
  - destruct l; cbn [In]; split; try tauto. intros [<-|[]] H. contradiction.
  - cbn [In] in *. split; [intros [H|H]; auto|].
    intros [H|H] Hx; auto.
Qed.

(** The lines of a text have no boundary in them. *)
Lemma splitlines_go_lines (n : nat) :
  forall s cur line,
    (length s <= n)%nat -> one_line cur ->
    In line (splitlines_go s cur) -> one_line line.
Proof.
  induction n as [|n IH]; intros s cur line Hlen Hcur.
  - destruct s; [|cbn [length] in Hlen; lia]. cbn [splitlines_go].
    destruct cur; [intros []|]. intros [<-|[]]. apply one_line_rev, Hcur.
  - destruct s as [|c s]; cbn [length] in Hlen.
    + cbn [splitlines_go]. destruct cur; [intros []|].
      intros [<-|[]]. apply one_line_rev, Hcur.
    + destruct (is_line_break c) eqn:Hc.
      * rewrite splitlines_go_break by exact Hc. intros [<-|Hin].
        -- apply one_line_rev, Hcur.
        -- apply (IH (after_break c s) [] line); [|reflexivity|exact Hin].
           unfold after_break. destruct s as [|c' s']; [cbn; lia|].
           destruct (_ && _); cbn [length] in *; lia.
      * rewrite splitlines_go_other by exact Hc.
        apply IH; [lia|]. apply one_line_cons. auto.
Qed.

Lemma splitlines_lines (s line : list ascii) :
  In line (splitlines s) -> one_line line.
Proof. apply (splitlines_go_lines (length s)); [lia|reflexivity]. Qed.

(** [startswith] and [contains] find a prefix and a part. *)
Lemma startswith_iff (p s : list ascii) :
  startswith p s = true <-> exists t, s = p ++ t.
Proof.
  revert s. induction p as [|a p IH]; intros s; cbn [startswith].
  - split; [intros _; exists s; reflexivity|reflexivity].
  - destruct s as [|c s]; [split; [discriminate|intros (t & [=])]|].
    rewrite andb_true_iff, IH. split.
    + intros (Ha & t & ->). apply Ascii.eqb_eq in Ha. subst. exists t. reflexivity.
    + intros (t & [= -> ->]). split; [apply Ascii.eqb_refl|exists t; reflexivity].
Qed.

Lemma contains_iff (sub s : list ascii) :
  contains sub s = true <-> exists pre post, s = pre ++ sub ++ post.
Proof.
  induction s as [|c s IH]; cbn [contains].
  - rewrite orb_false_r, startswith_iff. split.
    + intros (t & E). exists [], t. exact E.
    + intros (pre & post & E). destruct pre; [exists post; exact E|discriminate E].
  - rewrite orb_true_iff, startswith_iff, IH. split.
    + intros [(t & E)|(pre & post & E)].
      * exists [], t. exact E.
      * exists (c :: pre), post. rewrite E. reflexivity.
    + intros (pre & post & E). destruct pre as [|c' pre].
      * left. exists post. exact E.
      * right. injection E as -> E. exists pre, post. exact E.
Qed.

(** Every line is a part of the text. *)
Lemma splitlines_go_part (n : nat) :
  forall s cur line,
    (length s <= n)%nat -> In line (splitlines_go s cur) ->
    exists pre post, rev cur ++ s = pre ++ line ++ post.
Proof.
  induction n as [|n IH]; intros s cur line Hlen.
  - destruct s; [|cbn [length] in Hlen; lia]. cbn [splitlines_go].
    destruct cur; [intros []|]. intros [<-|[]]. exists [], [].
    rewrite !app_nil_r. reflexivity.
  - destruct s as [|c s]; cbn [length] in Hlen.
    + cbn [splitlines_go]. destruct cur; [intros []|]. intros [<-|[]].
      exists [], []. rewrite !app_nil_r. reflexivity.
    + destruct (is_line_break c) eqn:Hc.
      * rewrite splitlines_go_break by exact Hc. intros [<-|Hin].
        -- exists [], (c :: s). reflexivity.
        -- destruct (IH (after_break c s) [] line) as (pre & post & E);
             [|exact Hin|].
           { unfold after_break. destruct s as [|c' s']; [cbn; lia|].
             destruct (_ && _); cbn [length] in *; lia. }
           cbn [rev app] in E. unfold after_break in E.
           destruct s as [|c' s'].
           { symmetry in E. apply app_eq_nil in E as [-> E].
             apply app_eq_nil in E as [-> ->].
             exists (rev cur ++ [c]), []. rewrite !app_nil_r. reflexivity. }
           destruct (_ && _).
           ++ exists (rev cur ++ c :: c' :: pre), post. rewrite E.
              rewrite <- !app_assoc. reflexivity.
           ++ exists (rev cur ++ c :: pre), post. rewrite E.
              rewrite <- !app_assoc. reflexivity.
      * rewrite splitlines_go_other by exact Hc. intros Hin.
        destruct (IH s (c :: cur) line ltac:(lia) Hin) as (pre & post & E).
        exists pre, post. rewrite <- E. cbn [rev]. rewrite <- app_assoc. reflexivity.
Qed.

Lemma line_contains (sub s line : list ascii) :
  In line (splitlines s) -> contains sub line = true -> contains sub s = true.
Proof.
  intros Hin Hc. apply contains_iff in Hc as (p1 & p2 & ->).
  destruct (splitlines_go_part (length s) s [] _ ltac:(lia) Hin) as (pre & post & E).
  cbn [rev app] in E. apply contains_iff.
  exists (pre ++ p1), (p2 ++ post). rewrite E, <- !app_assoc. reflexivity.
Qed.

(** What follows a line feed is split on its own. *)
Lemma splitlines_go_app (n : nat) :
  forall s cur t,
    (length s <= n)%nat ->
    splitlines_go (s ++ LF :: t) cur
    = splitlines_go (s ++ [LF]) cur ++ splitlines_go t [].
Proof.
  assert (Hnil : forall cur t,
            splitlines_go (LF :: t) cur = splitlines_go [LF] cur ++ splitlines_go t []).
  { intros cur t. rewrite !(splitlines_go_break LF) by reflexivity.
    rewrite after_break_LF. reflexivity. }
  induction n as [|n IH]; intros s cur t Hlen.
  - destruct s; [|cbn [length] in Hlen; lia]. apply Hnil.
  - destruct s as [|c s]; [apply Hnil|]. cbn [length] in Hlen. cbn [app].
    destruct (is_line_break c) eqn:Hc.
    + rewrite !splitlines_go_break by exact Hc. cbn [app]. f_equal.
      unfold after_break. destruct s as [|c' s']; cbn [app].
      * destruct (Ascii.eqb c CR && Ascii.eqb LF LF); [reflexivity|apply Hnil].
      * cbn [length] in Hlen.
        destruct (Ascii.eqb c CR && Ascii.eqb c' LF).
        -- apply IH. lia.
        -- apply (IH (c' :: s')). cbn [length]. lia.
    + rewrite !splitlines_go_other by exact Hc. apply IH. lia.
Qed.

Lemma splitlines_app (s t : list ascii) :
  splitlines (s ++ LF :: t) = splitlines (s ++ [LF]) ++ splitlines t.
Proof. apply (splitlines_go_app (length s)). lia. Qed.

Lemma splitlines_one_line (l : list ascii) :
  one_line l -> splitlines (l ++ [LF]) = [l].
Proof.
  intros Hl. unfold splitlines. rewrite (splitlines_go_run l Hl), app_nil_r.
  rewrite (splitlines_go_break LF) by reflexivity. rewrite rev_involutive. reflexivity.
Qed.

Lemma endswith_LF (s : list ascii) :
  endswith [LF] s = true -> exists s', s = s' ++ [LF].
Proof.
  unfold endswith. cbn [rev app]. intros H.
  apply startswith_iff in H as (t & E). exists (rev t).
  rewrite <- (rev_involutive s), E. reflexivity.
Qed.

Lemma one_line_ASSIGN : one_line ASSIGN.
Proof. reflexivity. Qed.

Lemma ASSIGN_contains_KEY (line : list ascii) :
  startswith ASSIGN line = true -> contains KEY line = true.
Proof.
  intros H. apply startswith_iff in H as (t & ->). apply contains_iff.
  exists [], ("="%char :: t). reflexivity.
Qed.

Lemma contains_KEY_before_LF (s : list ascii) :
  contains KEY (s ++ [LF]) = true -> contains KEY s = true.
Proof.
  intros H. apply contains_iff in H as (pre & post & E). apply contains_iff.
  destruct (rev post) as [|x rpost] eqn:Hp.
  - apply (f_equal (@rev ascii)) in Hp. rewrite rev_involutive in Hp.
    cbn [rev] in Hp. subst post. rewrite app_nil_r in E.
    change KEY with (list_ascii_of_string "DEFAULT_PROJECT_I" ++ ["D"%char]) in E.
    rewrite app_assoc in E. apply app_inj_tail in E as [_ E]. discriminate E.
  - apply (f_equal (@rev ascii)) in Hp. rewrite rev_involutive in Hp.
    cbn [rev] in Hp. subst post. rewrite !app_assoc in E.
    apply app_inj_tail in E as [E _]. exists pre, (rev rpost).
    rewrite E, <- app_assoc. reflexivity.
Qed.

(** The lines of the new text when the key does not occur in the old
    one: the lines of the old text, closed by a line feed, and the
    assignment. *)
Lemma new_env_content_appends (project_id env_content : list ascii) :
  one_line project_id -> contains KEY env_content = false ->
  exists old,
    contains KEY old = false
    /\ new_env_content project_id env_content = old ++ ASSIGN ++ project_id ++ [LF]
    /\ splitlines (new_env_content project_id env_content)
       = splitlines old ++ [ASSIGN ++ project_id].
Proof.
  intros Hid Hc. unfold new_env_content. rewrite Hc.
  assert (Hline : splitlines (ASSIGN ++ project_id ++ [LF]) = [ASSIGN ++ project_id]).
  { rewrite app_assoc. apply splitlines_one_line. apply one_line_app.
    split; [exact one_line_ASSIGN|exact Hid]. }
  destruct env_content as [|c s]; cbn [negb andb].
  { exists []. split; [reflexivity|]. split; [reflexivity|]. exact Hline. }
  destruct (endswith [LF] (c :: s)) eqn:He; cbn [negb].
  - exists (c :: s). split; [exact Hc|]. split; [reflexivity|].
    destruct (endswith_LF _ He) as (s' & E). rewrite E at 1.
    rewrite <- app_assoc. cbn [app]. rewrite splitlines_app, Hline, <- E. reflexivity.
  - exists ((c :: s) ++ [LF]). split; [|split; [reflexivity|]].
    + destruct (contains KEY ((c :: s) ++ [LF])) eqn:Hc'; [|reflexivity].
      rewrite (contains_KEY_before_LF _ Hc') in Hc. discriminate Hc.
    + replace (((c :: s) ++ [LF]) ++ ASSIGN ++ project_id ++ [LF])
        with ((c :: s) ++ LF :: (ASSIGN ++ project_id ++ [LF]))
        by (rewrite <- app_assoc; reflexivity).
      rewrite (splitlines_app (c :: s)), Hline. reflexivity.
Qed.

(** X17.  [save_default_project] records the selected project: when the
    identifier has no line boundary in it and the old text either does
    not hold the key at all or has a line that begins with the
    assignment, the new text has the line that assigns the identifier,
    and every line that begins with the assignment is that line. *)
Theorem save_default_project_sets_line (a : ClockifyTUI)
    (env : option (list ascii)) (project_id : string) :
  selected a = Some project_id ->
  one_line (list_ascii_of_string project_id) ->
  let old := match env with Some text => universal_newlines text | None => [] end in
  contains KEY old = false
  \/ (exists line, In line (splitlines old) /\ startswith ASSIGN line = true) ->
  exists new,
    save_default_project a env = Some new
    /\ In (ASSIGN ++ list_ascii_of_string project_id) (splitlines new)
    /\ forall line, In line (splitlines new) -> startswith ASSIGN line = true ->
         line = ASSIGN ++ list_ascii_of_string project_id.
Proof.
  intros Hsel Hid old Hold. unfold save_default_project. rewrite Hsel. fold old.
  set (id := list_ascii_of_string project_id) in *.
  exists (new_env_content id old). split; [reflexivity|].
  destruct (contains KEY old) eqn:Hc.
  - destruct Hold as [[=]|(line0 & Hin0 & Hs0)].
    unfold new_env_content. rewrite Hc.
    set (upd := fun line => if startswith ASSIGN line then ASSIGN ++ id else line).
    assert (Hone : Forall one_line (map upd (splitlines old))).
    { apply Forall_forall. intros x Hx. apply list_elem_of_In in Hx.
      apply in_map_iff in Hx as (y & <- & Hy).
      unfold upd. destruct (startswith ASSIGN y).
      - apply one_line_app. split; [exact one_line_ASSIGN|exact Hid].
      - exact (splitlines_lines _ _ Hy). }
    rewrite (splitlines_join _ Hone). split.
    + apply (proj2 (In_drop_last_empty _ _)); [|discriminate].
      apply in_map_iff. exists line0. split; [|exact Hin0].
      unfold upd. rewrite Hs0. reflexivity.
    + intros line Hin Hs. apply (proj1 (In_drop_last_empty _ _)) in Hin.
      apply in_map_iff in Hin as (y & <- & Hy). unfold upd in *.
      destruct (startswith ASSIGN y) eqn:Hy'; [reflexivity|congruence].
  - destruct (new_env_content_appends id old Hid Hc) as (old' & Hc' & _ & Hlines).
    rewrite Hlines. split; [apply in_or_app; right; left; reflexivity|].
    intros line Hin Hs. apply in_app_or in Hin as [Hin|[<-|[]]]; [|reflexivity].
    rewrite (line_contains KEY old' line Hin (ASSIGN_contains_KEY _ Hs)) in Hc'.
    discriminate Hc'.
Qed.

(** X18.  The key for the default project does not record the project when
    [DEFAULT_PROJECT_ID] occurs in the old text but no line begins with
    the assignment (the key in a comment, after [export], or as the end
    of a longer name): the file is written back with the lines it had,
    no line of it begins with the assignment, and the user is still told
    that the default project is set. *)
Theorem action_set_default_misses (a : ClockifyTUI)
    (env : option (list ascii)) (project_id : string) :
  selected a = Some project_id ->
  let old := match env with Some text => universal_newlines text | None => [] end in
  contains KEY old = true ->
  (forall line, In line (splitlines old) -> startswith ASSIGN line = false) ->
  action_set_default a env
  = (notify "Default project set!" a, Some (join [LF] (splitlines old)))
  /\ forall line, In line (splitlines (join [LF] (splitlines old))) ->
       startswith ASSIGN line = false.
Proof.
  intros Hsel old Hc Hno. unfold action_set_default, save_default_project.
  rewrite Hsel. fold old. split.
  - unfold new_env_content. rewrite Hc. do 3 f_equal.
    apply map_id_on. intros line Hin. rewrite (Hno line Hin). reflexivity.
  - intros line Hin. apply Hno.
    rewrite splitlines_join in Hin.
    + exact (proj1 (In_drop_last_empty _ _) Hin).
    + apply Forall_forall. intros x Hx. apply list_elem_of_In in Hx.
      exact (splitlines_lines _ _ Hx).
Qed.

End DefaultProject.

(** ** The properties on sample data *)

Section Instances.

Lemma wf_crowded_ledger : wf crowded_ledger.
Proof.
  split.
  - cbn. repeat (apply List.NoDup_cons; [cbn [In]; lia|]). apply List.NoDup_nil.
  - cbn. repeat (apply List.Forall_cons; [cbn; lia|]). apply List.Forall_nil.
Qed.

Lemma wf_with_faults (script : list bool) (l : ledger) : wf l -> wf (with_faults script l).
Proof. intros H. exact H. Qed.

Lemma reset_ui_locks_by_week_witness :
  map disabled (inputs (built 738889 next_week_view))
  = map (fun i => weekday 738889 <? 7 * week_offset next_week_view + i) (range 7)
  /\ (1 <= week_offset next_week_view ->
      map disabled (inputs (built 738889 next_week_view)) = repeat true 7)
  /\ (week_offset next_week_view <= -1 ->
      map disabled (inputs (built 738889 next_week_view)) = repeat false 7).
Proof.
  apply (reset_ui_locks_by_week 738889 next_week_view);
    [split; apply Z.leb_le; vm_compute; reflexivity
    |discriminate
    |vm_compute; reflexivity].
Defined.

Lemma parse_duration_reads_hours_and_minutes_witness :
  let text (l : list ascii) := Some (string_of_list_ascii ("P" :: "T" :: l))%char in
  parse_duration (text (digits 1 ++ "H" :: digits 30 ++ "M" :: ["1"; "5"; "S"]))%char
  = 60 * 1 + 30
  /\ parse_duration (text (digits 1 ++ ["H"]))%char = 60 * 1
  /\ parse_duration (text (digits 30 ++ "M" :: ["1"; "5"; "S"]))%char = 30
  /\ parse_duration (text (digits 1 ++ "H" :: digits 15 ++ "S" :: ["1"; "5"; "S"]))%char
     = 60 * 1
  /\ parse_duration (text (digits 15 ++ "S" :: ["1"; "5"; "S"]))%char = 0.
Proof.
  apply (parse_duration_reads_hours_and_minutes 1 30 15 ["1"; "5"; "S"]%char); lia.
Defined.

Lemma delete_time_entry_removes_day_witness :
  let l' := fst (delete_time_entry "p" 738886 crowded_ledger) in
  entries l' = List.filter (fun e => negb (on_day "p" 738886 e)) (entries crowded_ledger)
  /\ log l' = log crowded_ledger
              ++ (ListEntries (midnight 738886) (midnight 738886 + 86399), true)
                 :: deletions (targets "p" 738886 crowded_ledger).
Proof.
  apply (delete_time_entry_removes_day "p" 738886 crowded_ledger);
    [exact wf_crowded_ledger|vm_compute; reflexivity].
Defined.

Lemma delete_time_entry_twice_witness :
  let l1 := fst (delete_time_entry "p" 738886 crowded_ledger) in
  let l2 := fst (delete_time_entry "p" 738886 l1) in
  entries l2 = entries l1
  /\ log l2 = log l1 ++ [(ListEntries (midnight 738886) (midnight 738886 + 86399), true)].
Proof.
  apply (delete_time_entry_twice "p" 738886 crowded_ledger);
    [exact wf_crowded_ledger|vm_compute; reflexivity|vm_compute; reflexivity].
Defined.

Lemma delete_time_entry_partial_witness :
  let l := with_faults [false; false; true] crowded_ledger in
  let l' := fst (delete_time_entry "p" 738886 l) in
  RequestException = RequestException
  /\ exists n,
       List.filter (on_day "p" 738886) (entries l') = skipn n (targets "p" 738886 l)
       /\ List.filter (fun x => negb (on_day "p" 738886 x)) (entries l')
          = List.filter (fun x => negb (on_day "p" 738886 x)) (entries l).
Proof.
  apply (delete_time_entry_partial "p" 738886
           (with_faults [false; false; true] crowded_ledger));
    [exact (wf_with_faults _ _ wf_crowded_ledger)|vm_compute; reflexivity].
Defined.

Lemma book_time_overflow_after_delete_witness :
  let l1 := fst (delete_time_entry "p" 738886 crowded_ledger) in
  book_time "p" 738886 6000000000 crowded_ledger = (l1, Raise OverflowError)
  /\ List.filter (on_day "p" 738886) (entries l1) = [].
Proof.
  apply (book_time_overflow_after_delete "p" 738886 6000000000 crowded_ledger);
    [exact wf_crowded_ledger
    |split; [apply Z.ltb_lt|apply Z.leb_le]; vm_compute; reflexivity
    |lia
    |apply Z.ltb_lt; vm_compute; reflexivity
    |vm_compute; reflexivity].
Defined.

Lemma book_time_then_baseline_witness :
  group_by_day "p" (entries (fst (book_time "p" 738886 120 crowded_ledger))) !! 738886
  = Some 120.
Proof.
  apply (book_time_then_baseline "p" 738886 120 crowded_ledger _
           (Some (booked "p" 738886 120 crowded_ledger)));
    [lia|vm_compute; reflexivity].
Defined.

Lemma get_time_entries_totals_witness :
  let l' := fst (get_time_entries "p" sample_week crowded_ledger) in
  let m := group_by_day "p" (entries crowded_ledger) in
  let last := List.last sample_week 738886 in
  entries l' = entries crowded_ledger
  /\ log l' = log crowded_ledger
              ++ [(ListEntries (midnight 738886) (midnight last + 86399), true)]
  /\ forall d,
       m !! d = if (738886 <=? d) && (d <=? last)
                then group_by_day "p" (entries crowded_ledger) !! d
                else None.
Proof.
  apply (get_time_entries_totals "p" sample_week 738886 crowded_ledger);
    [reflexivity|vm_compute; reflexivity].
Defined.

Lemma format_parse_within_three_witness :
  exists text n,
    format_minutes 95 = Ok text /\ parse_hours text = Ok n
    /\ n mod 6 = 0 /\ -3 <= n - 95 <= 3 /\ (n = 95 <-> 95 mod 6 = 0).
Proof.
  apply (format_parse_within_three 95).
  split; [lia|apply Z.ltb_lt; vm_compute; reflexivity].
Defined.

Lemma parse_hours_one_decimal_witness :
  parse_hours (str_int 2) = Ok (60 * 2)
  /\ parse_hours (string_of_list_ascii (digits 2 ++ [","%char; digit_char 5]))
     = Ok (60 * 2 + 6 * 5).
Proof.
  apply (parse_hours_one_decimal 2 5 ","%char);
    [split; [lia|apply Z.ltb_lt; vm_compute; reflexivity]|lia|right; reflexivity].
Defined.




Lemma submit_day_deletes_on_blank_witness :
  submit_day "p" sample_week {[ 738886 := 60 ]} 0 (enabled "abc") false
    (sample_ledger [])
  = (delete_time_entry "p" 738886 ;; ret true) (sample_ledger []).
Proof.
  apply (submit_day_deletes_on_blank "p" sample_week {[ 738886 := 60 ]} 0
           (enabled "abc") false (sample_ledger []) 738886 60);
    [reflexivity|reflexivity|apply lookup_singleton_eq|lia
    |right; vm_compute; reflexivity].
Defined.

Lemma synced_view_in_sync (d : Z) :
  In d sample_week ->
  default 0 (prefilled_hours synced_view !! d) = day_total "p" d (entries (sample_ledger [])).
Proof.
  unfold sample_week. cbn [In].
  intros [<-|[<-|[<-|[<-|[<-|[<-|[<-|[]]]]]]]]; vm_compute; reflexivity.
Qed.

Lemma submit_hours_applies_edits_witness :
  let a := type_text 1 "2" (type_text 0 "0" (built 738889 synced_view)) in
  let l := sample_ledger [] in
  let l' := fst (submit_hours 738889 a l) in
  let a' := match snd (submit_hours 738889 a l) with Ok x => x | Raise _ => a end in
  (forall i inp d m,
     nth_error (inputs a) i = Some inp -> nth_error sample_week i = Some d ->
     disabled inp = false -> parse_hours (strip (value inp)) = Ok m -> 0 <= m ->
     day_total "p" d (entries l') = m)
  /\ (forall i inp d,
        nth_error (inputs a) i = Some inp -> nth_error sample_week i = Some d ->
        disabled inp = true ->
        day_total "p" d (entries l') = day_total "p" d (entries l))
  /\ (forall d, In d sample_week ->
        default 0 (prefilled_hours a' !! d) = day_total "p" d (entries l'))
  /\ (forall p' d', p' <> "p"%string \/ ~ In d' sample_week ->
        List.filter (on_day p' d') (entries l')
        = List.filter (on_day p' d') (entries l)).
Proof.
  apply (submit_hours_applies_edits 738889
           (type_text 1 "2" (type_text 0 "0" (built 738889 synced_view))));
    [split; apply Z.leb_le; vm_compute; reflexivity
    |exact (wf_sample_ledger [])
    |reflexivity
    |vm_compute; reflexivity
    |exact synced_view_in_sync
    |vm_compute; reflexivity].
Defined.

Lemma week_keys_read_only_witness :
  let l' := fst (action_prev_week 738889 synced_view (sample_ledger [])) in
  entries l' = entries (sample_ledger [])
  /\ (l' = sample_ledger []
      \/ exists s f ok, log l' = log (sample_ledger []) ++ [(ListEntries s f, ok)]).
Proof.
  apply (week_keys_read_only 738889 synced_view (sample_ledger []) _
           (snd (action_prev_week 738889 synced_view (sample_ledger [])))).
  left. apply surjective_pairing.
Defined.

Lemma save_default_project_sets_line_witness :
  exists new,
    save_default_project synced_view (Some plain_env) = Some new
    /\ In (ASSIGN ++ list_ascii_of_string "p") (splitlines new)
    /\ forall line, In line (splitlines new) -> startswith ASSIGN line = true ->
         line = ASSIGN ++ list_ascii_of_string "p".
Proof.
  apply (save_default_project_sets_line synced_view (Some plain_env) "p");
    [reflexivity|reflexivity|left; vm_compute; reflexivity].
Defined.

Lemma action_set_default_misses_witness :
  let old := universal_newlines commented_env in
  action_set_default synced_view (Some commented_env)
  = (notify "Default project set!" synced_view, Some (join [LF] (splitlines old)))
  /\ forall line, In line (splitlines (join [LF] (splitlines old))) ->
       startswith ASSIGN line = false.
Proof.
  apply (action_set_default_misses synced_view (Some commented_env) "p");
    [reflexivity|vm_compute; reflexivity|].
  intros line Hin. vm_compute in Hin. destruct Hin as [<-|[]]. reflexivity.
Defined.

End Instances.
